(** * ClusterComm: the coordinator's dispatcher for requests to DB servers

    A shallow embedding of [arangod/Cluster/ClusterComm.cpp]: destination
    resolution, request preparation, the asynchronous and the synchronous
    submit paths, the ticket table [responses], [enquire], [wait], [drop]
    and the result handling of [performRequests].

    Conventions.
    - [std::string] is [string]; [substr] clamps its length argument as the
      C++ one does.
    - [std::unordered_map<std::string, std::string>] (header fields) is a
      [gmap string string]; [m[k] = v] is [<[k:=v]> m].
    - 64-bit identifiers (tickets, transaction ids) are [Z] in [0, 2^64).
    - [ClusterCommTimeout] and [TRI_microtime()] are C++ doubles. They are
      only copied, compared, added and clamped by the code modelled here,
      and are represented by exact rationals [Q].
    - What other threads do (the transport's callbacks on the driver thread)
      is an explicit argument of the blocking loops. *)

From Stdlib Require Import QArith Qminmax Lqa.
From stdpp Require Import gmap strings pretty list fin_maps.

Local Open Scope Z_scope.

(** ** Strings *)

(** [s.substr(pos, len)]: at most [len] characters from [pos]. *)
Definition substr (pos len : nat) (s : string) : string :=
  String.substring pos len s.

(** [s.substr(pos)]: the rest of [s] from [pos]. The C++ call throws
    [std::out_of_range] when [pos > s.size()]; every call below follows a
    successful comparison of the first [pos] characters, so that case does
    not arise (see [substr_eq_length]). *)
Definition substr_from (pos : nat) (s : string) : string :=
  String.substring pos (String.length s - pos) s.

Definition string_eqb (a b : string) : bool := bool_decide (a = b).

Definition string_empty (s : string) : bool := bool_decide (s = "").

(** ** Data model *)

Definition ClientTransactionID := string.
Definition CoordTransactionID := Z.
Definition OperationID := Z.
Definition Ticket := Z.
Definition ShardID := string.
Definition ServerID := string.
Definition ClusterCommTimeout := Q.

Definition uint64_max : Z := 2 ^ 64.

Inductive ClusterCommOpStatus : Set :=
  | CL_COMM_SUBMITTED
  | CL_COMM_SENDING
  | CL_COMM_SENT
  | CL_COMM_TIMEOUT
  | CL_COMM_RECEIVED
  | CL_COMM_ERROR
  | CL_COMM_DROPPED
  | CL_COMM_BACKEND_UNAVAILABLE.

#[global] Instance ClusterCommOpStatus_eq_dec : EqDecision ClusterCommOpStatus.
Proof. solve_decision. Defined.

Inductive RequestType : Set :=
  | DELETE_REQ | GET | HEAD | OPTIONS | POST | PUT | PATCH | ILLEGAL.

Inductive ContentType : Set := JSON | VPACK | TEXT | HTML | DUMP | CUSTOM.

(** What [HttpRequest::createHttpRequest(type, body, length, headers)]
    followed by [setRequestType] was given. *)
Record HttpRequest : Type := mkHttpRequest {
  req_contentType : ContentType;
  req_body : string;
  req_headers : gmap string string;
  req_requestType : RequestType
}.

(** The response object handed to the transport's callbacks. *)
Record GeneralResponse : Type := mkGeneralResponse {
  resp_code : Z;
  resp_body : string;
  resp_headers : gmap string string
}.

Record ClusterCommResult : Type := mkClusterCommResult {
  clientTransactionID : ClientTransactionID;
  coordTransactionID : CoordTransactionID;
  operationID : OperationID;
  shardID : ShardID;
  serverID : ServerID;
  endpoint : string;
  errorMessage : string;
  status : ClusterCommOpStatus;
  dropped : bool;
  single : bool;
  result : option GeneralResponse;
  answer_code : Z;
  sendWasComplete : bool
}.

Definition set_clientTransactionID (v : ClientTransactionID) (r : ClusterCommResult) :=
  mkClusterCommResult v (coordTransactionID r) (operationID r) (shardID r)
    (serverID r) (endpoint r) (errorMessage r) (status r) (dropped r)
    (single r) (result r) (answer_code r) (sendWasComplete r).
Definition set_coordTransactionID (v : CoordTransactionID) (r : ClusterCommResult) :=
  mkClusterCommResult (clientTransactionID r) v (operationID r) (shardID r)
    (serverID r) (endpoint r) (errorMessage r) (status r) (dropped r)
    (single r) (result r) (answer_code r) (sendWasComplete r).
Definition set_operationID (v : OperationID) (r : ClusterCommResult) :=
  mkClusterCommResult (clientTransactionID r) (coordTransactionID r) v (shardID r)
    (serverID r) (endpoint r) (errorMessage r) (status r) (dropped r)
    (single r) (result r) (answer_code r) (sendWasComplete r).
Definition set_shardID (v : ShardID) (r : ClusterCommResult) :=
  mkClusterCommResult (clientTransactionID r) (coordTransactionID r) (operationID r) v
    (serverID r) (endpoint r) (errorMessage r) (status r) (dropped r)
    (single r) (result r) (answer_code r) (sendWasComplete r).
Definition set_serverID (v : ServerID) (r : ClusterCommResult) :=
  mkClusterCommResult (clientTransactionID r) (coordTransactionID r) (operationID r)
    (shardID r) v (endpoint r) (errorMessage r) (status r) (dropped r)
    (single r) (result r) (answer_code r) (sendWasComplete r).
Definition set_endpoint (v : string) (r : ClusterCommResult) :=
  mkClusterCommResult (clientTransactionID r) (coordTransactionID r) (operationID r)
    (shardID r) (serverID r) v (errorMessage r) (status r) (dropped r)
    (single r) (result r) (answer_code r) (sendWasComplete r).
Definition set_errorMessage (v : string) (r : ClusterCommResult) :=
  mkClusterCommResult (clientTransactionID r) (coordTransactionID r) (operationID r)
    (shardID r) (serverID r) (endpoint r) v (status r) (dropped r)
    (single r) (result r) (answer_code r) (sendWasComplete r).
Definition set_status (v : ClusterCommOpStatus) (r : ClusterCommResult) :=
  mkClusterCommResult (clientTransactionID r) (coordTransactionID r) (operationID r)
    (shardID r) (serverID r) (endpoint r) (errorMessage r) v (dropped r)
    (single r) (result r) (answer_code r) (sendWasComplete r).
Definition set_dropped (v : bool) (r : ClusterCommResult) :=
  mkClusterCommResult (clientTransactionID r) (coordTransactionID r) (operationID r)
    (shardID r) (serverID r) (endpoint r) (errorMessage r) (status r) v
    (single r) (result r) (answer_code r) (sendWasComplete r).
Definition set_single (v : bool) (r : ClusterCommResult) :=
  mkClusterCommResult (clientTransactionID r) (coordTransactionID r) (operationID r)
    (shardID r) (serverID r) (endpoint r) (errorMessage r) (status r) (dropped r)
    v (result r) (answer_code r) (sendWasComplete r).

(** [communicator::Options], as far as the dispatcher sets it. *)
Record Options : Type := mkOptions {
  connectionTimeout : Q;
  requestTimeout : Q
}.

(** Log lines written through [LOG_TOPIC]. *)
Inductive LogLevel : Set := ERR | INFO | DEBUG | TRACE.

Record LogLine : Type := mkLogLine {
  log_level : LogLevel;
  log_text : string
}.

(** ** The collaborators of the dispatcher

    [ClusterInfo], [ServerState], [Transaction::_makeNolockHeaders], the
    hybrid logical clock and the build configuration are outside this
    translation unit, and so are the declarations of [ClusterComm.h];
    the dispatcher is modelled over any choice of them. *)
Record Env : Type := mkEnv {
  (** [ClusterInfo::getResponsibleServer] *)
  getResponsibleServer : ShardID -> list ServerID;
  (** [ClusterInfo::getServerEndpoint], empty when unknown *)
  getServerEndpoint : ServerID -> string;
  (** [ServerState::getAuthentication] *)
  getAuthentication : string;
  (** [Transaction::_makeNolockHeaders]: [None] is the null pointer *)
  makeNolockHeaders : option (gset string);
  (** [HybridLogicalClock::encodeTimeStamp] *)
  encodeTimeStamp : Z -> string;
  (** [ClusterComm::logConnectionErrors()] *)
  logConnectionErrors : bool;
  (** whether [TRI_ASSERT] is compiled in (maintainer mode) *)
  maintainerMode : bool;
  (** the status a default-constructed [ClusterCommResult] starts in *)
  defaultStatus : ClusterCommOpStatus;
  (** a default-constructed [communicator::Options] *)
  defaultOptions : Options;
  (** [ClusterCommResult::fromResponse] *)
  fromResponse : GeneralResponse -> ClusterCommResult -> ClusterCommResult;
  (** [ClusterCommResult::fromError] *)
  fromError : Z -> option GeneralResponse -> ClusterCommResult -> ClusterCommResult
}.

(** Modelled from the spec: the name of the HLC header, which
    [StaticStrings.h] as given does not declare ("Other headers set by
    dispatcher: Authorization, X-Arango-HLC, ..."). *)
Definition HLCHeader : string := "X-Arango-HLC".

(** [ClusterCommResult()]: strings empty, numbers zero, flags cleared. *)
Definition new_ClusterCommResult (env : Env) : ClusterCommResult :=
  {| clientTransactionID := "";
     coordTransactionID := 0;
     operationID := 0;
     shardID := "";
     serverID := "";
     endpoint := "";
     errorMessage := "";
     status := defaultStatus env;
     dropped := false;
     single := false;
     result := None;
     answer_code := 0;
     sendWasComplete := false |}.

(** ** Destination resolution *)

Definition connection_log (env : Env) (text : string) : LogLine :=
  if logConnectionErrors env then mkLogLine ERR text else mkLogLine INFO text.

(** [ClusterCommResult::setDestination]: the updated record and the lines
    logged on the way. *)
Definition setDestination (env : Env) (dest : string) (r : ClusterCommResult)
  : ClusterCommResult * list LogLine :=
  let lookup_endpoint (r : ClusterCommResult) (logs : list LogLine) :=
    let r := set_endpoint (getServerEndpoint env (serverID r)) r in
    if string_empty (endpoint r) then
      let r := set_status CL_COMM_BACKEND_UNAVAILABLE r in
      let r := set_errorMessage
                 ("did not find endpoint of server '" +:+ serverID r +:+ "'") r in
      (r, logs ++ [connection_log env
                     ("did not find endpoint of server '" +:+ serverID r +:+ "'")])
    else (r, logs) in
  if string_eqb (substr 0 6 dest) "shard:" then
    let r := set_shardID (substr_from 6 dest) r in
    match getResponsibleServer env (shardID r) with
    | first :: _ =>
        let r := set_serverID first r in
        lookup_endpoint r [mkLogLine DEBUG ("Responsible server: " +:+ serverID r)]
    | [] =>
        let r := set_serverID "" r in
        let r := set_status CL_COMM_BACKEND_UNAVAILABLE r in
        (r, [connection_log env
               ("cannot find responsible server for shard '" +:+ shardID r +:+ "'")])
    end
  else if string_eqb (substr 0 7 dest) "server:" then
    let r := set_shardID "" r in
    let r := set_serverID (substr_from 7 dest) r in
    lookup_endpoint r []
  else if string_eqb (substr 0 6 dest) "tcp://"
          || string_eqb (substr 0 6 dest) "ssl://" then
    let r := set_shardID "" r in
    let r := set_serverID "" r in
    let r := set_endpoint dest r in
    (r, [])
  else
    let r := set_shardID "" r in
    let r := set_serverID "" r in
    let r := set_endpoint "" r in
    let r := set_status CL_COMM_BACKEND_UNAVAILABLE r in
    let r := set_errorMessage ("did not understand destination'" +:+ dest +:+ "'") r in
    (r, [connection_log env ("did not understand destination '" +:+ dest +:+ "'")]).

(** [ClusterComm::createCommunicatorDestination] *)
Definition createCommunicatorDestination (endpoint path : string) : string :=
  let httpEndpoint :=
    if string_eqb (substr 0 6 endpoint) "tcp://" then
      "http://" +:+ substr_from 6 endpoint
    else if string_eqb (substr 0 6 endpoint) "ssl://" then
      "https://" +:+ substr_from 6 endpoint
    else "" in
  httpEndpoint +:+ path.

(** ** The transport *)

(** The closures handed to [Communicator::addRequest]: what they capture. *)
Inductive Callbacks : Type :=
  (** [asyncRequest] with a caller callback: update [*result], call it *)
  | CallbackCaller (result : nat) (callback : nat)
  (** [asyncRequest] without: update [*result], broadcast [somethingReceived] *)
  | CallbackBroadcast (result : nat)
  (** [syncRequest]: update the local result, signal the private [cv] *)
  | CallbackSignal.

Record NewRequest : Type := mkNewRequest {
  _destination : string;
  _request : HttpRequest;
  _callbacks : Callbacks;
  _options : Options;
  _ticketId : Z
}.

Record Communicator : Type := mkCommunicator {
  NEXT_TICKET_ID : Z;
  _newRequests : list NewRequest
}.

(** Modelled from the spec: [Communicator::addRequest], whose definition
    ([Communicator.cpp]) is not part of the sources at hand. "submit(destUrl,
    request, callbacks, options) -> ticket"; tickets come from a monotonic
    64-bit source, skipping zero. The request is queued in [_newRequests]
    for the driver thread. *)
Definition next_ticket (c : Communicator) : Ticket :=
  if NEXT_TICKET_ID c =? 0 then 1 else NEXT_TICKET_ID c.

Definition addRequest (c : Communicator) (destination : string)
    (request : HttpRequest) (callbacks : Callbacks) (options : Options)
  : Ticket * Communicator :=
  let id := next_ticket c in
  (id,
   {| NEXT_TICKET_ID := (id + 1) mod uint64_max;
      _newRequests :=
        _newRequests c ++ [mkNewRequest destination request callbacks options id] |}).

(** What the driver thread reports for one request. *)
Inductive TransportReply : Type :=
  | OnSuccess (response : GeneralResponse)
  | OnError (errorCode : Z) (response : option GeneralResponse).

(** ** The dispatcher's state *)

(** [AsyncResponse]: submit time and the shared pointer to the record. *)
Record AsyncResponse : Type := mkAsyncResponse {
  timestamp : Q;
  ar_result : nat
}.

(** [ClusterCommOperation], the element of the two queues. *)
Record ClusterCommOperation : Type := mkClusterCommOperation {
  op_result : ClusterCommResult;
  op_reqtype : RequestType;
  op_path : string;
  op_endTime : Q;
  op_initEndTime : Q
}.

(** A [std::list<ClusterCommOperation*>]: each node has an identity, which
    is what a [QueueIterator] stored in the index maps denotes. *)
Definition Queue := list (nat * ClusterCommOperation).

Record ClusterComm : Type := mkClusterComm {
  (** the [ClusterCommResult] objects behind [std::shared_ptr]s *)
  heap : nat -> ClusterCommResult;
  heap_next : nat;
  (** [responses]: ticket -> (submit time, record) *)
  responses : gmap Z AsyncResponse;
  toSend : Queue;
  toSendByOpID : gmap Z nat;
  received : Queue;
  receivedByOpID : gmap Z nat;
  _communicator : Communicator;
  log : list LogLine
}.

Definition with_heap (h : nat -> ClusterCommResult) (n : nat) (cc : ClusterComm) :=
  mkClusterComm h n (responses cc) (toSend cc) (toSendByOpID cc)
    (received cc) (receivedByOpID cc) (_communicator cc) (log cc).
Definition with_responses (m : gmap Z AsyncResponse) (cc : ClusterComm) :=
  mkClusterComm (heap cc) (heap_next cc) m (toSend cc) (toSendByOpID cc)
    (received cc) (receivedByOpID cc) (_communicator cc) (log cc).
Definition with_toSend (q : Queue) (i : gmap Z nat) (cc : ClusterComm) :=
  mkClusterComm (heap cc) (heap_next cc) (responses cc) q i
    (received cc) (receivedByOpID cc) (_communicator cc) (log cc).
Definition with_received (q : Queue) (i : gmap Z nat) (cc : ClusterComm) :=
  mkClusterComm (heap cc) (heap_next cc) (responses cc) (toSend cc)
    (toSendByOpID cc) q i (_communicator cc) (log cc).
Definition with_communicator (c : Communicator) (cc : ClusterComm) :=
  mkClusterComm (heap cc) (heap_next cc) (responses cc) (toSend cc)
    (toSendByOpID cc) (received cc) (receivedByOpID cc) c (log cc).
Definition with_log (l : list LogLine) (cc : ClusterComm) :=
  mkClusterComm (heap cc) (heap_next cc) (responses cc) (toSend cc)
    (toSendByOpID cc) (received cc) (receivedByOpID cc) (_communicator cc) l.

(** [*p = r] *)
Definition store (p : nat) (r : ClusterCommResult) (cc : ClusterComm) : ClusterComm :=
  with_heap (fun q => if Nat.eqb q p then r else heap cc q) (heap_next cc) cc.

(** [new ClusterCommResult(r)] *)
Definition alloc (r : ClusterCommResult) (cc : ClusterComm) : nat * ClusterComm :=
  let p := heap_next cc in
  (p, with_heap (fun q => if Nat.eqb q p then r else heap cc q) (S p) cc).

(** [m.emplace(k, v)]: no effect when [k] is already present. *)
Definition emplace {V : Type} (k : Z) (v : V) (m : gmap Z V) : gmap Z V :=
  match m !! k with
  | Some _ => m
  | None => <[k := v]> m
  end.

(** ** Request preparation *)

(** [ClusterComm::prepareRequest]. [timeStamp] is the reading of
    [TRI_HybridLogicalClock()] at the call. *)
Definition prepareRequest (env : Env) (destination : string)
    (reqtype : RequestType) (body : option string)
    (headerFields : gmap string string) (timeStamp : Z)
  : ClusterCommResult * option HttpRequest * list LogLine :=
  let '(result, logs) := setDestination env destination (new_ClusterCommResult env) in
  if string_empty (endpoint result) then (result, None, logs)
  else
    let result := set_status CL_COMM_SUBMITTED result in
    let headersCopy := headerFields in
    let headersCopy :=
      if string_eqb (substr 0 6 destination) "shard:" then
        match makeNolockHeaders env with
        | Some nolock =>
            if bool_decide (shardID result ∈ nolock)
            then <["X-Arango-Nolock" := shardID result]> headersCopy
            else headersCopy
        | None => headersCopy
        end
      else headersCopy in
    let headersCopy := <["Authorization" := getAuthentication env]> headersCopy in
    let headersCopy := <[HLCHeader := encodeTimeStamp env timeStamp]> headersCopy in
    let request :=
      match body with
      | None => mkHttpRequest JSON "" headersCopy reqtype
      | Some b => mkHttpRequest JSON b headersCopy reqtype
      end in
    (result, Some request, logs).

(** ** asyncRequest *)

(** [ClusterComm::asyncRequest]. [callback] is the caller's callback object
    ([None] for a null pointer), [now] the reading of [TRI_microtime()]. *)
Definition asyncRequest (env : Env) (cc : ClusterComm)
    (clientTransactionID : ClientTransactionID)
    (coordTransactionID : CoordTransactionID) (destination : string)
    (reqtype : RequestType) (path : string) (body : option string)
    (headerFields : gmap string string) (callback : option nat)
    (timeout : ClusterCommTimeout) (singleRequest : bool)
    (initTimeout : ClusterCommTimeout) (timeStamp : Z) (now : Q)
  : OperationID * ClusterComm :=
  let '(first, second, logs) :=
    prepareRequest env destination reqtype body headerFields timeStamp in
  let cc := with_log (log cc ++ logs) cc in
  let r := set_clientTransactionID clientTransactionID first in
  let r := set_coordTransactionID coordTransactionID r in
  let r := set_single singleRequest r in
  let '(result, cc) := alloc r cc in
  let request :=
    match second with
    | None => mkHttpRequest JSON "" ∅ reqtype
    | Some request => request
    end in
  let opt := defaultOptions env in
  let opt := mkOptions initTimeout (requestTimeout opt) in
  let opt := mkOptions (connectionTimeout opt) timeout in
  let callbacks :=
    match callback with
    | Some callback => CallbackCaller result callback
    | None => CallbackBroadcast result
    end in
  let '(ticketId, comm) :=
    addRequest (_communicator cc)
      (createCommunicatorDestination (endpoint r) path) request callbacks opt in
  let cc := with_communicator comm cc in
  let r := set_operationID ticketId r in
  let cc := store result r cc in
  let cc := with_responses (emplace ticketId (mkAsyncResponse now result) (responses cc)) cc in
  let r := set_status CL_COMM_SUBMITTED r in
  let cc := store result r cc in
  (ticketId, cc).

(** ** syncRequest *)

(** The two closures of [syncRequest] applied to the local [result]:
    the updated record and the line logged by the error closure. *)
Definition syncRequest_callback (env : Env) (reply : TransportReply)
    (r : ClusterCommResult) : ClusterCommResult * list LogLine :=
  match reply with
  | OnSuccess response => (fromResponse env response r, [])
  | OnError errorCode response =>
      let r := fromError env errorCode response r in
      if bool_decide (status r = CL_COMM_BACKEND_UNAVAILABLE) then
        (r, [connection_log env
               ("cannot create connection to server '" +:+ serverID r +:+
                "' at endpoint '" +:+ endpoint r +:+ "'")])
      else (r, [])
  end.

(** [while (!wasSignaled) { cv.wait(1000000); }]. [arrival k] is the reply
    the driver thread delivers while the caller sits in its [k]-th wait;
    [None] when it delivers nothing then. [slices] counts the waits done.
    The loop runs out of [fuel] only if no reply arrives in time. *)
Fixpoint syncRequest_wait (env : Env) (arrival : nat -> option TransportReply)
    (fuel slices : nat) (wasSignaled : bool) (r : ClusterCommResult)
    (logs : list LogLine) : option (ClusterCommResult * nat * list LogLine) :=
  if wasSignaled then Some (r, slices, logs)
  else
    match fuel with
    | O => None
    | S fuel =>
        match arrival (S slices) with
        | Some reply =>
            let '(r, l) := syncRequest_callback env reply r in
            syncRequest_wait env arrival fuel (S slices) true r (logs ++ l)
        | None => syncRequest_wait env arrival fuel (S slices) false r logs
        end
    end.

(** [ClusterComm::syncRequest]: the record returned, the dispatcher
    afterwards and the number of waits on the private condition variable;
    [None] while the reply is outstanding. [arrival 0] is a reply delivered
    before the caller reaches its loop. *)
Definition syncRequest (env : Env) (cc : ClusterComm)
    (clientTransactionID : ClientTransactionID)
    (coordTransactionID : CoordTransactionID) (destination : string)
    (reqtype : RequestType) (path : string) (body : string)
    (headerFields : gmap string string) (timeout : ClusterCommTimeout)
    (timeStamp : Z) (arrival : nat -> option TransportReply) (fuel : nat)
  : option (ClusterCommResult * ClusterComm * nat) :=
  let '(first, second, logs) :=
    prepareRequest env destination reqtype (Some body) headerFields timeStamp in
  let cc := with_log (log cc ++ logs) cc in
  let r := set_single true first in
  match second with
  | None => Some (r, cc, O)
  | Some request =>
      let opt := defaultOptions env in
      let opt := mkOptions (connectionTimeout opt) timeout in
      let '(_, comm) :=
        addRequest (_communicator cc)
          (createCommunicatorDestination (endpoint r) path) request
          CallbackSignal opt in
      let cc := with_communicator comm cc in
      let r := set_status CL_COMM_SENDING r in
      let '(r, l, wasSignaled) :=
        match arrival O with
        | Some reply => (syncRequest_callback env reply r, true)
        | None => (r, [], false)
        end in
      match syncRequest_wait env arrival fuel O wasSignaled r l with
      | Some (r, slices, l) => Some (r, with_log (log cc ++ l) cc, slices)
      | None => None
      end
  end.

(** ** Matching, enquire, wait, drop *)

(** [ClusterComm::match] *)
Definition match_ (clientTransactionID' : ClientTransactionID)
    (coordTransactionID' : CoordTransactionID) (shardID' : ShardID)
    (res : ClusterCommResult) : bool :=
  (string_eqb clientTransactionID' ""
   || string_eqb clientTransactionID' (clientTransactionID res))
  && ((0 =? coordTransactionID')
      || (coordTransactionID' =? coordTransactionID res))
  && (string_eqb shardID' "" || string_eqb shardID' (shardID res)).

(** The record [enquire] and [wait] make up for a ticket they do not find. *)
Definition dropped_result (env : Env) (ticketId : Ticket) : ClusterCommResult :=
  set_status CL_COMM_DROPPED (set_operationID ticketId (new_ClusterCommResult env)).

(** [ClusterComm::enquire] *)
Definition enquire (env : Env) (cc : ClusterComm) (ticketId : Ticket)
  : ClusterCommResult :=
  match responses cc !! ticketId with
  | Some response => heap cc (ar_result response)
  | None => dropped_result env ticketId
  end.

(** The first part of [wait]: the entry of [responses] it settles on,
    [None] for [responses.end()]. With [ticketId = 0] the table is scanned
    in its iteration order for the first record [match] accepts; otherwise
    the ticket alone decides. *)
Definition wait_find (cc : ClusterComm)
    (clientTransactionID : ClientTransactionID)
    (coordTransactionID : CoordTransactionID) (ticketId : Ticket)
    (shardID : ShardID) : option (Ticket * AsyncResponse) :=
  if ticketId =? 0 then
    snd <$> list_find
      (fun i => match_ clientTransactionID coordTransactionID shardID
                  (heap cc (ar_result (snd i))) = true)
      (map_to_list (responses cc))
  else
    (fun response => (ticketId, response)) <$> responses cc !! ticketId.

(** [while (response.result->status == CL_COMM_SUBMITTED)
      { somethingReceived.wait(60000000.0); }].
    [others k] is what the other threads do to the dispatcher while the
    caller sits in its [k]-th slice of 60 seconds. [None]: still blocked
    after [fuel] slices. *)
Fixpoint wait_loop (others : nat -> ClusterComm -> ClusterComm)
    (fuel slices : nat) (p : nat) (cc : ClusterComm)
  : option (ClusterComm * nat) :=
  if bool_decide (status (heap cc p) = CL_COMM_SUBMITTED) then
    match fuel with
    | O => None
    | S fuel => wait_loop others fuel (S slices) p (others slices cc)
    end
  else Some (cc, slices).

(** [ClusterComm::wait]: the record returned, the dispatcher afterwards and
    the number of 60-second slices spent blocked; [None] while still
    blocked after [fuel] slices. The [timeout] argument is not read by the
    function body. *)
Definition wait (env : Env) (cc : ClusterComm)
    (clientTransactionID : ClientTransactionID)
    (coordTransactionID : CoordTransactionID) (ticketId : Ticket)
    (shardID : ShardID) (timeout : ClusterCommTimeout)
    (others : nat -> ClusterComm -> ClusterComm) (fuel : nat)
  : option (ClusterCommResult * ClusterComm * nat) :=
  match wait_find cc clientTransactionID coordTransactionID ticketId shardID with
  | None => Some (dropped_result env ticketId, cc, O)
  | Some (i, response) =>
      match wait_loop others fuel O (ar_result response) cc with
      | None => None
      | Some (cc, slices) =>
          let cc := with_responses (delete i (responses cc)) cc in
          Some (heap cc (ar_result response), cc, slices)
      end
  end.

(** The test [drop] applies to the operations of both queues. *)
Definition drop_selects (clientTransactionID : ClientTransactionID)
    (coordTransactionID : CoordTransactionID) (operationID' : OperationID)
    (shardID : ShardID) (res : ClusterCommResult) : bool :=
  (negb (0 =? operationID') && (operationID' =? operationID res))
  || match_ clientTransactionID coordTransactionID shardID res.

(** First loop of [drop], over [toSend]. Erasing needs the entry of
    [toSendByOpID] ("cannot fail"): [None] when it is missing, or when
    assertions are compiled in and it denotes another node. *)
Fixpoint drop_toSend (env : Env) (sel : ClusterCommResult -> bool)
    (q : Queue) (index : gmap Z nat) : option (Queue * gmap Z nat) :=
  match q with
  | [] => Some ([], index)
  | (node, op) :: rest =>
      if sel (op_result op) then
        if bool_decide (status (op_result op) = CL_COMM_SENDING) then
          let op := mkClusterCommOperation (set_dropped true (op_result op))
                      (op_reqtype op) (op_path op) (op_endTime op)
                      (op_initEndTime op) in
          '(rest, index) ← drop_toSend env sel rest index;
          Some ((node, op) :: rest, index)
        else
          match index !! operationID (op_result op) with
          | None => None
          | Some node' =>
              if maintainerMode env && negb (Nat.eqb node node') then None
              else drop_toSend env sel rest (delete (operationID (op_result op)) index)
          end
      else
        '(rest, index) ← drop_toSend env sel rest index;
        Some ((node, op) :: rest, index)
  end.

(** Second loop of [drop], over [received]. *)
Fixpoint drop_received (sel : ClusterCommResult -> bool)
    (q : Queue) (index : gmap Z nat) : Queue * gmap Z nat :=
  match q with
  | [] => ([], index)
  | (node, op) :: rest =>
      if sel (op_result op) then
        let index :=
          match index !! operationID (op_result op) with
          | Some node' =>
              if Nat.eqb node node'
              then delete (operationID (op_result op)) index
              else index
          | None => index
          end in
        drop_received sel rest index
      else
        let '(rest, index) := drop_received sel rest index in
        ((node, op) :: rest, index)
  end.

(** [ClusterComm::drop]. It goes through [toSend] and [received]; the
    table [responses] is not among the things it touches. *)
Definition drop (env : Env) (cc : ClusterComm)
    (clientTransactionID : ClientTransactionID)
    (coordTransactionID : CoordTransactionID) (operationID : OperationID)
    (shardID : ShardID) : option ClusterComm :=
  let sel := drop_selects clientTransactionID coordTransactionID operationID shardID in
  '(q, index) ← drop_toSend env sel (toSend cc) (toSendByOpID cc);
  let cc := with_toSend q index cc in
  let '(q, index) := drop_received sel (received cc) (receivedByOpID cc) in
  Some (with_received q index cc).

(** ** performRequests *)

(** [ClusterCommRequest]: one request of the vector handed to
    [performRequests], with its result slot and [done] flag. *)
Record ClusterCommRequest : Type := mkClusterCommRequest {
  rq_destination : string;
  rq_requestType : RequestType;
  rq_path : string;
  rq_body : option string;
  rq_headerFields : option (gmap string string);
  rq_result : ClusterCommResult;
  rq_done : bool
}.

Definition set_rq_headerFields (h : option (gmap string string)) (rq : ClusterCommRequest) :=
  mkClusterCommRequest (rq_destination rq) (rq_requestType rq) (rq_path rq)
    (rq_body rq) h (rq_result rq) (rq_done rq).
Definition set_rq_result (res : ClusterCommResult) (rq : ClusterCommRequest) :=
  mkClusterCommRequest (rq_destination rq) (rq_requestType rq) (rq_path rq)
    (rq_body rq) (rq_headerFields rq) res (rq_done rq).
Definition set_rq_done (d : bool) (rq : ClusterCommRequest) :=
  mkClusterCommRequest (rq_destination rq) (rq_requestType rq) (rq_path rq)
    (rq_body rq) (rq_headerFields rq) (rq_result rq) d.

(** The clocks and the other threads, as [performRequests] meets them:
    the [n]-th reading of [TRI_microtime()] and of the hybrid logical
    clock, and what happens to the dispatcher during slice [k] of the
    [n]-th call of [wait]. *)
Record World : Type := mkWorld {
  TRI_microtime : nat -> Q;
  TRI_HybridLogicalClock : nat -> Z;
  interference : nat -> nat -> ClusterComm -> ClusterComm
}.

(** The local variables of [performRequests] (with the [requests] vector
    and the [nrDone] reference), and counters for the readings taken from
    the [World]. *)
Record Locals : Type := mkLocals {
  requests : list ClusterCommRequest;
  dueTime : list Q;
  nrDone : nat;
  nrGood : nat;
  opIDtoIndex : gmap Z nat;
  now : Q;
  actionNeeded : Q;
  readings : nat;
  waits : nat
}.

Definition Qltb (a b : Q) : bool := negb (Qle_bool b a).

(** [rest::ResponseCode::OK], [CREATED], [ACCEPTED] *)
Definition is_good_code (code : Z) : bool :=
  (code =? 200) || (code =? 201) || (code =? 202).

(** One round of the first [for] loop of [performRequests]: request [i] is
    sent when it is not done and due. TRACE lines are not recorded. *)
Definition sendDue_one (env : Env) (world : World)
    (coordinatorTransactionID : CoordTransactionID)
    (startTime endTime : ClusterCommTimeout) (i : nat)
    (s : Locals * ClusterComm) : Locals * ClusterComm :=
  let '(l, cc) := s in
  match requests l !! i, dueTime l !! i with
  | Some rq, Some due =>
      if negb (rq_done rq) && Qle_bool due (now l) then
        let headerFields := default ∅ (rq_headerFields rq) in
        let requests' := <[i := set_rq_headerFields (Some headerFields) rq]> (requests l) in
        let localInitTimeout := Qmin (Qmax 1 (now l - startTime)) 10 in
        let localTimeout := (endTime - now l)%Q in
        let dueTime' := <[i := (endTime + 10)%Q]> (dueTime l) in
        let localInitTimeout :=
          if Qltb localTimeout localInitTimeout then localTimeout
          else localInitTimeout in
        let '(opId, cc) :=
          asyncRequest env cc "" coordinatorTransactionID (rq_destination rq)
            (rq_requestType rq) (rq_path rq) (rq_body rq) headerFields None
            localTimeout false localInitTimeout
            (TRI_HybridLogicalClock world (readings l))
            (TRI_microtime world (readings l)) in
        (mkLocals requests' dueTime' (nrDone l) (nrGood l)
           (emplace opId i (opIDtoIndex l)) (now l) (actionNeeded l)
           (S (readings l)) (waits l),
         cc)
      else s
  | _, _ => s
  end.

(** "First send away what is due": the loop over all indices. *)
Definition sendDue (env : Env) (world : World)
    (coordinatorTransactionID : CoordTransactionID)
    (startTime endTime : ClusterCommTimeout) (s : Locals * ClusterComm)
  : Locals * ClusterComm :=
  foldl (fun s i => sendDue_one env world coordinatorTransactionID startTime endTime i s)
    s (seq 0 (length (requests (fst s)))).

(** "Now see how long we can afford to wait" *)
Definition computeActionNeeded (endTime : ClusterCommTimeout) (l : Locals) : Q :=
  foldl (fun (actionNeeded : Q) (i : nat) =>
           match requests l !! i, dueTime l !! i with
           | Some rq, Some due =>
               if negb (rq_done rq) && Qltb due actionNeeded then due
               else actionNeeded
           | _, _ => actionNeeded
           end)
    endTime (seq 0 (length (dueTime l))).

(** What the inner loop does with a result [res] of [wait] that belongs to
    request [index]: the three branches on [res.status]. [None] is the
    process stopping at [TRI_ASSERT(false)], which is the first statement
    of the retry branch and takes effect when assertions are compiled in. *)
Definition handleResult (env : Env) (startTime endTime : ClusterCommTimeout)
    (index : nat) (res : ClusterCommResult) (l : Locals) : option Locals :=
  if bool_decide (status res = CL_COMM_RECEIVED) then
    let requests' := alter (fun rq => set_rq_done true (set_rq_result res rq)) index (requests l) in
    Some (mkLocals requests' (dueTime l) (S (nrDone l))
            (if is_good_code (answer_code res) then S (nrGood l) else nrGood l)
            (opIDtoIndex l) (now l) (actionNeeded l) (readings l) (waits l))
  else if bool_decide (status res = CL_COMM_BACKEND_UNAVAILABLE)
          || (bool_decide (status res = CL_COMM_TIMEOUT) && negb (sendWasComplete res)) then
    if maintainerMode env then None
    else
      let requests' := alter (set_rq_result res) index (requests l) in
      let due := (Qmin 10 (Qmax (2 # 10) (2 * (now l - startTime))) + now l)%Q in
      let dueTime' := <[index := due]> (dueTime l) in
      let '(requests', nrDone') :=
        if Qle_bool endTime due
        then (alter (set_rq_done true) index requests', S (nrDone l))
        else (requests', nrDone l) in
      let actionNeeded' := if Qltb due (actionNeeded l) then due else actionNeeded l in
      Some (mkLocals requests' dueTime' nrDone' (nrGood l) (opIDtoIndex l)
              (now l) actionNeeded' (readings l) (waits l))
  else
    let requests' := alter (fun rq => set_rq_done true (set_rq_result res rq)) index (requests l) in
    Some (mkLocals requests' (dueTime l) (S (nrDone l)) (nrGood l)
            (opIDtoIndex l) (now l) (actionNeeded l) (readings l) (waits l)).

(** How a run of a loop ends. *)
Inductive Run (A : Type) : Type :=
  | Finished (a : A)
  (** blocked in [wait], or the loop has not ended within the fuel given *)
  | Pending
  (** stopped at a failed [TRI_ASSERT] *)
  | Crashed.
Arguments Finished {A} a.
Arguments Pending {A}.
Arguments Crashed {A}.

Definition read_now (world : World) (l : Locals) : Locals :=
  mkLocals (requests l) (dueTime l) (nrDone l) (nrGood l) (opIDtoIndex l)
    (TRI_microtime world (readings l)) (actionNeeded l) (S (readings l)) (waits l).

(** "Now wait for results": the [while (true)] loop. The boolean of a
    finished run says whether the loop was left by [return nrGood]
    ([true]) or by [break] ([false]). *)
Fixpoint waitResults (env : Env) (world : World)
    (coordinatorTransactionID : CoordTransactionID)
    (startTime endTime : ClusterCommTimeout) (fuel : nat)
    (l : Locals) (cc : ClusterComm) : Run (bool * Locals * ClusterComm) :=
  match fuel with
  | O => Pending
  | S fuel' =>
      let l := read_now world l in
      if Qle_bool (actionNeeded l) (now l) then Finished (false, l, cc)
      else
        match wait env cc "" coordinatorTransactionID 0 ""
                (actionNeeded l - now l)%Q (interference world (waits l)) fuel with
        | None => Pending
        | Some (res, cc, _) =>
            let l := mkLocals (requests l) (dueTime l) (nrDone l) (nrGood l)
                       (opIDtoIndex l) (now l) (actionNeeded l) (readings l)
                       (S (waits l)) in
            if bool_decide (status res = CL_COMM_TIMEOUT) && (operationID res =? 0) then
              Finished (false, l, cc)
            else if bool_decide (status res = CL_COMM_DROPPED) then
              let l := read_now world l in
              if Qle_bool (actionNeeded l) (now l) then Finished (false, l, cc)
              else waitResults env world coordinatorTransactionID startTime endTime fuel' l cc
            else
              match opIDtoIndex l !! operationID res with
              | None =>
                  let cc :=
                    with_log (log cc ++
                      [mkLogLine ERR "Received ClusterComm response for a request we did not send!"]) cc in
                  waitResults env world coordinatorTransactionID startTime endTime fuel' l cc
              | Some index =>
                  match handleResult env startTime endTime index res l with
                  | None => Crashed
                  | Some l =>
                      if (length (requests l) <=? nrDone l)%nat then Finished (true, l, cc)
                      else waitResults env world coordinatorTransactionID startTime endTime fuel' l cc
                  end
              end
        end
  end.

(** The [while (now <= endTime)] loop and what follows it. *)
Fixpoint performRequests_loop (env : Env) (world : World)
    (coordinatorTransactionID : CoordTransactionID)
    (startTime endTime : ClusterCommTimeout) (fuel : nat)
    (l : Locals) (cc : ClusterComm) : Run (nat * Locals * ClusterComm) :=
  match fuel with
  | O => Pending
  | S fuel' =>
      if Qle_bool (now l) endTime then
        if (length (requests l) <=? nrDone l)%nat then Finished (nrGood l, l, cc)
        else
          let '(l, cc) := sendDue env world coordinatorTransactionID startTime endTime (l, cc) in
          let l := mkLocals (requests l) (dueTime l) (nrDone l) (nrGood l)
                     (opIDtoIndex l) (now l) (computeActionNeeded endTime l)
                     (readings l) (waits l) in
          match waitResults env world coordinatorTransactionID startTime endTime fuel l cc with
          | Finished (true, l, cc) => Finished (nrGood l, l, cc)
          | Finished (false, l, cc) =>
              performRequests_loop env world coordinatorTransactionID startTime endTime fuel' l cc
          | Pending => Pending
          | Crashed => Crashed
          end
      else
        match drop env cc "" coordinatorTransactionID 0 "" with
        | Some cc => Finished (nrGood l, l, cc)
        | None => Crashed
        end
  end.

(** [ClusterComm::performRequests]: the return value, the locals at the end
    ([nrDone] and the results among them) and the dispatcher afterwards.
    [coordinatorTransactionID] is the value [TRI_NewTickServer()] hands out. *)
Definition performRequests (env : Env) (world : World) (cc : ClusterComm)
    (requests : list ClusterCommRequest) (timeout : ClusterCommTimeout)
    (coordinatorTransactionID : CoordTransactionID) (fuel : nat)
  : Run (nat * Locals * ClusterComm) :=
  let startTime := TRI_microtime world O in
  let endTime := (startTime + timeout)%Q in
  let l := mkLocals requests (replicate (length requests) startTime) O O ∅
             startTime endTime 1 O in
  if (length requests =? 0)%nat then Finished (O, l, cc)
  else performRequests_loop env world coordinatorTransactionID startTime endTime fuel l cc.

(** ** Stringification and error codes *)

(** The error numbers [getErrorCode] returns; their values are declared in
    [voc-errors.h]. *)
Inductive ErrorCode : Set :=
  | TRI_ERROR_NO_ERROR
  | TRI_ERROR_INTERNAL
  | TRI_ERROR_CLUSTER_TIMEOUT
  | TRI_ERROR_CLUSTER_BACKEND_UNAVAILABLE.

(** [ClusterCommResult::stringifyStatus] *)
Definition stringifyStatus (status : ClusterCommOpStatus) : string :=
  match status with
  | CL_COMM_SUBMITTED => "submitted"
  | CL_COMM_SENDING => "sending"
  | CL_COMM_SENT => "sent"
  | CL_COMM_TIMEOUT => "timeout"
  | CL_COMM_RECEIVED => "received"
  | CL_COMM_ERROR => "error"
  | CL_COMM_DROPPED => "dropped"
  | CL_COMM_BACKEND_UNAVAILABLE => "backend unavailable"
  end.

(** [ClusterCommResult::getErrorCode] *)
Definition getErrorCode (r : ClusterCommResult) : ErrorCode :=
  match status r with
  | CL_COMM_SUBMITTED | CL_COMM_SENDING | CL_COMM_SENT | CL_COMM_RECEIVED =>
      TRI_ERROR_NO_ERROR
  | CL_COMM_TIMEOUT => TRI_ERROR_CLUSTER_TIMEOUT
  | CL_COMM_ERROR => TRI_ERROR_INTERNAL
  | CL_COMM_DROPPED => TRI_ERROR_INTERNAL
  | CL_COMM_BACKEND_UNAVAILABLE => TRI_ERROR_CLUSTER_BACKEND_UNAVAILABLE
  end.

(** [ClusterCommResult::stringifyErrorMessage] *)
Definition stringifyErrorMessage (r : ClusterCommResult) : string :=
  let result := stringifyStatus (status r) in
  let result :=
    if negb (string_empty (serverID r))
    then result +:+ ", cluster node: '" +:+ serverID r +:+ "'"
    else result in
  let result :=
    if negb (string_empty (shardID r))
    then result +:+ ", shard: '" +:+ shardID r +:+ "'"
    else result in
  let result :=
    if negb (string_empty (endpoint r))
    then result +:+ ", endpoint: '" +:+ endpoint r +:+ "'"
    else result in
  let result :=
    if negb (string_empty (errorMessage r))
    then result +:+ ", error: '" +:+ errorMessage r +:+ "'"
    else result in
  result.

(** ** The queues of the send/receive model *)

Definition set_answer_code (v : Z) (r : ClusterCommResult) :=
  mkClusterCommResult (clientTransactionID r) (coordTransactionID r) (operationID r)
    (shardID r) (serverID r) (endpoint r) (errorMessage r) (status r) (dropped r)
    (single r) (result r) v (sendWasComplete r).

Definition set_op_result (res : ClusterCommResult) (op : ClusterCommOperation) :=
  mkClusterCommOperation res (op_reqtype op) (op_path op) (op_endTime op)
    (op_initEndTime op).

(** The position in a queue of the node an iterator denotes. *)
Definition queue_find (node : nat) (q : Queue) : option (nat * (nat * ClusterCommOperation)) :=
  list_find (fun e => fst e = node) q.

(** [ClusterComm::moveFromSendToReceived]. The function opens with
    [TRI_ASSERT(false)]. With assertions compiled out it goes on;
    dereferencing [toSendByOpID.end()] (the "cannot fail" lookup failing) is
    undefined in C++ and ends the run here. The node of [received] that
    takes the operation keeps the identity of the node it had in [toSend]. *)
Definition moveFromSendToReceived (env : Env) (cc : ClusterComm)
    (operationID : OperationID) : Run (bool * ClusterComm) :=
  if maintainerMode env then Crashed
  else
    match toSendByOpID cc !! operationID with
    | None => Crashed
    | Some q =>
        match queue_find q (toSend cc) with
        | None => Crashed
        | Some (pos, (_, op)) =>
            let cc := with_toSend (delete pos (toSend cc))
                        (delete operationID (toSendByOpID cc)) cc in
            if dropped (op_result op) then Finished (false, cc)
            else
              let op :=
                if bool_decide (status (op_result op) = CL_COMM_SENDING)
                then set_op_result (set_status CL_COMM_SENT (op_result op)) op
                else op in
              Finished (true,
                        with_received (received cc ++ [(q, op)])
                          (<[operationID := q]> (receivedByOpID cc)) cc)
        end
    end.

(** [ClusterComm::cleanupAllQueues] *)
Definition cleanupAllQueues (cc : ClusterComm) : ClusterComm :=
  let cc := with_toSend [] ∅ cc in
  with_received [] ∅ cc.

(** ** Answers of the async-answer pattern *)

(** The character [:]. *)
Definition colon : Ascii.ascii :=
  Ascii.Ascii false true false true true true false false.

(** [s.find(":", start)]: the position of the first colon at or after
    [start]; [None] is [std::string::npos]. *)
Definition find_colon (start : nat) (s : string) : option nat :=
  String.index start ":" s.

(** What [processAnswer] and [asyncAnswer] use from outside this file:
    [StringUtils::uint64], [GeneralResponse::responseCode] (from a header
    value), [GeneralResponse::responseString], the header lookup of a
    request, and the callback object stored in the operation of a queue
    node ([None] for a null pointer). *)
Record AnswerEnv : Type := mkAnswerEnv {
  uint64 : string -> Z;
  responseCode : string -> Z;
  responseString : Z -> string;
  header : HttpRequest -> string -> string;
  callbackOf : nat -> option (ClusterCommResult -> bool)
}.

(** The part [processAnswer] runs on the operation it found in one of the
    queues: attach the answer, call back, and take the operation out of
    the queue when the callback says it is fully processed. The boolean
    says whether the function returns from inside this part. *)
Definition processAnswer_found (aenv : AnswerEnv) (answer : HttpRequest)
    (operationID : OperationID) (node : nat) (q : Queue) (index : gmap Z nat)
  : option (bool * Queue * gmap Z nat) :=
  match queue_find node q with
  | None => None
  | Some (pos, (_, op)) =>
      let res := set_answer_code
                   (responseCode aenv (header aenv answer "x-arango-response-code"))
                   (op_result op) in
      let res := set_status CL_COMM_RECEIVED res in
      let op := set_op_result res op in
      let q := <[pos := (node, op)]> q in
      match callbackOf aenv node with
      | Some callback =>
          if callback res
          then Some (true, delete pos q, delete operationID index)
          else Some (false, q, index)
      | None => Some (false, q, index)
      end
  end.

(** [ClusterComm::processAnswer]: the string returned and the dispatcher
    afterwards; [inl] is the exception thrown for a null [answer]. The
    function opens with [TRI_ASSERT(false)]. *)
Definition processAnswer (env : Env) (aenv : AnswerEnv) (cc : ClusterComm)
    (coordinatorHeader : string) (answer : option HttpRequest)
  : Run (ErrorCode + string * ClusterComm) :=
  if maintainerMode env then Crashed
  else
    match answer with
    | None => Finished (inl TRI_ERROR_INTERNAL)
    | Some answer =>
        match find_colon 0 coordinatorHeader with
        | None =>
            Finished (inr ("could not find coordinator ID in 'X-Arango-Coordinator'", cc))
        | Some pos =>
            let start := S pos in
            match find_colon start coordinatorHeader with
            | None =>
                Finished (inr ("could not find operationID in 'X-Arango-Coordinator'", cc))
            | Some _ =>
                let operationID := uint64 aenv (substr_from start coordinatorHeader) in
                match receivedByOpID cc !! operationID with
                | Some node =>
                    match processAnswer_found aenv answer operationID node
                            (received cc) (receivedByOpID cc) with
                    | None => Crashed
                    | Some (_, q, index) => Finished (inr ("", with_received q index cc))
                    end
                | None =>
                    match toSendByOpID cc !! operationID with
                    | Some node =>
                        match processAnswer_found aenv answer operationID node
                                (toSend cc) (toSendByOpID cc) with
                        | None => Crashed
                        | Some (_, q, index) => Finished (inr ("", with_toSend q index cc))
                        end
                    | None =>
                        Finished (inr ("operation was already dropped by sender", cc))
                    end
                end
            end
        end
    end.

(** What [asyncAnswer] sends to the coordinator. *)
Record AnswerRequest : Type := mkAnswerRequest {
  ans_endpoint : string;
  ans_type : RequestType;
  ans_path : string;
  ans_body : string;
  ans_headers : gmap string string
}.

(** What becomes of the leased connection. *)
Inductive ConnectionFate : Set := returnConnection | brokenConnection.

(** [ClusterComm::asyncAnswer]: the lines logged and, when a request was
    sent, the request and what became of the connection; [inl] is the
    exception thrown when the response is not an [HttpResponse].
    [leaseConnection] tells whether the connection manager hands out a
    connection to an endpoint, [complete] whether the client came back with
    a complete result, [timeStamp] is the hybrid logical clock's reading. *)
Definition asyncAnswer (env : Env) (aenv : AnswerEnv)
    (leaseConnection : string -> bool) (complete : bool) (timeStamp : Z)
    (coordinatorHeader : string) (response : option GeneralResponse)
  : ErrorCode + list LogLine * option (AnswerRequest * ConnectionFate) :=
  match response with
  | None => inl TRI_ERROR_INTERNAL
  | Some responseToSend =>
      let logs := [mkLogLine DEBUG ("In asyncAnswer, seeing " +:+ coordinatorHeader)] in
      match find_colon 0 coordinatorHeader with
      | None =>
          inr (logs ++ [mkLogLine ERR "Could not find coordinator ID in X-Arango-Coordinator"],
               None)
      | Some pos =>
          let coordinatorID := substr 0 pos coordinatorHeader in
          let endpoint := getServerEndpoint env coordinatorID in
          if string_eqb endpoint "" then
            inr (logs ++ [connection_log env
                            ("asyncAnswer: cannot find endpoint for server '"
                             +:+ coordinatorID +:+ "'")],
                 None)
          else if negb (leaseConnection endpoint) then
            inr (logs ++ [mkLogLine ERR
                            ("asyncAnswer: cannot create connection to server '"
                             +:+ coordinatorID +:+ "'")],
                 None)
          else
            let headers := resp_headers responseToSend in
            let headers := <["X-Arango-Coordinator" := coordinatorHeader]> headers in
            let headers :=
              <["X-Arango-Response-Code" :=
                  responseString aenv (resp_code responseToSend)]> headers in
            let headers := <["Authorization" := getAuthentication env]> headers in
            let headers := <[HLCHeader := encodeTimeStamp env timeStamp]> headers in
            let logs :=
              logs ++ [mkLogLine DEBUG
                         ("asyncAnswer: sending PUT request to DB server '"
                          +:+ coordinatorID +:+ "'")] in
            inr (logs,
                 Some (mkAnswerRequest endpoint PUT "/_api/shard-comm"
                         (resp_body responseToSend) headers,
                       if complete then returnConnection else brokenConnection))
      end
  end.

(** ** performSingleRequest *)

Definition set_rq_status (s : ClusterCommOpStatus) (rq : ClusterCommRequest) :=
  set_rq_result (set_status s (rq_result rq)) rq.

(** [ClusterComm::performSingleRequest], for a vector whose first request is
    [req]: the return value, [nrDone], the request afterwards, the answer
    made up from the response (its body and header fields), and the
    dispatcher. [Pending] while [syncRequest] has not returned; [Crashed]
    where the code reads the body through a null [result] pointer. The
    [answer] object is kept beside the record. *)
Definition performSingleRequest (env : Env) (cc : ClusterComm)
    (req : ClusterCommRequest) (timeout : ClusterCommTimeout)
    (coordinatorTransactionID : CoordTransactionID) (timeStamp : Z)
    (arrival : nat -> option TransportReply) (fuel : nat)
  : Run (nat * nat * ClusterCommRequest
         * option (string * gmap string string) * ClusterComm) :=
  let headerFields := default ∅ (rq_headerFields req) in
  let req := set_rq_headerFields (Some headerFields) req in
  match syncRequest env cc "" coordinatorTransactionID (rq_destination req)
          (rq_requestType req) (rq_path req) (default "" (rq_body req))
          headerFields timeout timeStamp arrival fuel with
  | None => Pending
  | Some (res, cc, _) =>
      let req := set_rq_result res req in
      if bool_decide (status (rq_result req) = CL_COMM_BACKEND_UNAVAILABLE) then
        Finished (O, O, req, None, cc)
      else if bool_decide (status (rq_result req) = CL_COMM_ERROR)
              && match result (rq_result req) with
                 | Some r => resp_code r =? 503
                 | None => false
                 end then
        Finished (O, O, set_rq_status CL_COMM_BACKEND_UNAVAILABLE req, None, cc)
      else
        let req := set_rq_status CL_COMM_RECEIVED req in
        let req := set_rq_done true req in
        match result (rq_result req) with
        | None => Crashed
        | Some r =>
            let answer := (resp_body r, resp_headers r) in
            let req := set_rq_result (set_answer_code (resp_code r) (rq_result req)) req in
            Finished ((if is_good_code (answer_code (rq_result req)) then 1 else 0)%nat,
                      1%nat, req, Some answer, cc)
        end
  end.

(** ** A small cluster to run the definitions on

    Shard [S1] lives on [srvA], which listens on [tcp://h:8529]; nothing
    else is known to the topology. *)
Definition cluster (assertions : bool) : Env :=
  {| getResponsibleServer := fun s => if string_eqb s "S1" then ["srvA"] else [];
     getServerEndpoint := fun s => if string_eqb s "srvA" then "tcp://h:8529" else "";
     getAuthentication := "bearer jwt";
     makeNolockHeaders := None;
     encodeTimeStamp := fun _ => "ts";
     logConnectionErrors := false;
     maintainerMode := assertions;
     defaultStatus := CL_COMM_BACKEND_UNAVAILABLE;
     defaultOptions := mkOptions 2 120;
     fromResponse := fun _ r => set_status CL_COMM_RECEIVED r;
     fromError := fun _ _ r => set_status CL_COMM_BACKEND_UNAVAILABLE r |}.

(** A dispatcher that has not been used yet. *)
Definition fresh_ClusterComm (env : Env) : ClusterComm :=
  {| heap := fun _ => new_ClusterCommResult env;
     heap_next := 0;
     responses := ∅;
     toSend := [];
     toSendByOpID := ∅;
     received := [];
     receivedByOpID := ∅;
     _communicator := mkCommunicator 1 [];
     log := [] |}.

(** The driver thread refuses every connection: while a caller waits, each
    record still in [CL_COMM_SUBMITTED] is put into
    [CL_COMM_BACKEND_UNAVAILABLE], as the error callback does after a
    failed connect. *)
Definition connect_refused (cc : ClusterComm) : ClusterComm :=
  with_heap (fun p => if bool_decide (status (heap cc p) = CL_COMM_SUBMITTED)
                      then set_status CL_COMM_BACKEND_UNAVAILABLE (heap cc p)
                      else heap cc p)
    (heap_next cc) cc.

(** A world in which every clock reading is a tenth of a second after the
    one before and every connection is refused. *)
Definition refusing_world : World :=
  {| TRI_microtime := fun n => (Z.of_nat n # 10)%Q;
     TRI_HybridLogicalClock := fun n => Z.of_nat n;
     interference := fun _ _ => connect_refused |}.

(** A GET of [/x] on shard [S1], not yet done. *)
Definition get_S1 : ClusterCommRequest :=
  mkClusterCommRequest "shard:S1" GET "/x" None None
    (new_ClusterCommResult (cluster false)) false.

(** The locals of [performRequests] half a second into a run for [get_S1],
    sent once under ticket 1 and waiting. *)
Definition waiting_for_S1 : Locals :=
  mkLocals [get_S1] [15%Q] 0 0 {[1 := 0%nat]} (1 # 2)%Q 5%Q 3 0.

(** The result for ticket 1 after a refused connection. *)
Definition refused_S1 : ClusterCommResult :=
  set_status CL_COMM_BACKEND_UNAVAILABLE
    (set_operationID 1 (new_ClusterCommResult (cluster false))).

(** Stand-ins for the helpers of [AnswerEnv] to run the definitions on:
    [uint64] reads the leading decimal digits of a string, [responseCode]
    does the same for a header value, a header that is missing reads as
    empty, and no operation has a callback. *)
Fixpoint leading_digits (s : string) (acc : Z) : Z :=
  match s with
  | String c rest =>
      let d := Z.of_N (Ascii.N_of_ascii c) - 48 in
      if (0 <=? d) && (d <=? 9) then leading_digits rest (10 * acc + d) else acc
  | EmptyString => acc
  end.

Definition answers : AnswerEnv :=
  {| uint64 := fun s => leading_digits s 0;
     responseCode := fun s => leading_digits s 0;
     responseString := fun code => pretty code;
     header := fun request name => default "" (req_headers request !! name);
     callbackOf := fun _ => None |}.

(** The answer of a DB server that created something. *)
Definition answer_201 : HttpRequest :=
  mkHttpRequest JSON "{}" {["x-arango-response-code" := "201 Created"]} PUT.

(** ** Notions used in the statements *)

(** A destination is resolved when [setDestination] leaves a non-empty
    endpoint in a fresh record; this is the test [prepareRequest] makes. *)
Definition resolved (env : Env) (dest : string) : Prop :=
  endpoint (fst (setDestination env dest (new_ClusterCommResult env))) <> "".

(** The headers [prepareRequest] sends for [headerFields]. *)
Definition preparedHeaders (env : Env) (dest : string)
    (headerFields : gmap string string) (ts : Z) : gmap string string :=
  let shard := shardID (fst (setDestination env dest (new_ClusterCommResult env))) in
  let h :=
    if string_eqb (substr 0 6 dest) "shard:" then
      match makeNolockHeaders env with
      | Some nolock =>
          if bool_decide (shard ∈ nolock)
          then <["X-Arango-Nolock" := shard]> headerFields
          else headerFields
      | None => headerFields
      end
    else headerFields in
  <[HLCHeader := encodeTimeStamp env ts]> (<["Authorization" := getAuthentication env]> h).

(** The correlation headers of the async-answer pattern as the
    specification words them: [X-Arango-Async: store] and
    [X-Arango-Coordinator: <selfServerId>:<ticket>:<clientTxId>:<coordTxId>]. *)
Definition carries_async_headers (selfServerId : string) (nr : NewRequest)
    (clientTxId : ClientTransactionID) (coordTxId : CoordTransactionID) : Prop :=
  req_headers (_request nr) !! "X-Arango-Async" = Some "store" /\
  req_headers (_request nr) !! "X-Arango-Coordinator"
  = Some (selfServerId +:+ ":" +:+ pretty (_ticketId nr) +:+ ":" +:+
          clientTxId +:+ ":" +:+ pretty coordTxId).

(** The matching rule as the specification words it, with the ticket as a
    fourth filter: every filter is a wildcard or equals the record's value. *)
Definition spec_matches (clientTxId : ClientTransactionID)
    (coordTxId : CoordTransactionID) (ticket : Ticket) (shard : ShardID)
    (res : ClusterCommResult) : Prop :=
  (clientTxId = "" \/ clientTxId = clientTransactionID res) /\
  (coordTxId = 0 \/ coordTxId = coordTransactionID res) /\
  (shard = "" \/ shard = shardID res) /\
  (ticket = 0 \/ ticket = operationID res).

(** Every entry of [responses] points to a record that has been
    allocated. *)
Definition tracked_allocated (cc : ClusterComm) : Prop :=
  forall T response, responses cc !! T = Some response ->
                     (ar_result response < heap_next cc)%nat.

(** The dispatcher after the other threads have had their way during the
    first [k] slices of a wait. *)
Fixpoint after_slices (others : nat -> ClusterComm -> ClusterComm) (k : nat)
    (cc : ClusterComm) : ClusterComm :=
  match k with
  | O => cc
  | S k => others k (after_slices others k cc)
  end.

(** * Properties *)

(** ** Strings *)

Lemma string_eqb_true (a b : string) : string_eqb a b = true <-> a = b.
Proof. unfold string_eqb. apply bool_decide_eq_true. Qed.

Lemma string_eqb_false (a b : string) : string_eqb a b = false <-> a <> b.
Proof. unfold string_eqb. apply bool_decide_eq_false. Qed.

Lemma string_empty_true (s : string) : string_empty s = true <-> s = "".
Proof. unfold string_empty. apply bool_decide_eq_true. Qed.

Lemma substring_whole (s : string) : String.substring 0 (String.length s) s = s.
Proof. induction s as [|c s IH]; simpl; [reflexivity | by rewrite IH]. Qed.

(** A string that starts with [p] is [p] followed by its rest from
    [length p]. *)
Lemma substr_prefix_split (p s : string) :
  substr 0 (String.length p) s = p ->
  s = p +:+ substr_from (String.length p) s.
Proof.
  unfold substr, substr_from. revert s.
  induction p as [|c p IH]; intros s H; simpl in *.
  - rewrite Nat.sub_0_r. symmetry. apply substring_whole.
  - destruct s as [|d s]; [discriminate|]. simpl in *.
    injection H as -> H. rewrite (IH s H) at 1. reflexivity.
Qed.

Lemma substr_prefix_app (p rest : string) :
  substr 0 (String.length p) (p +:+ rest) = p.
Proof.
  unfold substr. induction p as [|c p IH]; simpl.
  - by destruct rest.
  - by rewrite IH.
Qed.

Lemma substr_from_app (p rest : string) :
  substr_from (String.length p) (p +:+ rest) = rest.
Proof.
  unfold substr_from. induction p as [|c p IH]; simpl.
  - rewrite Nat.sub_0_r. apply substring_whole.
  - exact IH.
Qed.

Lemma string_length_app (a b : string) :
  String.length (a +:+ b) = (String.length a + String.length b)%nat.
Proof. induction a as [|c a IH]; simpl; [reflexivity | by rewrite IH]. Qed.

(** The guard of every [substr(pos)] call: the string is long enough. *)
Lemma substr_eq_length (p s : string) :
  substr 0 (String.length p) s = p -> (String.length p <= String.length s)%nat.
Proof.
  intros H. pose proof (substr_prefix_split p s H) as E.
  apply (f_equal String.length) in E. rewrite string_length_app in E. lia.
Qed.

Lemma substr_starts_iff (p s : string) :
  substr 0 (String.length p) s = p <-> exists rest, s = p +:+ rest.
Proof.
  split.
  - intros H. eexists. by apply substr_prefix_split.
  - intros [rest ->]. apply substr_prefix_app.
Qed.

(** ** createCommunicatorDestination *)

(** C10. [createCommunicatorDestination] turns [tcp://rest] into
    [http://rest] followed by the path and [ssl://rest] into [https://rest]
    followed by the path; an endpoint that starts with neither scheme, the
    empty one included, is discarded and the result is the path alone. *)
Theorem createCommunicatorDestination_scheme :
  (forall rest path,
     createCommunicatorDestination ("tcp://" +:+ rest) path
     = "http://" +:+ rest +:+ path) /\
  (forall rest path,
     createCommunicatorDestination ("ssl://" +:+ rest) path
     = "https://" +:+ rest +:+ path) /\
  (forall endpoint path,
     ~ (exists rest, endpoint = "tcp://" +:+ rest) ->
     ~ (exists rest, endpoint = "ssl://" +:+ rest) ->
     createCommunicatorDestination endpoint path = path).
Proof.
  unfold createCommunicatorDestination. repeat split.
  - intros rest path.
    change 6%nat with (String.length "tcp://").
    rewrite substr_prefix_app, substr_from_app. reflexivity.
  - intros rest path.
    change 6%nat with (String.length "ssl://").
    rewrite substr_prefix_app, substr_from_app. reflexivity.
  - intros endpoint path Htcp Hssl.
    destruct (string_eqb (substr 0 6 endpoint) "tcp://") eqn:E1.
    { exfalso. apply Htcp. apply string_eqb_true in E1.
      by apply (substr_starts_iff "tcp://"). }
    destruct (string_eqb (substr 0 6 endpoint) "ssl://") eqn:E2.
    { exfalso. apply Hssl. apply string_eqb_true in E2.
      by apply (substr_starts_iff "ssl://"). }
    reflexivity.
Qed.

Lemma createCommunicatorDestination_scheme_witness :
  createCommunicatorDestination "" "/_api/version" = "/_api/version".
Proof.
  apply (proj2 (proj2 createCommunicatorDestination_scheme)).
  - intros [rest H]. discriminate H.
  - intros [rest H]. discriminate H.
Defined.

(** ** Destination resolution *)

Lemma substr_nonempty (p s : string) :
  p <> "" -> substr 0 (String.length p) s = p -> s <> "".
Proof.
  intros Hp H ->. apply Hp. rewrite <- H. unfold substr.
  by destruct (String.length p).
Qed.

(** Whenever [setDestination] leaves the endpoint of a fresh record empty,
    it has put the record into [CL_COMM_BACKEND_UNAVAILABLE]. *)
Lemma setDestination_unresolved (env : Env) (dest : string) :
  ~ resolved env dest ->
  status (fst (setDestination env dest (new_ClusterCommResult env)))
  = CL_COMM_BACKEND_UNAVAILABLE.
Proof.
  unfold resolved, setDestination. intros H.
  destruct (string_eqb (substr 0 6 dest) "shard:").
  { destruct (getResponsibleServer env _) as [|first rest]; [reflexivity|].
    simpl in *. destruct (string_empty _) eqn:E; [reflexivity|].
    exfalso. apply H. simpl. intros Heq.
    apply string_empty_true in Heq. simpl in E. congruence. }
  destruct (string_eqb (substr 0 7 dest) "server:").
  { simpl in *. destruct (string_empty _) eqn:E; [reflexivity|].
    exfalso. apply H. simpl. intros Heq.
    apply string_empty_true in Heq. simpl in E. congruence. }
  destruct (string_eqb (substr 0 6 dest) "tcp://") eqn:E1.
  { exfalso. apply H. simpl. apply string_eqb_true in E1.
    by apply (substr_nonempty "tcp://"). }
  destruct (string_eqb (substr 0 6 dest) "ssl://") eqn:E2.
  { exfalso. apply H. simpl. apply string_eqb_true in E2.
    by apply (substr_nonempty "ssl://"). }
  reflexivity.
Qed.

(** [prepareRequest] on an unresolved destination: the record as
    [setDestination] left it, and no request. *)
Lemma prepareRequest_unresolved (env : Env) dest reqtype body headerFields ts :
  ~ resolved env dest ->
  prepareRequest env dest reqtype body headerFields ts
  = (fst (setDestination env dest (new_ClusterCommResult env)), None,
     snd (setDestination env dest (new_ClusterCommResult env))).
Proof.
  unfold resolved, prepareRequest. intros H.
  destruct (setDestination env dest _) as [r logs]. simpl in *.
  destruct (string_empty (endpoint r)) eqn:E; [reflexivity|].
  exfalso. apply H. intros Heq. apply string_empty_true in Heq. congruence.
Qed.

Lemma prepareRequest_resolved (env : Env) dest reqtype body headerFields ts :
  resolved env dest ->
  prepareRequest env dest reqtype body headerFields ts
  = (set_status CL_COMM_SUBMITTED
       (fst (setDestination env dest (new_ClusterCommResult env))),
     Some (mkHttpRequest JSON (default "" body)
             (preparedHeaders env dest headerFields ts) reqtype),
     snd (setDestination env dest (new_ClusterCommResult env))).
Proof.
  unfold resolved, prepareRequest, preparedHeaders. intros H.
  destruct (setDestination env dest _) as [r logs]. simpl in *.
  destruct (string_empty (endpoint r)) eqn:E.
  { apply string_empty_true in E. contradiction. }
  by destruct body.
Qed.

(** C5. A destination [shard:X] for which the topology names no
    responsible server puts the record into [CL_COMM_BACKEND_UNAVAILABLE]
    at once, but the text "cannot find responsible server for shard 'X'"
    only goes to the log: [errorMessage] is left as it was, which for the
    fresh record of [prepareRequest] is the empty string. *)
Theorem setDestination_unknown_shard (env : Env) (X : string) :
  getResponsibleServer env X = [] ->
  let '(r, logs) := setDestination env ("shard:" +:+ X) (new_ClusterCommResult env) in
  status r = CL_COMM_BACKEND_UNAVAILABLE /\
  endpoint r = "" /\
  errorMessage r = "" /\
  log_text <$> logs = ["cannot find responsible server for shard '" +:+ X +:+ "'"] /\
  forall reqtype body headerFields ts,
    prepareRequest env ("shard:" +:+ X) reqtype body headerFields ts = (r, None, logs).
Proof.
  intros H.
  assert (E : setDestination env ("shard:" +:+ X) (new_ClusterCommResult env)
              = (set_status CL_COMM_BACKEND_UNAVAILABLE
                   (set_serverID "" (set_shardID X (new_ClusterCommResult env))),
                 [connection_log env
                    ("cannot find responsible server for shard '" +:+ X +:+ "'")])).
  { unfold setDestination.
    change 6%nat with (String.length "shard:").
    rewrite substr_prefix_app, substr_from_app. simpl. by rewrite H. }
  rewrite E. repeat split.
  - unfold connection_log. by destruct (logConnectionErrors env).
  - intros. rewrite prepareRequest_unresolved; [by rewrite E|].
    unfold resolved. rewrite E. simpl. tauto.
Qed.

Lemma setDestination_unknown_shard_witness :
  let '(r, logs) :=
    setDestination (cluster false) "shard:S2" (new_ClusterCommResult (cluster false)) in
  status r = CL_COMM_BACKEND_UNAVAILABLE /\
  endpoint r = "" /\
  errorMessage r = "" /\
  log_text <$> logs = ["cannot find responsible server for shard 'S2'"] /\
  forall reqtype body headerFields ts,
    prepareRequest (cluster false) "shard:S2" reqtype body headerFields ts
    = (r, None, logs).
Proof.
  apply (setDestination_unknown_shard (cluster false) "S2"). reflexivity.
Defined.

(** ** syncRequest *)

(** C9. [syncRequest] on a destination that does not resolve returns at
    once, whatever the fuel: nothing is handed to the transport, the
    private condition variable is not waited on, and the record returned
    has [single] set and the [CL_COMM_BACKEND_UNAVAILABLE] status that
    resolution gave it. *)
Theorem syncRequest_unresolved (env : Env) (cc : ClusterComm)
    clientTxId coordTxId dest reqtype path body headerFields timeout ts
    arrival fuel :
  ~ resolved env dest ->
  exists r cc',
    syncRequest env cc clientTxId coordTxId dest reqtype path body
      headerFields timeout ts arrival fuel = Some (r, cc', O) /\
    single r = true /\
    status r = CL_COMM_BACKEND_UNAVAILABLE /\
    endpoint r = "" /\
    _communicator cc' = _communicator cc /\
    responses cc' = responses cc.
Proof.
  intros H. unfold syncRequest.
  rewrite prepareRequest_unresolved by done.
  eexists _, _. split; [reflexivity|]. simpl.
  split; [reflexivity|]. split; [by apply setDestination_unresolved|].
  split; [|done].
  unfold resolved in H.
  destruct (decide (endpoint (setDestination env dest (new_ClusterCommResult env)).1 = ""));
    [done | contradiction].
Qed.

Lemma syncRequest_unresolved_witness :
  exists r cc',
    syncRequest (cluster false) (fresh_ClusterComm (cluster false)) "" 7
      "server:srvB" GET "/x" "" ∅ 5%Q 0 (fun _ => None) O = Some (r, cc', O) /\
    single r = true /\
    status r = CL_COMM_BACKEND_UNAVAILABLE /\
    endpoint r = "" /\
    _communicator cc' = _communicator (fresh_ClusterComm (cluster false)) /\
    responses cc' = responses (fresh_ClusterComm (cluster false)).
Proof.
  apply syncRequest_unresolved. unfold resolved. simpl. tauto.
Defined.

Lemma syncRequest_wait_silent (env : Env) (fuel n : nat) r l :
  syncRequest_wait env (fun _ => None) fuel n false r l = None.
Proof. revert n. induction fuel as [|fuel IH]; intros n; simpl; [reflexivity | apply IH]. Qed.

(** With a destination that resolves and a reply that never comes,
    [syncRequest] stays in its loop: the immediate return above is
    particular to the unresolved case. *)
Lemma syncRequest_resolved_waits (fuel : nat) :
  syncRequest (cluster false) (fresh_ClusterComm (cluster false)) "" 7
    "server:srvA" GET "/x" "" ∅ 5%Q 0 (fun _ => None) fuel = None.
Proof.
  unfold syncRequest. rewrite prepareRequest_resolved by (by vm_compute).
  cbn -[syncRequest_wait]. by rewrite syncRequest_wait_silent.
Qed.

(** ** asyncRequest *)

Lemma next_ticket_nonzero (c : Communicator) : next_ticket c <> 0.
Proof. unfold next_ticket. destruct (Z.eqb_spec (NEXT_TICKET_ID c) 0); lia. Qed.

Lemma emplace_fresh {V : Type} (k : Z) (v : V) (m : gmap Z V) :
  m !! k = None -> emplace k v m = <[k := v]> m.
Proof. intros H. unfold emplace. by rewrite H. Qed.

Lemma createCommunicatorDestination_empty (path : string) :
  createCommunicatorDestination "" path = path.
Proof. reflexivity. Qed.

(** What [asyncRequest] does, spelled out: it submits one request to the
    transport on every path, takes the transport's ticket, enters the
    record into [responses] and leaves it in [CL_COMM_SUBMITTED]. *)
Lemma asyncRequest_effect (env : Env) (cc : ClusterComm)
    clientTxId coordTxId dest reqtype path body headerFields callback
    timeout singleRequest initTimeout ts now :
  let first := fst (fst (prepareRequest env dest reqtype body headerFields ts)) in
  let second := snd (fst (prepareRequest env dest reqtype body headerFields ts)) in
  let ticket := next_ticket (_communicator cc) in
  let r := set_single singleRequest
             (set_coordTransactionID coordTxId
                (set_clientTransactionID clientTxId first)) in
  let nr := mkNewRequest (createCommunicatorDestination (endpoint first) path)
              (default (mkHttpRequest JSON "" ∅ reqtype) second)
              (match callback with
               | Some callback => CallbackCaller (heap_next cc) callback
               | None => CallbackBroadcast (heap_next cc)
               end)
              (mkOptions initTimeout timeout) ticket in
  let '(ticketId, cc') :=
    asyncRequest env cc clientTxId coordTxId dest reqtype path body
      headerFields callback timeout singleRequest initTimeout ts now in
  ticketId = ticket /\
  _newRequests (_communicator cc') = _newRequests (_communicator cc) ++ [nr] /\
  responses cc' = emplace ticket (mkAsyncResponse now (heap_next cc)) (responses cc) /\
  heap cc' (heap_next cc) = set_status CL_COMM_SUBMITTED (set_operationID ticket r) /\
  (forall p, p <> heap_next cc -> heap cc' p = heap cc p).
Proof.
  unfold asyncRequest.
  destruct (prepareRequest env dest reqtype body headerFields ts) as [[first second] logs].
  simpl. split; [reflexivity|]. split; [by destruct second|].
  split; [reflexivity|]. split.
  - by rewrite Nat.eqb_refl.
  - intros p Hp. apply Nat.eqb_neq in Hp. by rewrite Hp.
Qed.

(** C1 (as amended). For a destination that does not resolve,
    [prepareRequest] yields a record in [CL_COMM_BACKEND_UNAVAILABLE] with
    an empty endpoint and no request. [asyncRequest] then makes up an empty
    request, submits it to the transport under the path alone, takes the
    transport's ticket (never zero) for the record, enters the record into
    [responses] and leaves it in [CL_COMM_SUBMITTED], which is what
    [enquire] reports until the transport calls back. *)
Theorem asyncRequest_unresolved (env : Env) (cc : ClusterComm)
    clientTxId coordTxId dest reqtype path body headerFields callback
    timeout singleRequest initTimeout ts now :
  ~ resolved env dest ->
  responses cc !! next_ticket (_communicator cc) = None ->
  let '(first, second, _) := prepareRequest env dest reqtype body headerFields ts in
  let '(ticket, cc') :=
    asyncRequest env cc clientTxId coordTxId dest reqtype path body
      headerFields callback timeout singleRequest initTimeout ts now in
  (status first = CL_COMM_BACKEND_UNAVAILABLE /\ endpoint first = "" /\ second = None) /\
  (ticket = next_ticket (_communicator cc) /\ ticket <> 0) /\
  responses cc' = <[ticket := mkAsyncResponse now (heap_next cc)]> (responses cc) /\
  enquire env cc' ticket
  = set_status CL_COMM_SUBMITTED
      (set_operationID ticket
         (set_single singleRequest
            (set_coordTransactionID coordTxId
               (set_clientTransactionID clientTxId first)))) /\
  exists callbacks,
    _newRequests (_communicator cc')
    = _newRequests (_communicator cc)
      ++ [mkNewRequest path (mkHttpRequest JSON "" ∅ reqtype) callbacks
            (mkOptions initTimeout timeout) ticket].
Proof.
  intros Hun Hfresh.
  pose proof (asyncRequest_effect env cc clientTxId coordTxId dest reqtype path
                body headerFields callback timeout singleRequest initTimeout ts now) as E.
  rewrite prepareRequest_unresolved in * by done. simpl in E.
  destruct (asyncRequest _ _ _ _ _ _ _ _ _ _ _ _ _ _ _) as [ticket cc'].
  destruct E as (-> & Hnew & Hresp & Hheap & _).
  assert (Hend : endpoint (setDestination env dest (new_ClusterCommResult env)).1 = "").
  { unfold resolved in Hun.
    by destruct (decide (endpoint (setDestination env dest (new_ClusterCommResult env)).1 = "")). }
  rewrite emplace_fresh in Hresp by done.
  split; [by rewrite setDestination_unresolved|].
  split; [split; [done | apply next_ticket_nonzero]|].
  split; [done|]. split.
  - unfold enquire. rewrite Hresp, lookup_insert_eq. simpl. exact Hheap.
  - eexists. rewrite Hnew, Hend. reflexivity.
Qed.

Lemma asyncRequest_unresolved_witness :
  let env := cluster false in
  let cc := fresh_ClusterComm env in
  let '(first, second, _) := prepareRequest env "shard:S2" GET None ∅ 0 in
  let '(ticket, cc') :=
    asyncRequest env cc "" 0 "shard:S2" GET "/x" None ∅ None 5%Q false (-1)%Q 0 0%Q in
  (status first = CL_COMM_BACKEND_UNAVAILABLE /\ endpoint first = "" /\ second = None) /\
  (ticket = next_ticket (_communicator cc) /\ ticket <> 0) /\
  responses cc' = <[ticket := mkAsyncResponse 0%Q (heap_next cc)]> (responses cc) /\
  enquire env cc' ticket
  = set_status CL_COMM_SUBMITTED
      (set_operationID ticket
         (set_single false
            (set_coordTransactionID 0
               (set_clientTransactionID "" first)))) /\
  exists callbacks,
    _newRequests (_communicator cc')
    = _newRequests (_communicator cc)
      ++ [mkNewRequest "/x" (mkHttpRequest JSON "" ∅ GET) callbacks
            (mkOptions (-1)%Q 5%Q) ticket].
Proof.
  apply (asyncRequest_unresolved (cluster false) (fresh_ClusterComm (cluster false))
           "" 0 "shard:S2" GET "/x" None ∅ None 5%Q false (-1)%Q 0 0%Q).
  - unfold resolved. simpl. tauto.
  - reflexivity.
Defined.

(** C1 (counterexample). Scenario "unknown shard": the topology does not
    know [S2]. After [asyncRequest] on [shard:S2] the tracked record is not
    in [CL_COMM_BACKEND_UNAVAILABLE] (it is in [CL_COMM_SUBMITTED]), and
    the transport has been given a request. *)
Lemma asyncRequest_unresolved_not_terminal :
  let env := cluster false in
  let cc := fresh_ClusterComm env in
  ~ resolved env "shard:S2" /\
  let '(ticket, cc') :=
    asyncRequest env cc "" 0 "shard:S2" GET "/x" None ∅ None 5%Q false (-1)%Q 0 0%Q in
  ~ (status (enquire env cc' ticket) = CL_COMM_BACKEND_UNAVAILABLE /\
     _newRequests (_communicator cc') = _newRequests (_communicator cc)) /\
  status (enquire env cc' ticket) = CL_COMM_SUBMITTED /\
  length (_newRequests (_communicator cc')) = 1%nat.
Proof.
  split; [unfold resolved; simpl; tauto|].
  vm_compute. split; [|split; reflexivity].
  intros [H _]. discriminate H.
Qed.

Lemma preparedHeaders_lookup (env : Env) dest headerFields ts (k : string) :
  k <> HLCHeader -> k <> "Authorization" -> k <> "X-Arango-Nolock" ->
  preparedHeaders env dest headerFields ts !! k = headerFields !! k.
Proof.
  intros H1 H2 H3. unfold preparedHeaders.
  rewrite !lookup_insert_ne by done.
  destruct (string_eqb _ _); [|done].
  destruct (makeNolockHeaders env) as [nolock|]; [|done].
  case_bool_decide; [|done]. by rewrite lookup_insert_ne.
Qed.

(** C2 (as amended). For a destination that resolves, the request
    [asyncRequest] hands to the transport carries the caller's headers with
    [Authorization] and the HLC header set, and with [X-Arango-Nolock] set
    to the shard for a [shard:] destination listed in [_makeNolockHeaders];
    every other header, [X-Arango-Async] and [X-Arango-Coordinator] among
    them, is exactly as the caller supplied it (absent when the caller did
    not supply it), whatever [singleRequest] is. *)
Theorem asyncRequest_headers (env : Env) (cc : ClusterComm)
    clientTxId coordTxId dest reqtype path body headerFields callback
    timeout singleRequest initTimeout ts now :
  resolved env dest ->
  let '(ticket, cc') :=
    asyncRequest env cc clientTxId coordTxId dest reqtype path body
      headerFields callback timeout singleRequest initTimeout ts now in
  exists nr,
    _newRequests (_communicator cc') = _newRequests (_communicator cc) ++ [nr] /\
    _ticketId nr = ticket /\
    req_headers (_request nr) = preparedHeaders env dest headerFields ts /\
    req_headers (_request nr) !! "Authorization" = Some (getAuthentication env) /\
    req_headers (_request nr) !! HLCHeader = Some (encodeTimeStamp env ts) /\
    req_headers (_request nr) !! "X-Arango-Async" = headerFields !! "X-Arango-Async" /\
    req_headers (_request nr) !! "X-Arango-Coordinator"
    = headerFields !! "X-Arango-Coordinator" /\
    forall k, k <> HLCHeader -> k <> "Authorization" -> k <> "X-Arango-Nolock" ->
              req_headers (_request nr) !! k = headerFields !! k.
Proof.
  intros Hres.
  pose proof (asyncRequest_effect env cc clientTxId coordTxId dest reqtype path
                body headerFields callback timeout singleRequest initTimeout ts now) as E.
  rewrite prepareRequest_resolved in E by done. simpl in E.
  destruct (asyncRequest _ _ _ _ _ _ _ _ _ _ _ _ _ _ _) as [ticket cc'].
  destruct E as (-> & Hnew & _).
  eexists. split; [exact Hnew|]. simpl.
  split; [reflexivity|]. split; [reflexivity|].
  split; [unfold preparedHeaders; by rewrite lookup_insert_ne, lookup_insert_eq|].
  split; [unfold preparedHeaders; by rewrite lookup_insert_eq|].
  split; [by apply preparedHeaders_lookup|].
  split; [by apply preparedHeaders_lookup|].
  intros k H1 H2 H3. by apply preparedHeaders_lookup.
Qed.

Lemma asyncRequest_headers_witness :
  let '(ticket, cc') :=
    asyncRequest (cluster false) (fresh_ClusterComm (cluster false)) "ctx" 42
      "shard:S1" GET "/x" None ∅ None 5%Q false (-1)%Q 0 0%Q in
  exists nr,
    _newRequests (_communicator cc')
    = _newRequests (_communicator (fresh_ClusterComm (cluster false))) ++ [nr] /\
    _ticketId nr = ticket /\
    req_headers (_request nr) = preparedHeaders (cluster false) "shard:S1" ∅ 0 /\
    req_headers (_request nr) !! "Authorization" = Some (getAuthentication (cluster false)) /\
    req_headers (_request nr) !! HLCHeader = Some (encodeTimeStamp (cluster false) 0) /\
    req_headers (_request nr) !! "X-Arango-Async"
    = (∅ : gmap string string) !! "X-Arango-Async" /\
    req_headers (_request nr) !! "X-Arango-Coordinator"
    = (∅ : gmap string string) !! "X-Arango-Coordinator" /\
    forall k, k <> HLCHeader -> k <> "Authorization" -> k <> "X-Arango-Nolock" ->
              req_headers (_request nr) !! k = (∅ : gmap string string) !! k.
Proof.
  apply (asyncRequest_headers (cluster false) (fresh_ClusterComm (cluster false))
           "ctx" 42 "shard:S1" GET "/x" None ∅ None 5%Q false (-1)%Q 0 0%Q).
  unfold resolved. vm_compute. discriminate.
Defined.

(** C2 (counterexample). Scenario "shard routing" with
    [singleRequest = false] and no caller headers: the request handed to
    the transport has neither an [X-Arango-Async] nor an
    [X-Arango-Coordinator] header, so it does not carry the correlation
    headers, whatever the server's own id is. *)
Lemma asyncRequest_no_async_headers :
  let env := cluster false in
  resolved env "shard:S1" /\
  let '(ticket, cc') :=
    asyncRequest env (fresh_ClusterComm env) "ctx" 42 "shard:S1" GET "/x" None ∅
      None 5%Q false (-1)%Q 0 0%Q in
  exists nr,
    _newRequests (_communicator cc') = [nr] /\
    _ticketId nr = ticket /\
    req_headers (_request nr) !! "X-Arango-Async" = None /\
    req_headers (_request nr) !! "X-Arango-Coordinator" = None /\
    forall selfServerId, ~ carries_async_headers selfServerId nr "ctx" 42.
Proof.
  split; [unfold resolved; vm_compute; discriminate|].
  cbv zeta.
  destruct (asyncRequest _ _ _ _ _ _ _ _ _ _ _ _ _ _ _) as [ticket cc'] eqn:E.
  vm_compute in E. injection E as <- <-.
  eexists. split; [reflexivity|]. split; [reflexivity|].
  split; [reflexivity|]. split; [reflexivity|].
  intros selfServerId [H _]. vm_compute in H. discriminate H.
Qed.

(** C7. The options [asyncRequest] hands to the transport: the connection
    timeout is [initTimeout] as passed, positive or not, and the request
    timeout is [timeout]. *)
Theorem asyncRequest_options (env : Env) (cc : ClusterComm)
    clientTxId coordTxId dest reqtype path body headerFields callback
    timeout singleRequest initTimeout ts now :
  let '(ticket, cc') :=
    asyncRequest env cc clientTxId coordTxId dest reqtype path body
      headerFields callback timeout singleRequest initTimeout ts now in
  exists nr,
    _newRequests (_communicator cc') = _newRequests (_communicator cc) ++ [nr] /\
    _ticketId nr = ticket /\
    connectionTimeout (_options nr) = initTimeout /\
    requestTimeout (_options nr) = timeout.
Proof.
  pose proof (asyncRequest_effect env cc clientTxId coordTxId dest reqtype path
                body headerFields callback timeout singleRequest initTimeout ts now) as E.
  destruct (asyncRequest _ _ _ _ _ _ _ _ _ _ _ _ _ _ _) as [ticket cc'].
  destruct E as (-> & Hnew & _).
  eexists. split; [exact Hnew|]. by simpl.
Qed.

(** With the default [initTimeout] of [-1] and a [timeout] of 5 seconds the
    transport is told to connect within [-1] seconds, not within 5. *)
Lemma asyncRequest_negative_initTimeout :
  let '(ticket, cc') :=
    asyncRequest (cluster false) (fresh_ClusterComm (cluster false)) "" 0
      "shard:S1" GET "/x" None ∅ None 5%Q false (-1)%Q 0 0%Q in
  exists nr,
    _newRequests (_communicator cc') = [nr] /\
    connectionTimeout (_options nr) = (-1)%Q /\
    ~ (connectionTimeout (_options nr) == 5)%Q /\
    requestTimeout (_options nr) = 5%Q.
Proof.
  destruct (asyncRequest _ _ _ _ _ _ _ _ _ _ _ _ _ _ _) as [ticket cc'] eqn:E.
  vm_compute in E. injection E as <- <-.
  eexists. split; [reflexivity|]. split; [reflexivity|]. split; [|reflexivity].
  simpl. intros H. discriminate H.
Qed.

(** ** Matching *)

Lemma match_iff (c : ClientTransactionID) (t : CoordTransactionID) (s : ShardID)
    (res : ClusterCommResult) :
  match_ c t s res = true <->
  (c = "" \/ c = clientTransactionID res) /\
  (t = 0 \/ t = coordTransactionID res) /\
  (s = "" \/ s = shardID res).
Proof.
  unfold match_.
  rewrite !andb_true_iff, !orb_true_iff, !string_eqb_true, !Z.eqb_eq.
  intuition congruence.
Qed.

Lemma drop_selects_iff c t (ticket : OperationID) s (res : ClusterCommResult) :
  drop_selects c t ticket s res = true <->
  (ticket <> 0 /\ ticket = operationID res) \/ match_ c t s res = true.
Proof.
  unfold drop_selects.
  rewrite orb_true_iff, andb_true_iff, negb_true_iff, Z.eqb_neq, Z.eqb_eq.
  intuition congruence.
Qed.

(** C8 (as amended). [match] has three filters, taken conjointly: the
    client transaction id, the coordinator transaction id and the shard,
    each a wildcard when empty or zero. The ticket is not one of them. It
    agrees with the four-filter rule when the ticket is the wildcard 0.
    [wait] with a non-zero ticket settles on the entry of that ticket and
    looks at no other filter; with ticket 0 it settles on an entry [match]
    accepts, and on none only if [match] accepts none. *)
Theorem match_rule (cc : ClusterComm) (c : ClientTransactionID)
    (t : CoordTransactionID) (ticket : Ticket) (s : ShardID)
    (res : ClusterCommResult) :
  (match_ c t s res = true <->
     (c = "" \/ c = clientTransactionID res) /\
     (t = 0 \/ t = coordTransactionID res) /\
     (s = "" \/ s = shardID res)) /\
  (match_ c t s res = true <-> spec_matches c t 0 s res) /\
  (ticket <> 0 ->
     wait_find cc c t ticket s
     = (fun response => (ticket, response)) <$> responses cc !! ticket) /\
  (forall i response,
     wait_find cc c t 0 s = Some (i, response) ->
     responses cc !! i = Some response /\
     match_ c t s (heap cc (ar_result response)) = true) /\
  (wait_find cc c t 0 s = None <->
     forall i response,
       responses cc !! i = Some response ->
       match_ c t s (heap cc (ar_result response)) = false).
Proof.
  split; [apply match_iff|].
  split; [rewrite match_iff; unfold spec_matches; intuition|].
  split.
  { intros H. unfold wait_find. apply Z.eqb_neq in H. by rewrite H. }
  split.
  { intros i response. unfold wait_find. simpl.
    destruct (list_find _ _) as [[n x]|] eqn:E; [|discriminate].
    simpl. intros [= ->]. apply list_find_Some in E as (Hl & HP & _).
    split; [|exact HP].
    apply elem_of_map_to_list. eapply list_elem_of_lookup_2. exact Hl. }
  unfold wait_find. simpl. rewrite fmap_None, list_find_None, Forall_forall.
  split.
  - intros H i response Hi. apply not_true_is_false.
    apply (H (i, response)). by apply elem_of_map_to_list.
  - intros H [i response] Hin. apply elem_of_map_to_list in Hin.
    simpl. rewrite (H i response Hin). discriminate.
Qed.

Lemma match_rule_witness :
  let env := cluster false in
  let mine := set_clientTransactionID "mine" (set_operationID 7 (new_ClusterCommResult env)) in
  let cc := with_responses {[7 := mkAsyncResponse 0 0]}
              (snd (alloc mine (fresh_ClusterComm env))) in
  wait_find cc "other" 0 7 "" = Some (7, mkAsyncResponse 0 0).
Proof.
  intros env mine cc.
  rewrite (proj1 (proj2 (proj2 (match_rule cc "other" 0 7 "" mine)))).
  - reflexivity.
  - discriminate.
Defined.

(** C8 (counterexample). One tracked record, ticket 7, client transaction
    ["mine"]. [wait] asked for ticket 7 and client transaction ["other"]
    settles on it, and [drop] asked for ticket 8 with all other filters
    wild selects it; under the four-filter rule it matches neither. *)
Lemma ticket_is_no_conjoint_filter :
  let env := cluster false in
  let mine := set_clientTransactionID "mine" (set_operationID 7 (new_ClusterCommResult env)) in
  let cc := with_responses {[7 := mkAsyncResponse 0 0]}
              (snd (alloc mine (fresh_ClusterComm env))) in
  (wait_find cc "other" 0 7 "" = Some (7, mkAsyncResponse 0 0) /\
   heap cc 0 = mine /\
   ~ spec_matches "other" 0 7 "" mine) /\
  (drop_selects "" 0 8 "" mine = true /\
   ~ spec_matches "" 0 8 "" mine).
Proof.
  split.
  - split; [reflexivity|]. split; [reflexivity|].
    intros ([H|H] & _); discriminate H.
  - split; [reflexivity|].
    intros (_ & _ & _ & [H|H]); discriminate H.
Qed.

(** ** wait *)

Lemma wait_loop_blocked (others : nat -> ClusterComm -> ClusterComm) (p : nat) :
  (forall k cc, status (heap cc p) = CL_COMM_SUBMITTED ->
                status (heap (others k cc) p) = CL_COMM_SUBMITTED) ->
  forall fuel slices cc,
    status (heap cc p) = CL_COMM_SUBMITTED ->
    wait_loop others fuel slices p cc = None.
Proof.
  intros Hothers. induction fuel as [|fuel IH]; intros slices cc H; simpl;
    rewrite bool_decide_eq_true_2 by done; [reflexivity|].
  apply IH. by apply Hothers.
Qed.

(** When [wait_loop] ends, it has sat through as many slices as it took
    the status to leave [CL_COMM_SUBMITTED], and the status has left it. *)
Lemma wait_loop_returns others fuel slices p cc cc' n :
  wait_loop others fuel slices p cc = Some (cc', n) ->
  status (heap cc' p) <> CL_COMM_SUBMITTED /\ (slices <= n <= slices + fuel)%nat.
Proof.
  revert slices cc. induction fuel as [|fuel IH]; intros slices cc; simpl;
    case_bool_decide as Hst; try discriminate.
  - intros [= <- <-]. split; [done | lia].
  - intros Hrun. apply IH in Hrun. split; [tauto | lia].
  - intros [= <- <-]. split; [done | lia].
Qed.

(** C3. [wait] never reads its [timeout]: once it has settled on a record,
    it sits in slices of 60 seconds for as long as the record stays in
    [CL_COMM_SUBMITTED]. If the record stays there for good, [wait] is
    still blocked after any number of slices, however small the timeout,
    and no record in [CL_COMM_TIMEOUT] is ever made up. *)
Theorem wait_blocks_past_timeout (env : Env) (cc : ClusterComm)
    clientTxId coordTxId ticket shard (timeout : ClusterCommTimeout)
    (others : nat -> ClusterComm -> ClusterComm) (fuel : nat) i response :
  wait_find cc clientTxId coordTxId ticket shard = Some (i, response) ->
  status (heap cc (ar_result response)) = CL_COMM_SUBMITTED ->
  (forall k cc', status (heap cc' (ar_result response)) = CL_COMM_SUBMITTED ->
                 status (heap (others k cc') (ar_result response)) = CL_COMM_SUBMITTED) ->
  wait env cc clientTxId coordTxId ticket shard timeout others fuel = None.
Proof.
  intros Hfind Hst Hothers. unfold wait. rewrite Hfind.
  by rewrite (wait_loop_blocked others (ar_result response) Hothers).
Qed.

(** A request to [shard:S1] has been submitted with a timeout of one
    second and is never answered; nobody else touches the dispatcher. *)
Lemma wait_blocks_past_timeout_witness :
  let env := cluster false in
  let cc := snd (asyncRequest env (fresh_ClusterComm env) "" 0 "shard:S1" GET "/x"
                   None ∅ None 1%Q false (-1)%Q 0 0%Q) in
  wait env cc "" 0 1 "" 1%Q (fun _ cc => cc) 100 = None.
Proof.
  intros env cc.
  apply (wait_blocks_past_timeout env cc "" 0 1 "" 1%Q (fun _ cc => cc) 100
           1 (mkAsyncResponse 0 0)).
  - reflexivity.
  - reflexivity.
  - intros k cc' H. exact H.
Defined.

(** What [wait] returns does not depend on [timeout], and a record it
    returns from the table is the tracked record as the other threads left
    it: [wait] itself sets no status. *)
Lemma wait_result (env : Env) (cc : ClusterComm) clientTxId coordTxId ticket
    shard (timeout timeout' : ClusterCommTimeout) others fuel :
  wait env cc clientTxId coordTxId ticket shard timeout others fuel
  = wait env cc clientTxId coordTxId ticket shard timeout' others fuel /\
  forall r cc' n i response,
    wait_find cc clientTxId coordTxId ticket shard = Some (i, response) ->
    wait env cc clientTxId coordTxId ticket shard timeout others fuel = Some (r, cc', n) ->
    r = heap cc' (ar_result response) /\
    status r <> CL_COMM_SUBMITTED /\
    responses cc' !! i = None.
Proof.
  split; [reflexivity|].
  intros r cc' n i response Hfind. unfold wait. rewrite Hfind.
  destruct (wait_loop _ _ _ _ _) as [[cc1 m]|] eqn:E; [|discriminate].
  intros [= <- <- <-]. apply wait_loop_returns in E as [E _].
  split; [reflexivity|]. split; [exact E|]. simpl. apply lookup_delete_eq.
Qed.

(** ** drop *)

(** C4. [drop] works on the queues [toSend] and [received]; whatever its
    arguments, the table [responses] and the records behind it are
    afterwards what they were, and so is the answer of [enquire] for every
    ticket: a tracked ticket is still tracked after it was dropped. *)
Theorem drop_keeps_responses (env : Env) (cc cc' : ClusterComm)
    clientTxId coordTxId ticket shard :
  drop env cc clientTxId coordTxId ticket shard = Some cc' ->
  responses cc' = responses cc /\
  heap cc' = heap cc /\
  forall T, enquire env cc' T = enquire env cc T.
Proof.
  unfold drop. intros H.
  destruct (drop_toSend _ _ _ _) as [[q index]|]; [|discriminate].
  simpl in H. destruct (drop_received _ _ _) as [q' index'].
  injection H as <-. by repeat split.
Qed.

(** Ticket 1 is tracked and its answer has been received. *)
Lemma drop_keeps_responses_witness :
  let env := cluster false in
  let cc0 := snd (asyncRequest env (fresh_ClusterComm env) "" 0 "shard:S1" GET "/x"
                    None ∅ None 5%Q false (-1)%Q 0 0%Q) in
  let cc := store 0 (set_status CL_COMM_RECEIVED (heap cc0 0)) cc0 in
  exists cc',
    drop env cc "" 0 1 "" = Some cc' /\
    drop env cc' "" 0 1 "" = Some cc' /\
    status (enquire env cc 1) = CL_COMM_RECEIVED /\
    operationID (enquire env cc 1) = 1 /\
    enquire env cc' 1 = enquire env cc 1.
Proof.
  intros env cc0 cc. eexists.
  split; [reflexivity|]. split; [reflexivity|].
  split; [reflexivity|]. split; [reflexivity|].
  apply (drop_keeps_responses env cc _ "" 0 1 ""). reflexivity.
Defined.

(** [asyncRequest] never fills the queues [drop] goes through, and on
    empty queues [drop] does nothing at all. *)
Lemma asyncRequest_queues (env : Env) (cc : ClusterComm)
    clientTxId coordTxId dest reqtype path body headerFields callback
    timeout singleRequest initTimeout ts now :
  let cc' := snd (asyncRequest env cc clientTxId coordTxId dest reqtype path body
                    headerFields callback timeout singleRequest initTimeout ts now) in
  toSend cc' = toSend cc /\ received cc' = received cc.
Proof.
  unfold asyncRequest.
  destruct (prepareRequest env dest reqtype body headerFields ts) as [[first second] logs].
  by simpl.
Qed.

Lemma drop_empty_queues (env : Env) (cc : ClusterComm) clientTxId coordTxId ticket shard :
  toSend cc = [] -> received cc = [] ->
  drop env cc clientTxId coordTxId ticket shard = Some cc.
Proof.
  destruct cc as [h n resp ts tsi rc rci comm lg]. simpl.
  intros -> ->. reflexivity.
Qed.

(** ** performRequests *)

Lemma Qltb_true (a b : Q) : Qltb a b = true <-> (a < b)%Q.
Proof.
  unfold Qltb. rewrite negb_true_iff. split.
  - intros H. apply Qnot_le_lt. intros Hle. apply Qle_bool_iff in Hle. congruence.
  - intros H. apply not_true_is_false. intros Hle. apply Qle_bool_iff in Hle.
    by apply (Qlt_not_le a b).
Qed.

Lemma Qle_bool_false (a b : Q) : Qle_bool a b = false <-> (b < a)%Q.
Proof.
  rewrite <- Qltb_true. unfold Qltb. by rewrite negb_true_iff.
Qed.

(** A request that is done is not sent again: for it, the round of the
    send loop changes nothing and submits nothing. *)
Lemma sendDue_one_done (env : Env) (world : World) coordTxId startTime endTime
    (i : nat) (l : Locals) (cc : ClusterComm) rq :
  requests l !! i = Some rq -> rq_done rq = true ->
  sendDue_one env world coordTxId startTime endTime i (l, cc) = (l, cc).
Proof.
  intros Hrq Hdone. unfold sendDue_one. rewrite Hrq.
  destruct (dueTime l !! i); [|reflexivity]. by rewrite Hdone.
Qed.

(** A request that is not done is sent exactly when its due time has come;
    its due time then moves past the end of the whole operation. *)
Lemma sendDue_one_due (env : Env) (world : World) coordTxId startTime endTime
    (i : nat) (l : Locals) (cc : ClusterComm) rq due :
  requests l !! i = Some rq -> dueTime l !! i = Some due -> rq_done rq = false ->
  let '(l', cc') := sendDue_one env world coordTxId startTime endTime i (l, cc) in
  ((due <= now l)%Q ->
     length (_newRequests (_communicator cc'))
     = S (length (_newRequests (_communicator cc))) /\
     dueTime l' !! i = Some (endTime + 10)%Q) /\
  ((now l < due)%Q -> l' = l /\ cc' = cc).
Proof.
  intros Hrq Hdue Hdone. unfold sendDue_one. rewrite Hrq, Hdue, Hdone. simpl.
  destruct (Qle_bool due (now l)) eqn:E.
  - pose proof (asyncRequest_effect env cc "" coordTxId (rq_destination rq)
                  (rq_requestType rq) (rq_path rq) (rq_body rq)
                  (default ∅ (rq_headerFields rq)) None (endTime - now l)%Q false
                  (if Qltb (endTime - now l) (Qmin (Qmax 1 (now l - startTime)) 10)
                   then (endTime - now l)%Q
                   else Qmin (Qmax 1 (now l - startTime)) 10)
                  (TRI_HybridLogicalClock world (readings l))
                  (TRI_microtime world (readings l))) as Heff.
    destruct (asyncRequest _ _ _ _ _ _ _ _ _ _ _ _ _ _ _) as [opId cc'].
    destruct Heff as (_ & Hnew & _). split.
    + intros _. split.
      * rewrite Hnew, length_app. simpl. lia.
      * simpl. apply list_lookup_insert_eq. by eapply lookup_lt_Some.
    + intros Hlt. apply Qle_bool_iff in E. by apply Qlt_not_le in Hlt.
  - split; [|done]. intros Hle. apply Qle_bool_iff in Hle. congruence.
Qed.

#[local] Arguments sendDue_one : simpl never.

(** The three branches of the result handling with assertions compiled
    out. A result for request
    [index] in [CL_COMM_BACKEND_UNAVAILABLE], or in [CL_COMM_TIMEOUT] with
    [sendWasComplete] unset, moves the due time of the request to
    [min(10, max(0.2, 2 * (now - startTime))) + now]; if that is at or past
    [endTime] the request is marked done and counted in [nrDone], and
    otherwise it stays open with [nrDone] as it was. Every other status
    marks the request done, counts it and leaves all due times alone.
    Requests that are done stay done, and a done request is not sent
    again. *)
Lemma handleResult_retry (env : Env) (startTime endTime : ClusterCommTimeout)
    (index : nat) (res : ClusterCommResult) (l : Locals) (rq : ClusterCommRequest) :
  maintainerMode env = false ->
  requests l !! index = Some rq ->
  (index < length (dueTime l))%nat ->
  let due := (Qmin 10 (Qmax (2 # 10) (2 * (now l - startTime))) + now l)%Q in
  exists l' rq',
    handleResult env startTime endTime index res l = Some l' /\
    requests l' !! index = Some rq' /\
    (status res = CL_COMM_BACKEND_UNAVAILABLE \/
     (status res = CL_COMM_TIMEOUT /\ sendWasComplete res = false) ->
       dueTime l' !! index = Some due /\
       ((endTime <= due)%Q -> rq_done rq' = true /\ nrDone l' = S (nrDone l)) /\
       ((due < endTime)%Q -> rq_done rq' = rq_done rq /\ nrDone l' = nrDone l)) /\
    (~ (status res = CL_COMM_BACKEND_UNAVAILABLE \/
        (status res = CL_COMM_TIMEOUT /\ sendWasComplete res = false)) ->
       dueTime l' = dueTime l /\ rq_done rq' = true /\ nrDone l' = S (nrDone l)) /\
    (forall j old, requests l !! j = Some old -> rq_done old = true ->
       exists new, requests l' !! j = Some new /\ rq_done new = true) /\
    (forall world coordTxId cc,
       rq_done rq' = true ->
       sendDue_one env world coordTxId startTime endTime index (l', cc) = (l', cc)).
Proof.
  intros Hasserts Hrq Hlen due. unfold handleResult. rewrite Hasserts.
  assert (Hmono : forall (f : ClusterCommRequest -> ClusterCommRequest) j old,
            (forall x, rq_done x = true -> rq_done (f x) = true) ->
            requests l !! j = Some old -> rq_done old = true ->
            exists new, alter f index (requests l) !! j = Some new /\ rq_done new = true).
  { intros f j old Hf Hj Hd. destruct (decide (index = j)) as [->|Hne].
    - rewrite list_lookup_alter_eq, Hj. simpl. eauto.
    - rewrite list_lookup_alter_ne by done. eauto. }
  case_bool_decide as Hrecv.
  { (* CL_COMM_RECEIVED *)
    eexists _, _. split; [reflexivity|]. simpl.
    split; [by rewrite list_lookup_alter_eq, Hrq|].
    split; [intros [H|[H _]]; congruence|].
    split; [done|].
    split; [intros j old; by apply Hmono|].
    intros world coordTxId cc _. eapply sendDue_one_done; simpl.
    - by rewrite list_lookup_alter_eq, Hrq.
    - reflexivity. }
  destruct (bool_decide (status res = CL_COMM_BACKEND_UNAVAILABLE)
            || bool_decide (status res = CL_COMM_TIMEOUT) && negb (sendWasComplete res))
    eqn:Hretry.
  - (* the retry branch *)
    fold due. destruct (Qle_bool endTime due) eqn:Hle.
    + eexists _, _. split; [reflexivity|]. simpl.
      split; [by rewrite !list_lookup_alter_eq, Hrq|].
      split.
      { intros _. split; [by apply list_lookup_insert_eq|].
        split; [done|].
        intros Hlt. apply Qle_bool_iff in Hle. by apply Qlt_not_le in Hlt. }
      split.
      { intros Hno. exfalso. apply Hno.
        apply orb_true_iff in Hretry as [H|H].
        - left. by apply bool_decide_eq_true in H.
        - right. apply andb_true_iff in H as [H1 H2].
          apply bool_decide_eq_true in H1. by apply negb_true_iff in H2. }
      split.
      { intros j old Hj Hd.
        destruct (Hmono (set_rq_result res) j old) as (mid & Hmid & Hdmid); [done..|].
        destruct (decide (index = j)) as [->|Hne].
        - rewrite list_lookup_alter_eq, Hmid. simpl. eauto.
        - rewrite list_lookup_alter_ne by done. eauto. }
      intros world coordTxId cc _. eapply sendDue_one_done; simpl.
      * by rewrite !list_lookup_alter_eq, Hrq.
      * reflexivity.
    + eexists _, _. split; [reflexivity|]. simpl.
      split; [by rewrite list_lookup_alter_eq, Hrq|].
      split.
      { intros _. split; [by apply list_lookup_insert_eq|].
        split; [|done].
        intros Hge. apply Qle_bool_iff in Hge. congruence. }
      split.
      { intros Hno. exfalso. apply Hno.
        apply orb_true_iff in Hretry as [H|H].
        - left. by apply bool_decide_eq_true in H.
        - right. apply andb_true_iff in H as [H1 H2].
          apply bool_decide_eq_true in H1. by apply negb_true_iff in H2. }
      split; [intros j old; by apply Hmono|].
      intros world coordTxId cc Hd. eapply sendDue_one_done; simpl.
      * by rewrite list_lookup_alter_eq, Hrq.
      * exact Hd.
  - (* a "proper error" *)
    eexists _, _. split; [reflexivity|]. simpl.
    split; [by rewrite list_lookup_alter_eq, Hrq|].
    split.
    { intros Hyes. exfalso. apply orb_false_iff in Hretry as [H1 H2].
      apply bool_decide_eq_false in H1. destruct Hyes as [H|[Ht Hs]]; [done|].
      rewrite bool_decide_eq_true_2, Hs in H2 by done. discriminate. }
    split; [done|].
    split; [intros j old; by apply Hmono|].
    intros world coordTxId cc _. eapply sendDue_one_done; simpl.
    + by rewrite list_lookup_alter_eq, Hrq.
    + reflexivity.
Qed.

Lemma handleResult_retry_refused :
  exists l' rq',
    handleResult (cluster false) 0%Q 5%Q 0 refused_S1 waiting_for_S1 = Some l' /\
    requests l' !! 0%nat = Some rq' /\
    dueTime l' !! 0%nat
    = Some (Qmin 10 (Qmax (2 # 10) (2 * ((1 # 2) - 0))) + (1 # 2))%Q /\
    rq_done rq' = false /\
    nrDone l' = 0%nat.
Proof.
  destruct (handleResult_retry (cluster false) 0%Q 5%Q 0 refused_S1
              waiting_for_S1 get_S1 eq_refl eq_refl)
    as (l' & rq' & Hrun & Hrq & Hretry & _).
  { simpl. lia. }
  destruct (Hretry (or_introl eq_refl)) as (Hdue & _ & Hopen).
  destruct Hopen as [Hdone Hnr]; [reflexivity|].
  exists l', rq'. repeat split; assumption.
Defined.

(** C6. The retry branch opens with [TRI_ASSERT(false)]. With assertions
    compiled in, the result of a refused connection for request 0 stops
    the process there and reschedules nothing, and a run of
    [performRequests] for one request whose connection is refused ends at
    the assertion instead of retrying. The same run with assertions
    compiled out retries once, with the backoff of [handleResult_retry],
    and then gives the request up as done. *)
Theorem handleResult_asserts_false :
  status refused_S1 = CL_COMM_BACKEND_UNAVAILABLE /\
  opIDtoIndex waiting_for_S1 !! operationID refused_S1 = Some 0%nat /\
  ~ (exists l',
       handleResult (cluster true) 0%Q 5%Q 0 refused_S1 waiting_for_S1 = Some l' /\
       dueTime l' !! 0%nat
       = Some (Qmin 10 (Qmax (2 # 10) (2 * ((1 # 2) - 0))) + (1 # 2))%Q) /\
  performRequests (cluster true) refusing_world (fresh_ClusterComm (cluster true))
    [get_S1] 1%Q 9 30 = Crashed /\
  match performRequests (cluster false) refusing_world
          (fresh_ClusterComm (cluster false)) [get_S1] 1%Q 9 30 with
  | Finished (good, l, cc) =>
      good = 0%nat /\ nrDone l = 1%nat /\
      length (_newRequests (_communicator cc)) = 2%nat
  | _ => False
  end.
Proof.
  split; [reflexivity|]. split; [reflexivity|]. split.
  { intros (l' & H & _). discriminate H. }
  split; [by vm_compute|]. by vm_compute.
Qed.

(** ** The definitions at work *)

(** Scenario "shard routing": [S1] is on [srvA] at [tcp://h:8529]; the
    request goes to the transport under [http://h:8529/x], the record is
    tracked under ticket 1 in [CL_COMM_SUBMITTED]. *)
Lemma asyncRequest_shard_routing :
  let env := cluster false in
  let '(ticket, cc) :=
    asyncRequest env (fresh_ClusterComm env) "" 0 "shard:S1" GET "/x" None ∅
      None 5%Q false (-1)%Q 0 0%Q in
  ticket = 1 /\
  _destination <$> _newRequests (_communicator cc) = ["http://h:8529/x"] /\
  status (enquire env cc 1) = CL_COMM_SUBMITTED /\
  serverID (enquire env cc 1) = "srvA" /\
  status (enquire env cc 2) = CL_COMM_DROPPED.
Proof. by vm_compute. Qed.

(** Once the driver thread has reported on the request, [wait] returns the
    record after one slice and takes it out of the table. *)
Lemma wait_returns_after_callback :
  let env := cluster false in
  let cc := snd (asyncRequest env (fresh_ClusterComm env) "" 9 "shard:S1" GET "/x"
                   None ∅ None 5%Q false (-1)%Q 0 0%Q) in
  match wait env cc "" 9 0 "" 5%Q (fun _ => connect_refused) 3 with
  | Some (r, cc', slices) =>
      status r = CL_COMM_BACKEND_UNAVAILABLE /\ operationID r = 1 /\
      slices = 1%nat /\ responses cc' = ∅
  | None => False
  end.
Proof. by vm_compute. Qed.

(** [syncRequest] on a destination that resolves returns when the reply
    comes, here during the second wait on its condition variable, after
    one submission to the transport. *)
Lemma syncRequest_returns_on_reply :
  let env := cluster false in
  match syncRequest env (fresh_ClusterComm env) "" 0 "server:srvA" GET "/x" "" ∅
          5%Q 0 (fun k => if Nat.eqb k 2 then Some (OnSuccess (mkGeneralResponse 200 "ok" ∅))
                          else None) 5 with
  | Some (r, cc', slices) =>
      status r = CL_COMM_RECEIVED /\ single r = true /\ slices = 2%nat /\
      _destination <$> _newRequests (_communicator cc') = ["http://h:8529/x"]
  | None => False
  end.
Proof. by vm_compute. Qed.

(** * Further properties of the code *)

(** ** Destination resolution, case by case *)

Lemma string_app_cons (x : Ascii.ascii) (a b : string) :
  String x a +:+ b = String x (a +:+ b).
Proof. reflexivity. Qed.

Lemma string_app_assoc (a b c : string) : (a +:+ b) +:+ c = a +:+ (b +:+ c).
Proof.
  induction a as [|x a IH]; [reflexivity|].
  rewrite !string_app_cons. by rewrite IH.
Qed.

Lemma string_app_empty_r (a : string) : a +:+ "" = a.
Proof.
  induction a as [|x a IH]; [reflexivity|].
  rewrite string_app_cons. by rewrite IH.
Qed.

Lemma setDestination_shard_none (env : Env) (X : string) (r : ClusterCommResult) :
  getResponsibleServer env X = [] ->
  setDestination env ("shard:" +:+ X) r
  = (set_status CL_COMM_BACKEND_UNAVAILABLE (set_serverID "" (set_shardID X r)),
     [connection_log env
        ("cannot find responsible server for shard '" +:+ X +:+ "'")]).
Proof.
  intros H. unfold setDestination.
  change 6%nat with (String.length "shard:").
  rewrite substr_prefix_app, substr_from_app. simpl. by rewrite H.
Qed.

Lemma setDestination_other (env : Env) (dest : string) (r : ClusterCommResult) :
  ~ (exists rest, dest = "shard:" +:+ rest) ->
  ~ (exists rest, dest = "server:" +:+ rest) ->
  ~ (exists rest, dest = "tcp://" +:+ rest) ->
  ~ (exists rest, dest = "ssl://" +:+ rest) ->
  setDestination env dest r
  = (set_errorMessage ("did not understand destination'" +:+ dest +:+ "'")
       (set_status CL_COMM_BACKEND_UNAVAILABLE
          (set_endpoint "" (set_serverID "" (set_shardID "" r)))),
     [connection_log env ("did not understand destination '" +:+ dest +:+ "'")]).
Proof.
  intros H1 H2 H3 H4. unfold setDestination.
  destruct (string_eqb (substr 0 6 dest) "shard:") eqn:E1.
  { exfalso. apply H1. apply string_eqb_true in E1.
    by apply (substr_starts_iff "shard:"). }
  destruct (string_eqb (substr 0 7 dest) "server:") eqn:E2.
  { exfalso. apply H2. apply string_eqb_true in E2.
    by apply (substr_starts_iff "server:"). }
  destruct (string_eqb (substr 0 6 dest) "tcp://") eqn:E3.
  { exfalso. apply H3. apply string_eqb_true in E3.
    by apply (substr_starts_iff "tcp://"). }
  destruct (string_eqb (substr 0 6 dest) "ssl://") eqn:E4.
  { exfalso. apply H4. apply string_eqb_true in E4.
    by apply (substr_starts_iff "ssl://"). }
  reflexivity.
Qed.

(** X1. A destination that starts with [tcp://] or [ssl://] is taken as the
    endpoint verbatim: both ids are cleared, status and error message stay
    as they were, nothing is logged and the topology is not consulted (the
    outcome is the same under every [Env]). *)
Theorem setDestination_direct_endpoint (env : Env) (scheme rest : string)
    (r : ClusterCommResult) :
  scheme = "tcp://" \/ scheme = "ssl://" ->
  setDestination env (scheme +:+ rest) r
  = (set_endpoint (scheme +:+ rest) (set_serverID "" (set_shardID "" r)), []).
Proof.
  intros [-> | ->]; unfold setDestination;
    change 6%nat with (String.length "tcp://");
    rewrite ?substr_prefix_app;
    change (String.length "tcp://") with (String.length "ssl://");
    rewrite ?substr_prefix_app;
    destruct rest as [|c rest]; reflexivity.
Qed.

Lemma setDestination_direct_endpoint_witness :
  setDestination (cluster false) "ssl://h:8530" (new_ClusterCommResult (cluster false))
  = (set_endpoint "ssl://h:8530"
       (set_serverID "" (set_shardID "" (new_ClusterCommResult (cluster false)))), []).
Proof.
  apply (setDestination_direct_endpoint (cluster false) "ssl://" "h:8530").
  by right.
Defined.

(** X2. A destination with none of the four prefixes is refused: the
    record goes to [CL_COMM_BACKEND_UNAVAILABLE] with ids and endpoint
    empty, the error message is [did not understand destination'D'] (the
    code puts no blank before the quote there) and one line, with the
    blank, is logged. *)
Theorem setDestination_not_understood (env : Env) (dest : string)
    (r : ClusterCommResult) :
  ~ (exists rest, dest = "shard:" +:+ rest) ->
  ~ (exists rest, dest = "server:" +:+ rest) ->
  ~ (exists rest, dest = "tcp://" +:+ rest) ->
  ~ (exists rest, dest = "ssl://" +:+ rest) ->
  let '(r', logs) := setDestination env dest r in
  status r' = CL_COMM_BACKEND_UNAVAILABLE /\
  shardID r' = "" /\ serverID r' = "" /\ endpoint r' = "" /\
  errorMessage r' = "did not understand destination'" +:+ dest +:+ "'" /\
  log_text <$> logs = ["did not understand destination '" +:+ dest +:+ "'"].
Proof.
  intros H1 H2 H3 H4. rewrite setDestination_other by done. simpl.
  repeat (split; [reflexivity|]).
  unfold connection_log. by destruct (logConnectionErrors env).
Qed.

Lemma setDestination_not_understood_witness :
  let '(r', logs) :=
    setDestination (cluster false) "http://h:8529" (new_ClusterCommResult (cluster false)) in
  status r' = CL_COMM_BACKEND_UNAVAILABLE /\
  shardID r' = "" /\ serverID r' = "" /\ endpoint r' = "" /\
  errorMessage r' = "did not understand destination'http://h:8529'" /\
  log_text <$> logs = ["did not understand destination 'http://h:8529'"].
Proof.
  apply (setDestination_not_understood (cluster false) "http://h:8529");
    intros [rest H]; discriminate H.
Defined.

(** X3. For [shard:X] with at least one responsible server, the first
    server of the list is the one addressed, whatever follows it. If that
    server has an endpoint, the record carries shard, server and endpoint
    and keeps its status; if not, it goes to
    [CL_COMM_BACKEND_UNAVAILABLE] with the message
    [did not find endpoint of server 'S']. *)
Theorem setDestination_shard_first_server (env : Env) (X : string)
    (first : ServerID) (others : list ServerID) (r : ClusterCommResult) :
  getResponsibleServer env X = first :: others ->
  let r' := fst (setDestination env ("shard:" +:+ X) r) in
  shardID r' = X /\ serverID r' = first /\
  endpoint r' = getServerEndpoint env first /\
  (getServerEndpoint env first <> "" ->
     status r' = status r /\ errorMessage r' = errorMessage r) /\
  (getServerEndpoint env first = "" ->
     status r' = CL_COMM_BACKEND_UNAVAILABLE /\
     errorMessage r' = "did not find endpoint of server '" +:+ first +:+ "'").
Proof.
  intros H. unfold setDestination.
  change 6%nat with (String.length "shard:").
  rewrite substr_prefix_app, substr_from_app. simpl. rewrite H. simpl.
  destruct (string_empty (getServerEndpoint env first)) eqn:E; simpl.
  - apply string_empty_true in E.
    split; [done|]. split; [done|]. split; [done|].
    split; [intros Hne; contradiction | done].
  - split; [done|]. split; [done|]. split; [done|]. split; [done|].
    intros Heq. apply string_empty_true in Heq. congruence.
Qed.

Lemma setDestination_shard_first_server_witness :
  let r' := fst (setDestination (cluster false) "shard:S1"
                   (new_ClusterCommResult (cluster false))) in
  shardID r' = "S1" /\ serverID r' = "srvA" /\
  endpoint r' = getServerEndpoint (cluster false) "srvA" /\
  (getServerEndpoint (cluster false) "srvA" <> "" ->
     status r' = status (new_ClusterCommResult (cluster false)) /\
     errorMessage r' = errorMessage (new_ClusterCommResult (cluster false))) /\
  (getServerEndpoint (cluster false) "srvA" = "" ->
     status r' = CL_COMM_BACKEND_UNAVAILABLE /\
     errorMessage r' = "did not find endpoint of server '" +:+ "srvA" +:+ "'").
Proof.
  apply (setDestination_shard_first_server (cluster false) "S1" "srvA" []).
  reflexivity.
Defined.

(** X4. For [server:S] the shard id is cleared, [S] is the server and its
    endpoint is looked up: with an endpoint the record keeps its status,
    without one it goes to [CL_COMM_BACKEND_UNAVAILABLE] with the message
    [did not find endpoint of server 'S'] and one line is logged. *)
Theorem setDestination_server (env : Env) (S : string) (r : ClusterCommResult) :
  let '(r', logs) := setDestination env ("server:" +:+ S) r in
  shardID r' = "" /\ serverID r' = S /\
  endpoint r' = getServerEndpoint env S /\
  (getServerEndpoint env S <> "" ->
     status r' = status r /\ errorMessage r' = errorMessage r /\ logs = []) /\
  (getServerEndpoint env S = "" ->
     status r' = CL_COMM_BACKEND_UNAVAILABLE /\
     errorMessage r' = "did not find endpoint of server '" +:+ S +:+ "'" /\
     log_text <$> logs = ["did not find endpoint of server '" +:+ S +:+ "'"]).
Proof.
  unfold setDestination.
  assert (E6 : string_eqb (substr 0 6 ("server:" +:+ S)) "shard:" = false)
    by (by apply string_eqb_false).
  rewrite E6.
  change 7%nat with (String.length "server:").
  rewrite substr_prefix_app, substr_from_app. simpl.
  destruct (string_empty (getServerEndpoint env S)) eqn:E; simpl.
  - apply string_empty_true in E.
    split; [done|]. split; [done|]. split; [done|].
    split; [intros Hne; contradiction|].
    intros _. split; [done|]. split; [done|].
    unfold connection_log. by destruct (logConnectionErrors env).
  - split; [done|]. split; [done|]. split; [done|]. split; [done|].
    intros Heq. apply string_empty_true in Heq. congruence.
Qed.

(** X5. [prepareRequest] builds a request exactly for the destinations
    that resolve. With a request the record is in [CL_COMM_SUBMITTED],
    has a non-empty endpoint, and the request is a JSON request of the
    given type whose body is the given body (empty for a null body);
    without one the record is in [CL_COMM_BACKEND_UNAVAILABLE] with an
    empty endpoint. *)
Theorem prepareRequest_request_iff_resolved (env : Env) (dest : string)
    (reqtype : RequestType) (body : option string)
    (headerFields : gmap string string) (ts : Z) :
  let '(r, request, _) := prepareRequest env dest reqtype body headerFields ts in
  (resolved env dest <-> is_Some request) /\
  (forall req, request = Some req ->
     status r = CL_COMM_SUBMITTED /\ endpoint r <> "" /\
     req_contentType req = JSON /\ req_requestType req = reqtype /\
     req_body req = default "" body) /\
  (request = None ->
     status r = CL_COMM_BACKEND_UNAVAILABLE /\ endpoint r = "").
Proof.
  destruct (decide (resolved env dest)) as [Hres | Hun].
  - rewrite prepareRequest_resolved by done. split; [split; eauto|].
    split; [|discriminate].
    intros req [= <-]. simpl. by repeat split.
  - rewrite prepareRequest_unresolved by done.
    split; [split; [done | by intros [? ?]]|].
    split; [discriminate|]. intros _.
    split; [by apply setDestination_unresolved|].
    unfold resolved in Hun.
    by destruct (decide (endpoint (setDestination env dest (new_ClusterCommResult env)).1 = "")).
Qed.

(** ** Stringification *)

(** [stringifyStatus] names every status differently: the status can
    be read back from its name. *)
Lemma stringifyStatus_inj (a b : ClusterCommOpStatus) :
  stringifyStatus a = stringifyStatus b -> a = b.
Proof. destruct a, b; simpl; intros H; first [reflexivity | discriminate H]. Qed.

Lemma stringifyErrorMessage_prefix (r : ClusterCommResult) :
  exists rest, stringifyErrorMessage r = stringifyStatus (status r) +:+ rest.
Proof.
  unfold stringifyErrorMessage.
  destruct (string_empty (serverID r)), (string_empty (shardID r)),
    (string_empty (endpoint r)), (string_empty (errorMessage r)); simpl;
    rewrite ?string_app_assoc; eauto.
  exists "". by rewrite string_app_empty_r.
Qed.

(** What a caller reads off the record [prepareRequest] returns: for a
    destination that resolves the error code is [TRI_ERROR_NO_ERROR]; for
    one that does not it is [TRI_ERROR_CLUSTER_BACKEND_UNAVAILABLE] and the
    stringified error starts with [backend unavailable]. *)
Lemma prepareRequest_error_code (env : Env) (dest : string)
    (reqtype : RequestType) (body : option string)
    (headerFields : gmap string string) (ts : Z) :
  let r := fst (fst (prepareRequest env dest reqtype body headerFields ts)) in
  (resolved env dest -> getErrorCode r = TRI_ERROR_NO_ERROR) /\
  (~ resolved env dest ->
     getErrorCode r = TRI_ERROR_CLUSTER_BACKEND_UNAVAILABLE /\
     exists rest, stringifyErrorMessage r = "backend unavailable" +:+ rest).
Proof.
  split.
  - intros H. by rewrite prepareRequest_resolved.
  - intros H. rewrite prepareRequest_unresolved by done. simpl.
    pose proof (setDestination_unresolved env dest H) as Hst.
    split; [unfold getErrorCode; by rewrite Hst|].
    destruct (stringifyErrorMessage_prefix
                (setDestination env dest (new_ClusterCommResult env)).1) as [rest E].
    exists rest. by rewrite E, Hst.
Qed.

(** X6. The stringified error of a fresh record after a failed resolution.
    For an unknown shard [X] it is [backend unavailable, shard: 'X'] and
    does not say what went wrong; for a destination that is not understood
    it carries the error message. *)
Theorem stringifyErrorMessage_unresolved (env : Env) :
  (forall X, X <> "" -> getResponsibleServer env X = [] ->
     stringifyErrorMessage
       (fst (setDestination env ("shard:" +:+ X) (new_ClusterCommResult env)))
     = "backend unavailable, shard: '" +:+ X +:+ "'") /\
  (forall dest,
     ~ (exists rest, dest = "shard:" +:+ rest) ->
     ~ (exists rest, dest = "server:" +:+ rest) ->
     ~ (exists rest, dest = "tcp://" +:+ rest) ->
     ~ (exists rest, dest = "ssl://" +:+ rest) ->
     stringifyErrorMessage
       (fst (setDestination env dest (new_ClusterCommResult env)))
     = "backend unavailable, error: 'did not understand destination'"
       +:+ dest +:+ "''").
Proof.
  split.
  - intros X HX H. rewrite setDestination_shard_none by done.
    unfold stringifyErrorMessage. simpl.
    unfold string_empty at 1. rewrite bool_decide_eq_false_2 by done. simpl.
    reflexivity.
  - intros dest H1 H2 H3 H4. rewrite setDestination_other by done.
    unfold stringifyErrorMessage. simpl.
    rewrite !string_app_assoc. reflexivity.
Qed.

Lemma stringifyErrorMessage_unresolved_witness :
  stringifyErrorMessage
    (fst (setDestination (cluster false) "shard:S2"
            (new_ClusterCommResult (cluster false))))
  = "backend unavailable, shard: 'S2'".
Proof.
  apply (proj1 (stringifyErrorMessage_unresolved (cluster false)) "S2");
    [discriminate | reflexivity].
Defined.

(** ** syncRequest, beyond the unresolved case *)

(** The record [syncRequest] waits with once the request is with the
    transport. *)
Lemma syncRequest_unfold_resolved (env : Env) (cc : ClusterComm)
    clientTxId coordTxId dest reqtype path body headerFields timeout ts
    arrival fuel :
  resolved env dest ->
  let first := fst (setDestination env dest (new_ClusterCommResult env)) in
  let logs := snd (setDestination env dest (new_ClusterCommResult env)) in
  let r0 := set_status CL_COMM_SENDING
              (set_single true (set_status CL_COMM_SUBMITTED first)) in
  let nr := mkNewRequest (createCommunicatorDestination (endpoint first) path)
              (mkHttpRequest JSON body (preparedHeaders env dest headerFields ts) reqtype)
              CallbackSignal
              (mkOptions (connectionTimeout (defaultOptions env)) timeout)
              (next_ticket (_communicator cc)) in
  let cc1 := with_communicator
               (mkCommunicator ((next_ticket (_communicator cc) + 1) mod uint64_max)
                  (_newRequests (_communicator cc) ++ [nr]))
               (with_log (log cc ++ logs) cc) in
  syncRequest env cc clientTxId coordTxId dest reqtype path body headerFields
    timeout ts arrival fuel
  = match
      syncRequest_wait env arrival fuel O
        (match arrival O with Some _ => true | None => false end)
        (match arrival O with
         | Some reply => fst (syncRequest_callback env reply r0)
         | None => r0
         end)
        (match arrival O with
         | Some reply => snd (syncRequest_callback env reply r0)
         | None => []
         end)
    with
    | Some (r, slices, l) => Some (r, with_log (log cc1 ++ l) cc1, slices)
    | None => None
    end.
Proof.
  intros Hres. unfold syncRequest. rewrite prepareRequest_resolved by done.
  cbn -[syncRequest_wait syncRequest_callback].
  destruct (arrival O) as [reply|]; [|reflexivity].
  by destruct (syncRequest_callback env reply _).
Qed.





(** X8. Whenever [syncRequest] returns, the dispatcher keeps no record of
    the operation: the table [responses], the records behind it and both
    queues are what they were, so [enquire] answers every ticket as
    before. *)
Theorem syncRequest_keeps_no_record (env : Env) (cc cc' : ClusterComm)
    clientTxId coordTxId dest reqtype path body headerFields timeout ts
    arrival fuel (r : ClusterCommResult) (slices : nat) :
  syncRequest env cc clientTxId coordTxId dest reqtype path body headerFields
    timeout ts arrival fuel = Some (r, cc', slices) ->
  responses cc' = responses cc /\
  toSend cc' = toSend cc /\ received cc' = received cc /\
  forall T, enquire env cc' T = enquire env cc T.
Proof.
  unfold syncRequest.
  destruct (prepareRequest env dest reqtype (Some body) headerFields ts)
    as [[first second] logs].
  destruct second as [request|].
  - cbn -[syncRequest_wait syncRequest_callback].
    destruct (arrival O) as [reply|].
    + destruct (syncRequest_callback env reply _) as [r1 l1].
      destruct (syncRequest_wait _ _ _ _ _ _ _) as [[[r2 n] l2]|]; [|discriminate].
      by intros [= <- <- <-].
    + destruct (syncRequest_wait _ _ _ _ _ _ _) as [[[r2 n] l2]|]; [|discriminate].
      by intros [= <- <- <-].
  - by intros [= <- <- <-].
Qed.

Lemma syncRequest_keeps_no_record_witness :
  let env := cluster false in
  let cc0 := snd (asyncRequest env (fresh_ClusterComm env) "" 0 "shard:S1" GET "/x"
                    None ∅ None 5%Q false (-1)%Q 0 0%Q) in
  exists r cc' n,
    syncRequest env cc0 "" 0 "server:srvA" GET "/y" "" ∅ 5%Q 0
      (fun _ => Some (OnSuccess (mkGeneralResponse 200 "ok" ∅))) 0 = Some (r, cc', n) /\
    responses cc' = responses cc0 /\
    toSend cc' = toSend cc0 /\ received cc' = received cc0 /\
    forall T, enquire env cc' T = enquire env cc0 T.
Proof.
  intros env cc0.
  destruct (syncRequest env cc0 "" 0 "server:srvA" GET "/y" "" ∅ 5%Q 0
              (fun _ => Some (OnSuccess (mkGeneralResponse 200 "ok" ∅))) 0)
    as [[[r cc'] n]|] eqn:E; [|by vm_compute in E].
  exists r, cc', n. split; [reflexivity|].
  exact (syncRequest_keeps_no_record env cc0 cc' "" 0 "server:srvA" GET "/y" "" ∅
           5%Q 0 _ 0 r n E).
Defined.

(** X9. What [syncRequest] hands to the transport for a destination that
    resolves: one request, under the scheme-translated endpoint followed
    by the path, with the given body and the prepared headers, a request
    timeout of [timeout] and the connection timeout left at its default. *)
Theorem syncRequest_submission (env : Env) (cc cc' : ClusterComm)
    clientTxId coordTxId dest reqtype path body headerFields timeout ts
    arrival fuel (r : ClusterCommResult) (slices : nat) :
  resolved env dest ->
  syncRequest env cc clientTxId coordTxId dest reqtype path body headerFields
    timeout ts arrival fuel = Some (r, cc', slices) ->
  exists nr,
    _newRequests (_communicator cc') = _newRequests (_communicator cc) ++ [nr] /\
    _destination nr
    = createCommunicatorDestination
        (endpoint (fst (setDestination env dest (new_ClusterCommResult env)))) path /\
    req_body (_request nr) = body /\
    req_requestType (_request nr) = reqtype /\
    req_headers (_request nr) = preparedHeaders env dest headerFields ts /\
    requestTimeout (_options nr) = timeout /\
    connectionTimeout (_options nr) = connectionTimeout (defaultOptions env).
Proof.
  intros Hres. rewrite syncRequest_unfold_resolved by done.
  destruct (syncRequest_wait _ _ _ _ _ _ _) as [[[r2 n] l2]|]; [|discriminate].
  intros [= <- <- <-]. eexists. split; [reflexivity|]. by simpl.
Qed.

Lemma syncRequest_submission_witness :
  let env := cluster false in
  exists r cc' n nr,
    syncRequest env (fresh_ClusterComm env) "" 0 "server:srvA" GET "/y" "b" ∅ 5%Q 0
      (fun _ => Some (OnSuccess (mkGeneralResponse 200 "ok" ∅))) 0 = Some (r, cc', n) /\
    _newRequests (_communicator cc') = [nr] /\
    _destination nr = "http://h:8529/y" /\
    requestTimeout (_options nr) = 5%Q.
Proof.
  intros env.
  destruct (syncRequest env (fresh_ClusterComm env) "" 0 "server:srvA" GET "/y" "b" ∅
              5%Q 0 (fun _ => Some (OnSuccess (mkGeneralResponse 200 "ok" ∅))) 0)
    as [[[r cc'] n]|] eqn:E; [|by vm_compute in E].
  destruct (syncRequest_submission env (fresh_ClusterComm env) cc' "" 0 "server:srvA"
              GET "/y" "b" ∅ 5%Q 0
              (fun _ => Some (OnSuccess (mkGeneralResponse 200 "ok" ∅))) 0 r n)
    as (nr & Hnew & Hdest & _ & _ & _ & Hto & _);
    [unfold resolved; by vm_compute | exact E |].
  exists r, cc', n, nr. split; [reflexivity|]. split; [exact Hnew|].
  split; [exact Hdest | exact Hto].
Defined.

(** ** asyncRequest and the table *)

(** X10. After [asyncRequest], for a ticket the table did not hold yet,
    [enquire] on the returned ticket gives the new record: it carries that
    ticket, is in [CL_COMM_SUBMITTED], has the transaction ids and the
    [single] flag of the call and the endpoint resolution found. In a
    table whose entries all point to allocated records, every other
    ticket is answered as before, and the table stays that way. *)
Theorem asyncRequest_enquire (env : Env) (cc : ClusterComm)
    clientTxId coordTxId dest reqtype path body headerFields callback
    timeout singleRequest initTimeout ts now :
  responses cc !! next_ticket (_communicator cc) = None ->
  tracked_allocated cc ->
  let '(ticket, cc') :=
    asyncRequest env cc clientTxId coordTxId dest reqtype path body
      headerFields callback timeout singleRequest initTimeout ts now in
  let r := enquire env cc' ticket in
  (operationID r = ticket /\ status r = CL_COMM_SUBMITTED /\
   clientTransactionID r = clientTxId /\ coordTransactionID r = coordTxId /\
   single r = singleRequest /\
   endpoint r = endpoint (fst (setDestination env dest (new_ClusterCommResult env)))) /\
  (forall T, T <> ticket -> enquire env cc' T = enquire env cc T) /\
  tracked_allocated cc'.
Proof.
  intros Hfresh Hwf.
  pose proof (asyncRequest_effect env cc clientTxId coordTxId dest reqtype path
                body headerFields callback timeout singleRequest initTimeout ts now) as E.
  assert (Hnext : heap_next (snd (asyncRequest env cc clientTxId coordTxId dest reqtype
                     path body headerFields callback timeout singleRequest initTimeout
                     ts now)) = S (heap_next cc)).
  { unfold asyncRequest.
    by destruct (prepareRequest env dest reqtype body headerFields ts) as [[first second] logs]. }
  assert (Hend : endpoint (fst (fst (prepareRequest env dest reqtype body headerFields ts)))
                 = endpoint (fst (setDestination env dest (new_ClusterCommResult env)))).
  { destruct (decide (resolved env dest)).
    - by rewrite prepareRequest_resolved.
    - by rewrite prepareRequest_unresolved. }
  destruct (asyncRequest _ _ _ _ _ _ _ _ _ _ _ _ _ _ _) as [ticket cc'].
  simpl in Hnext. destruct E as (-> & _ & Hresp & Hheap & Hother).
  rewrite emplace_fresh in Hresp by done.
  split; [|split].
  - unfold enquire. rewrite Hresp, lookup_insert_eq. simpl. rewrite Hheap. simpl.
    by rewrite Hend.
  - intros T HT. unfold enquire. rewrite Hresp, lookup_insert_ne by congruence.
    match goal with
    | |- context [match ?o with _ => _ end] => destruct o as [response|] eqn:ET
    end; [|reflexivity].
    apply Hother. apply Hwf in ET. lia.
  - intros T response. rewrite Hresp, Hnext.
    destruct (decide (next_ticket (_communicator cc) = T)) as [->|Hne].
    + rewrite lookup_insert_eq. intros [= <-]. simpl. lia.
    + rewrite lookup_insert_ne by done. intros HT. apply Hwf in HT. lia.
Qed.

Lemma asyncRequest_enquire_witness :
  let env := cluster false in
  let '(ticket, cc') :=
    asyncRequest env (fresh_ClusterComm env) "ctx" 42 "shard:S1" GET "/x" None ∅
      None 5%Q true (-1)%Q 0 0%Q in
  let r := enquire env cc' ticket in
  (operationID r = ticket /\ status r = CL_COMM_SUBMITTED /\
   clientTransactionID r = "ctx" /\ coordTransactionID r = 42 /\
   single r = true /\
   endpoint r = endpoint (fst (setDestination env "shard:S1" (new_ClusterCommResult env)))) /\
  (forall T, T <> ticket -> enquire env cc' T = enquire env (fresh_ClusterComm env) T) /\
  tracked_allocated cc'.
Proof.
  apply (asyncRequest_enquire (cluster false) (fresh_ClusterComm (cluster false))
           "ctx" 42 "shard:S1" GET "/x" None ∅ None 5%Q true (-1)%Q 0 0%Q).
  - reflexivity.
  - intros T response H. discriminate H.
Defined.

Lemma emplace_present {V : Type} (k : Z) (v old : V) (m : gmap Z V) :
  m !! k = Some old -> emplace k v m = m.
Proof. intros H. unfold emplace. by rewrite H. Qed.

(** X11. [responses.emplace] does not overwrite. Should the transport hand
    out a ticket the table already holds, [asyncRequest] still submits the
    request and returns that ticket, but the table is left as it was: the
    ticket goes on naming the older record. *)
Theorem asyncRequest_ticket_clash (env : Env) (cc : ClusterComm)
    clientTxId coordTxId dest reqtype path body headerFields callback
    timeout singleRequest initTimeout ts now (old : AsyncResponse) :
  responses cc !! next_ticket (_communicator cc) = Some old ->
  tracked_allocated cc ->
  let '(ticket, cc') :=
    asyncRequest env cc clientTxId coordTxId dest reqtype path body
      headerFields callback timeout singleRequest initTimeout ts now in
  ticket = next_ticket (_communicator cc) /\
  responses cc' = responses cc /\
  enquire env cc' ticket = enquire env cc ticket /\
  length (_newRequests (_communicator cc'))
  = S (length (_newRequests (_communicator cc))).
Proof.
  intros Hold Hwf.
  pose proof (asyncRequest_effect env cc clientTxId coordTxId dest reqtype path
                body headerFields callback timeout singleRequest initTimeout ts now) as E.
  destruct (asyncRequest _ _ _ _ _ _ _ _ _ _ _ _ _ _ _) as [ticket cc'].
  destruct E as (-> & Hnew & Hresp & _ & Hother).
  rewrite (emplace_present _ _ old _ Hold) in Hresp.
  split; [done|]. split; [done|]. split.
  - unfold enquire. rewrite Hresp.
    match goal with
    | |- context [match ?o with _ => _ end] => destruct o as [response|] eqn:ET
    end; [|reflexivity].
    apply Hother. apply Hwf in ET. lia.
  - rewrite Hnew, length_app. simpl. lia.
Qed.

Lemma asyncRequest_ticket_clash_witness :
  let env := cluster false in
  let cc := with_responses {[1 := mkAsyncResponse 0 0]}
              (snd (alloc (set_operationID 1 (new_ClusterCommResult env))
                      (fresh_ClusterComm env))) in
  let '(ticket, cc') :=
    asyncRequest env cc "" 0 "shard:S1" GET "/x" None ∅ None 5%Q false (-1)%Q 0 0%Q in
  ticket = next_ticket (_communicator cc) /\
  responses cc' = responses cc /\
  enquire env cc' ticket = enquire env cc ticket /\
  length (_newRequests (_communicator cc'))
  = S (length (_newRequests (_communicator cc))).
Proof.
  intros env cc.
  apply (asyncRequest_ticket_clash env cc "" 0 "shard:S1" GET "/x" None ∅ None
           5%Q false (-1)%Q 0 0%Q (mkAsyncResponse 0 0)).
  - reflexivity.
  - intros T response H. unfold cc in H. simpl in H.
    apply lookup_singleton_Some in H as [_ <-]. simpl. lia.
Defined.

Lemma createCommunicatorDestination_prefix (scheme rest path : string) :
  String.length scheme = 6%nat ->
  createCommunicatorDestination (scheme +:+ rest) path
  = (if string_eqb scheme "tcp://" then "http://" +:+ rest
     else if string_eqb scheme "ssl://" then "https://" +:+ rest
     else "") +:+ path.
Proof.
  intros Hlen. unfold createCommunicatorDestination.
  rewrite <- Hlen, substr_prefix_app, substr_from_app. reflexivity.
Qed.

(** Where [asyncRequest] sends the request. If resolution ends with an
    endpoint [tcp://rest], the transport is given [http://rest] followed
    by the path; for [ssl://rest] it is [https://rest] followed by the
    path. An endpoint of any other form, as the topology might return it,
    is dropped without notice and the transport is given the path alone. *)
Lemma asyncRequest_destination_url (env : Env) (cc : ClusterComm)
    clientTxId coordTxId dest reqtype path body headerFields callback
    timeout singleRequest initTimeout ts now :
  let e := endpoint (fst (setDestination env dest (new_ClusterCommResult env))) in
  let cc' := snd (asyncRequest env cc clientTxId coordTxId dest reqtype path body
                    headerFields callback timeout singleRequest initTimeout ts now) in
  exists nr,
    _newRequests (_communicator cc') = _newRequests (_communicator cc) ++ [nr] /\
    (forall rest, e = "tcp://" +:+ rest -> _destination nr = "http://" +:+ rest +:+ path) /\
    (forall rest, e = "ssl://" +:+ rest -> _destination nr = "https://" +:+ rest +:+ path) /\
    (~ (exists rest, e = "tcp://" +:+ rest) -> ~ (exists rest, e = "ssl://" +:+ rest) ->
     _destination nr = path).
Proof.
  intros e cc'.
  pose proof (asyncRequest_effect env cc clientTxId coordTxId dest reqtype path
                body headerFields callback timeout singleRequest initTimeout ts now) as E.
  assert (Hend : endpoint (fst (fst (prepareRequest env dest reqtype body headerFields ts)))
                 = e).
  { destruct (decide (resolved env dest)).
    - by rewrite prepareRequest_resolved.
    - by rewrite prepareRequest_unresolved. }
  subst cc'. destruct (asyncRequest _ _ _ _ _ _ _ _ _ _ _ _ _ _ _) as [ticket cc'].
  destruct E as (_ & Hnew & _). simpl in *. rewrite Hend in Hnew.
  eexists. split; [exact Hnew|]. simpl. split; [|split].
  - intros rest ->. by rewrite (createCommunicatorDestination_prefix "tcp://").
  - intros rest ->. by rewrite (createCommunicatorDestination_prefix "ssl://").
  - intros Htcp Hssl. unfold createCommunicatorDestination.
    destruct (string_eqb (substr 0 6 e) "tcp://") eqn:E1.
    { exfalso. apply Htcp. apply string_eqb_true in E1.
      by apply (substr_starts_iff "tcp://"). }
    destruct (string_eqb (substr 0 6 e) "ssl://") eqn:E2.
    { exfalso. apply Hssl. apply string_eqb_true in E2.
      by apply (substr_starts_iff "ssl://"). }
    reflexivity.
Qed.

(** ** wait, beyond the blocked case *)

(** X12. [wait] for something the table does not hold returns at once,
    without blocking and whatever the fuel, a made-up record in
    [CL_COMM_DROPPED] that carries the ticket asked for, and leaves the
    dispatcher as it was. This covers a non-zero ticket that is not
    tracked and, for ticket 0, filters that [match] accepts for no
    tracked record (an empty table among them). *)
Theorem wait_nothing_known (env : Env) (cc : ClusterComm) clientTxId coordTxId
    (ticket : Ticket) shard (timeout : ClusterCommTimeout) others (fuel : nat) :
  (ticket <> 0 /\ responses cc !! ticket = None) \/
  (ticket = 0 /\
   forall i response, responses cc !! i = Some response ->
     match_ clientTxId coordTxId shard (heap cc (ar_result response)) = false) ->
  wait env cc clientTxId coordTxId ticket shard timeout others fuel
  = Some (dropped_result env ticket, cc, O) /\
  status (dropped_result env ticket) = CL_COMM_DROPPED /\
  operationID (dropped_result env ticket) = ticket.
Proof.
  intros H. split; [|by split].
  assert (Hfind : wait_find cc clientTxId coordTxId ticket shard = None).
  { unfold wait_find. destruct H as [[Hne Hnone] | [-> Hnone]].
    - apply Z.eqb_neq in Hne. rewrite Hne.
      match goal with |- _ <$> ?o = None => replace o with (@None AsyncResponse) end;
        reflexivity || done.
    - simpl. rewrite fmap_None, list_find_None, Forall_forall.
      intros [i response] Hin. apply elem_of_map_to_list in Hin. simpl.
      rewrite (Hnone i response Hin). discriminate. }
  unfold wait. by rewrite Hfind.
Qed.

Lemma wait_nothing_known_witness :
  let env := cluster false in
  wait env (fresh_ClusterComm env) "" 0 17 "" 5%Q (fun _ cc => cc) 0
  = Some (dropped_result env 17, fresh_ClusterComm env, O) /\
  status (dropped_result env 17) = CL_COMM_DROPPED /\
  operationID (dropped_result env 17) = 17.
Proof.
  apply (wait_nothing_known (cluster false) (fresh_ClusterComm (cluster false))
           "" 0 17 "" 5%Q (fun _ cc => cc) 0).
  left. split; [discriminate | reflexivity].
Defined.

Lemma wait_loop_after (others : nat -> ClusterComm -> ClusterComm) (p : nat)
    (cc : ClusterComm) (k : nat) :
  (forall j, (j < k)%nat ->
     status (heap (after_slices others j cc) p) = CL_COMM_SUBMITTED) ->
  status (heap (after_slices others k cc) p) <> CL_COMM_SUBMITTED ->
  forall fuel slices,
    (slices <= k)%nat -> (k <= slices + fuel)%nat ->
    wait_loop others fuel slices p (after_slices others slices cc)
    = Some (after_slices others k cc, k).
Proof.
  intros Hsub Hleft. induction fuel as [|fuel IH]; intros slices Hle Hfuel.
  - assert (slices = k) as -> by lia. simpl.
    by rewrite bool_decide_eq_false_2.
  - simpl. destruct (decide (slices = k)) as [->|Hne].
    + by rewrite bool_decide_eq_false_2.
    + rewrite bool_decide_eq_true_2 by (apply Hsub; lia).
      change (others slices (after_slices others slices cc))
        with (after_slices others (S slices) cc).
      apply IH; lia.
Qed.

(** X13. [wait] returns as soon as the record it settled on has left
    [CL_COMM_SUBMITTED]: if that happens during the [k]-th 60-second
    slice (0: it already had), the call returns after exactly [k] slices,
    given that many rounds, with the record as the other threads left it,
    and the entry is gone from the table. *)
Theorem wait_returns_when_answered (env : Env) (cc : ClusterComm)
    clientTxId coordTxId ticket shard (timeout : ClusterCommTimeout)
    (others : nat -> ClusterComm -> ClusterComm) (fuel k : nat)
    (i : Ticket) (response : AsyncResponse) :
  wait_find cc clientTxId coordTxId ticket shard = Some (i, response) ->
  (forall j, (j < k)%nat ->
     status (heap (after_slices others j cc) (ar_result response)) = CL_COMM_SUBMITTED) ->
  status (heap (after_slices others k cc) (ar_result response)) <> CL_COMM_SUBMITTED ->
  (k <= fuel)%nat ->
  exists cc',
    wait env cc clientTxId coordTxId ticket shard timeout others fuel
    = Some (heap (after_slices others k cc) (ar_result response), cc', k) /\
    responses cc' = delete i (responses (after_slices others k cc)) /\
    responses cc' !! i = None.
Proof.
  intros Hfind Hsub Hleft Hfuel. unfold wait. rewrite Hfind.
  pose proof (wait_loop_after others (ar_result response) cc k Hsub Hleft fuel O) as E.
  simpl in E. rewrite E by lia.
  eexists. split; [reflexivity|]. split; [reflexivity|]. simpl.
  apply lookup_delete_eq.
Qed.

Lemma wait_returns_when_answered_witness :
  let env := cluster false in
  let cc := snd (asyncRequest env (fresh_ClusterComm env) "" 9 "shard:S1" GET "/x"
                   None ∅ None 5%Q false (-1)%Q 0 0%Q) in
  exists cc',
    wait env cc "" 9 0 "" 5%Q (fun _ => connect_refused) 3
    = Some (heap (after_slices (fun _ => connect_refused) 1 cc) 0%nat, cc', 1%nat) /\
    responses cc' = delete 1 (responses (after_slices (fun _ => connect_refused) 1 cc)) /\
    responses cc' !! 1 = None.
Proof.
  intros env cc.
  apply (wait_returns_when_answered env cc "" 9 0 "" 5%Q (fun _ => connect_refused)
           3 1 1 (mkAsyncResponse 0 0)).
  - reflexivity.
  - intros j Hj. assert (j = 0%nat) as -> by lia. reflexivity.
  - discriminate.
  - lia.
Defined.

(** X14. A ticket is waited for once. After [wait] has returned the record
    of a tracked ticket, [enquire] on that ticket gives a made-up record
    in [CL_COMM_DROPPED], and a second [wait] for the ticket returns the
    same at once, without blocking. *)
Theorem wait_consumes_ticket (env : Env) (cc cc' : ClusterComm)
    clientTxId coordTxId (ticket : Ticket) shard (timeout : ClusterCommTimeout)
    others fuel (r : ClusterCommResult) (n : nat) :
  ticket <> 0 ->
  is_Some (responses cc !! ticket) ->
  wait env cc clientTxId coordTxId ticket shard timeout others fuel = Some (r, cc', n) ->
  enquire env cc' ticket = dropped_result env ticket /\
  forall clientTxId' coordTxId' shard' timeout' others' fuel',
    wait env cc' clientTxId' coordTxId' ticket shard' timeout' others' fuel'
    = Some (dropped_result env ticket, cc', O).
Proof.
  intros Hne [response Htracked] Hwait.
  assert (Hfind : wait_find cc clientTxId coordTxId ticket shard = Some (ticket, response)).
  { unfold wait_find. apply Z.eqb_neq in Hne. rewrite Hne.
    match goal with |- _ <$> ?o = _ => replace o with (Some response) end; done. }
  destruct (wait_result env cc clientTxId coordTxId ticket shard timeout timeout
              others fuel) as [_ Hres].
  destruct (Hres r cc' n ticket response Hfind Hwait) as (_ & _ & Hgone).
  split.
  - unfold enquire.
    match goal with
    | |- context [match ?o with _ => _ end] => replace o with (@None AsyncResponse)
    end; done.
  - intros. unfold wait, wait_find. apply Z.eqb_neq in Hne. rewrite Hne.
    match goal with
    | |- context [_ <$> ?o] => replace o with (@None AsyncResponse)
    end; done.
Qed.

Lemma wait_consumes_ticket_witness :
  let env := cluster false in
  let cc := snd (asyncRequest env (fresh_ClusterComm env) "" 9 "shard:S1" GET "/x"
                   None ∅ None 5%Q false (-1)%Q 0 0%Q) in
  exists r cc' n,
    wait env cc "" 0 1 "" 5%Q (fun _ => connect_refused) 3 = Some (r, cc', n) /\
    enquire env cc' 1 = dropped_result env 1 /\
    forall clientTxId' coordTxId' shard' timeout' others' fuel',
      wait env cc' clientTxId' coordTxId' 1 shard' timeout' others' fuel'
      = Some (dropped_result env 1, cc', O).
Proof.
  intros env cc.
  destruct (wait env cc "" 0 1 "" 5%Q (fun _ => connect_refused) 3)
    as [[[r cc'] n]|] eqn:E; [|by vm_compute in E].
  exists r, cc', n. split; [reflexivity|].
  apply (wait_consumes_ticket env cc cc' "" 0 1 "" 5%Q (fun _ => connect_refused) 3 r n).
  - discriminate.
  - eexists. reflexivity.
  - exact E.
Defined.

(** ** drop and the queues *)

Lemma drop_selects_set_dropped c t ticket s (b : bool) (res : ClusterCommResult) :
  drop_selects c t ticket s (set_dropped b res) = drop_selects c t ticket s res.
Proof. reflexivity. Qed.

Lemma drop_toSend_again (env : Env) (sel : ClusterCommResult -> bool) :
  (forall res, sel (set_dropped true res) = sel res) ->
  forall q index q' index',
    drop_toSend env sel q index = Some (q', index') ->
    drop_toSend env sel q' index' = Some (q', index').
Proof.
  intros Hsel. induction q as [|[node op] rest IH]; intros index q' index' H; simpl in H.
  - by injection H as <- <-.
  - destruct (sel (op_result op)) eqn:Es.
    + case_bool_decide as Hst.
      * destruct (drop_toSend env sel rest index) as [[rest' i']|] eqn:E; [|discriminate].
        simpl in H. injection H as <- <-. simpl.
        rewrite Hsel, Es, bool_decide_eq_true_2 by done.
        by rewrite (IH _ _ _ E).
      * destruct (index !! operationID (op_result op)) as [node'|]; [|discriminate].
        destruct (maintainerMode env && negb (node =? node')%nat); [discriminate|].
        by apply IH in H.
    + destruct (drop_toSend env sel rest index) as [[rest' i']|] eqn:E; [|discriminate].
      simpl in H. injection H as <- <-. simpl. rewrite Es.
      by rewrite (IH _ _ _ E).
Qed.

Lemma drop_received_filter (sel : ClusterCommResult -> bool) (q : Queue)
    (index : gmap Z nat) :
  fst (drop_received sel q index)
  = @filter _ (list (nat * ClusterCommOperation)) _ (fun e => sel (op_result (snd e)) = false) _ q.
Proof.
  revert index. induction q as [|[node op] rest IH]; intros index; [reflexivity|].
  destruct (sel (op_result op)) eqn:Es.
  - rewrite filter_cons_False by (simpl; congruence).
    cbn [drop_received]. rewrite Es. apply IH.
  - rewrite filter_cons_True by done.
    cbn [drop_received]. rewrite Es.
    specialize (IH index). destruct (drop_received sel rest index).
    cbn [fst] in *. by rewrite IH.
Qed.

Lemma drop_received_again (sel : ClusterCommResult -> bool) :
  forall q index q' index',
    drop_received sel q index = (q', index') ->
    drop_received sel q' index' = (q', index').
Proof.
  induction q as [|[node op] rest IH]; intros index q' index' H; simpl in H.
  - by injection H as <- <-.
  - destruct (sel (op_result op)) eqn:Es.
    + by apply IH in H.
    + destruct (drop_received sel rest index) as [rest' i'] eqn:E.
      injection H as <- <-. simpl. rewrite Es. by rewrite (IH _ _ _ E).
Qed.

(** X15. [drop] is idempotent: a second [drop] with the same arguments
    right after one that went through goes through as well and changes
    nothing. *)
Theorem drop_idempotent (env : Env) (cc cc' : ClusterComm)
    clientTxId coordTxId ticket shard :
  drop env cc clientTxId coordTxId ticket shard = Some cc' ->
  drop env cc' clientTxId coordTxId ticket shard = Some cc'.
Proof.
  unfold drop. intros H.
  destruct (drop_toSend _ _ (toSend cc) _) as [[q index]|] eqn:E1; [|discriminate].
  simpl in H.
  destruct (drop_received _ (received cc) _) as [q2 index2] eqn:E2.
  injection H as <-. simpl.
  rewrite (drop_toSend_again env _ (drop_selects_set_dropped _ _ _ _ true) _ _ _ _ E1).
  simpl. by rewrite (drop_received_again _ _ _ _ _ E2).
Qed.

(** A send queue with one operation being sent and one waiting its turn,
    and a receive queue with one answered operation, all of coordinator
    transaction 9. *)
Lemma drop_idempotent_witness :
  let res := fun id st => set_status st (set_coordTransactionID 9
                            (set_operationID id (new_ClusterCommResult (cluster true)))) in
  let op := fun id st => mkClusterCommOperation (res id st) GET "/x" 5%Q 5%Q in
  let cc := with_received [(3%nat, op 3 CL_COMM_RECEIVED)] {[3 := 3%nat]}
              (with_toSend [(1%nat, op 1 CL_COMM_SENDING); (2%nat, op 2 CL_COMM_SUBMITTED)]
                 {[1 := 1%nat; 2 := 2%nat]} (fresh_ClusterComm (cluster true))) in
  exists cc',
    drop (cluster true) cc "" 9 0 "" = Some cc' /\
    drop (cluster true) cc' "" 9 0 "" = Some cc' /\
    toSend cc' = [(1%nat, set_op_result (set_dropped true (res 1 CL_COMM_SENDING))
                            (op 1 CL_COMM_SENDING))] /\
    received cc' = [].
Proof.
  intros res op cc.
  destruct (drop (cluster true) cc "" 9 0 "") as [cc'|] eqn:E; [|by vm_compute in E].
  exists cc'. split; [reflexivity|].
  split; [exact (drop_idempotent (cluster true) cc cc' "" 9 0 "" E)|].
  vm_compute in E. injection E as <-. split; reflexivity.
Defined.

Lemma drop_toSend_effect (env : Env) (sel : ClusterCommResult -> bool) :
  (forall res, sel (set_dropped true res) = sel res) ->
  forall q index q' index',
    drop_toSend env sel q index = Some (q', index') ->
    (forall e, e ∈ q' -> sel (op_result (snd e)) = true ->
       status (op_result (snd e)) = CL_COMM_SENDING /\ dropped (op_result (snd e)) = true) /\
    (forall e, e ∈ q -> sel (op_result (snd e)) = false -> e ∈ q') /\
    (forall e, e ∈ q' -> sel (op_result (snd e)) = false -> e ∈ q).
Proof.
  intros Hsel. induction q as [|[node op] rest IH]; intros index q' index' H; simpl in H.
  - injection H as <- <-. split; [|split]; intros e He; by apply elem_of_nil in He.
  - destruct (sel (op_result op)) eqn:Es.
    + case_bool_decide as Hst.
      * destruct (drop_toSend env sel rest index) as [[rest' i']|] eqn:E; [|discriminate].
        simpl in H. injection H as <- <-.
        destruct (IH _ _ _ E) as (IH1 & IH2 & IH3). split; [|split].
        -- intros e He Hs. apply elem_of_cons in He as [-> | He]; [by simpl | by apply IH1].
        -- intros e He Hs. apply elem_of_cons in He as [-> | He].
           ++ simpl in Hs. congruence.
           ++ apply elem_of_cons. right. by apply IH2.
        -- intros e He Hs. apply elem_of_cons in He as [-> | He].
           ++ simpl in Hs. rewrite Hsel in Hs. congruence.
           ++ apply elem_of_cons. right. by apply IH3.
      * destruct (index !! operationID (op_result op)) as [node'|]; [|discriminate].
        destruct (maintainerMode env && negb (node =? node')%nat); [discriminate|].
        destruct (IH _ _ _ H) as (IH1 & IH2 & IH3). split; [done|]. split.
        -- intros e He Hs. apply elem_of_cons in He as [-> | He].
           ++ simpl in Hs. congruence.
           ++ by apply IH2.
        -- intros e He Hs. apply elem_of_cons. right. by apply IH3.
    + destruct (drop_toSend env sel rest index) as [[rest' i']|] eqn:E; [|discriminate].
      simpl in H. injection H as <- <-.
      destruct (IH _ _ _ E) as (IH1 & IH2 & IH3). split; [|split].
      * intros e He Hs. apply elem_of_cons in He as [-> | He].
        -- simpl in Hs. congruence.
        -- by apply IH1.
      * intros e He Hs. apply elem_of_cons in He as [-> | He].
        -- apply elem_of_cons. by left.
        -- apply elem_of_cons. right. by apply IH2.
      * intros e He Hs. apply elem_of_cons in He as [-> | He].
        -- apply elem_of_cons. by left.
        -- apply elem_of_cons. right. by apply IH3.
Qed.

Lemma drop_queues (env : Env) (cc cc' : ClusterComm)
    clientTxId coordTxId ticket shard :
  drop env cc clientTxId coordTxId ticket shard = Some cc' ->
  let sel := drop_selects clientTxId coordTxId ticket shard in
  received cc'
  = @filter _ (list (nat * ClusterCommOperation)) _
      (fun e => sel (op_result (snd e)) = false) _ (received cc) /\
  (forall e, e ∈ toSend cc' -> sel (op_result (snd e)) = true ->
     status (op_result (snd e)) = CL_COMM_SENDING /\ dropped (op_result (snd e)) = true) /\
  (forall e, sel (op_result (snd e)) = false -> e ∈ toSend cc' <-> e ∈ toSend cc).
Proof.
  intros H sel. unfold drop in H. fold sel in H.
  destruct (drop_toSend _ _ (toSend cc) _) as [[q index]|] eqn:E1; [|discriminate].
  simpl in H.
  pose proof (drop_received_filter sel (received cc) (receivedByOpID cc)) as Hf.
  destruct (drop_received sel (received cc) _) as [q2 index2] eqn:E2.
  injection H as <-. simpl in *.
  destruct (drop_toSend_effect env sel (drop_selects_set_dropped _ _ _ _ true) _ _ _ _ E1)
    as (H1 & H2 & H3).
  split; [exact Hf|]. split; [exact H1|].
  intros e Hs. split; [intros He; by apply H3 | intros He; by apply H2].
Qed.

(** X16. What a [drop] that went through leaves in the queues. In
    [received], exactly the operations it does not select are left, in
    their order. In [toSend], the operations it does not select are the
    same as before, and every operation it selects that is still there is
    one in [CL_COMM_SENDING], now flagged [dropped]. *)
Theorem drop_effect (env : Env) (cc cc' : ClusterComm)
    clientTxId coordTxId ticket shard :
  drop env cc clientTxId coordTxId ticket shard = Some cc' ->
  let sel := drop_selects clientTxId coordTxId ticket shard in
  received cc'
  = @filter _ (list (nat * ClusterCommOperation)) _
      (fun e => sel (op_result (snd e)) = false) _ (received cc) /\
  (forall e, e ∈ toSend cc' -> sel (op_result (snd e)) = true ->
     status (op_result (snd e)) = CL_COMM_SENDING /\ dropped (op_result (snd e)) = true) /\
  (forall e, sel (op_result (snd e)) = false -> e ∈ toSend cc' <-> e ∈ toSend cc).
Proof. apply drop_queues. Qed.

Lemma drop_effect_witness :
  let res := fun id st => set_status st (set_coordTransactionID 9
                            (set_operationID id (new_ClusterCommResult (cluster true)))) in
  let op := fun id st => mkClusterCommOperation (res id st) GET "/x" 5%Q 5%Q in
  let cc := with_received [(3%nat, op 3 CL_COMM_RECEIVED)] {[3 := 3%nat]}
              (with_toSend [(1%nat, op 1 CL_COMM_SENDING); (2%nat, op 2 CL_COMM_SUBMITTED)]
                 {[1 := 1%nat; 2 := 2%nat]} (fresh_ClusterComm (cluster true))) in
  exists cc',
    drop (cluster true) cc "" 9 0 "" = Some cc' /\
    received cc'
    = @filter _ (list (nat * ClusterCommOperation)) _
        (fun e => drop_selects "" 9 0 "" (op_result (snd e)) = false) _ (received cc).
Proof.
  intros res op cc.
  destruct (drop (cluster true) cc "" 9 0 "") as [cc'|] eqn:E; [|by vm_compute in E].
  exists cc'. split; [reflexivity|].
  exact (proj1 (drop_effect (cluster true) cc cc' "" 9 0 "" E)).
Defined.

(** X17. The ticket argument of [drop] cannot narrow the selection: the
    test is "ticket equal or [match]", so with an empty client
    transaction id, coordinator transaction id 0 and an empty shard every
    operation is selected, whatever ticket is given. Such a [drop]
    empties [received] and leaves in [toSend] only operations in
    [CL_COMM_SENDING], all flagged [dropped]. *)
Theorem drop_by_ticket_alone (env : Env) (cc cc' : ClusterComm) (ticket : OperationID) :
  drop env cc "" 0 ticket "" = Some cc' ->
  received cc' = [] /\
  forall e, e ∈ toSend cc' ->
    status (op_result (snd e)) = CL_COMM_SENDING /\ dropped (op_result (snd e)) = true.
Proof.
  intros H.
  assert (Hall : forall res, drop_selects "" 0 ticket "" res = true).
  { intros res. unfold drop_selects, match_. simpl. apply orb_true_r. }
  destruct (drop_queues env cc cc' "" 0 ticket "" H) as (Hr & Hs & _).
  split.
  - rewrite Hr. clear Hr. induction (received cc) as [|e q IH]; [reflexivity|].
    rewrite filter_cons_False; [exact IH|]. rewrite Hall. discriminate.
  - intros e He. apply Hs; [exact He | apply Hall].
Qed.

Lemma drop_by_ticket_alone_witness :
  let res := fun id st => set_status st (set_coordTransactionID 9
                            (set_operationID id (new_ClusterCommResult (cluster true)))) in
  let op := fun id st => mkClusterCommOperation (res id st) GET "/x" 5%Q 5%Q in
  let cc := with_received [(3%nat, op 3 CL_COMM_RECEIVED)] {[3 := 3%nat]}
              (with_toSend [(1%nat, op 1 CL_COMM_SENDING); (2%nat, op 2 CL_COMM_SUBMITTED)]
                 {[1 := 1%nat; 2 := 2%nat]} (fresh_ClusterComm (cluster true))) in
  exists cc',
    drop (cluster true) cc "" 0 2 "" = Some cc' /\
    received cc' = [] /\
    forall e, e ∈ toSend cc' ->
      status (op_result (snd e)) = CL_COMM_SENDING /\ dropped (op_result (snd e)) = true.
Proof.
  intros res op cc.
  destruct (drop (cluster true) cc "" 0 2 "") as [cc'|] eqn:E; [|by vm_compute in E].
  exists cc'. split; [reflexivity|].
  exact (drop_by_ticket_alone (cluster true) cc cc' 2 E).
Defined.

(** X18. [moveFromSendToReceived] with assertions compiled out, for an
    operation that the index finds in [toSend]: the operation leaves
    [toSend] and its index in any case. If it was flagged [dropped] the
    function returns [false] and the operation is forgotten, [received]
    staying as it was; otherwise it returns [true], the operation is
    appended to [received] and indexed there, its status going from
    [CL_COMM_SENDING] to [CL_COMM_SENT] and staying as it is otherwise. The
    table [responses] is not touched. *)
Theorem moveFromSendToReceived_moves (env : Env) (cc : ClusterComm)
    (operationID : OperationID) (node pos : nat) (op : ClusterCommOperation) :
  maintainerMode env = false ->
  toSendByOpID cc !! operationID = Some node ->
  queue_find node (toSend cc) = Some (pos, (node, op)) ->
  exists cc',
    moveFromSendToReceived env cc operationID
    = Finished (negb (dropped (op_result op)), cc') /\
    toSend cc' = delete pos (toSend cc) /\
    toSendByOpID cc' !! operationID = None /\
    responses cc' = responses cc /\
    (dropped (op_result op) = true ->
       received cc' = received cc /\ receivedByOpID cc' = receivedByOpID cc) /\
    (dropped (op_result op) = false ->
       exists op',
         received cc' = received cc ++ [(node, op')] /\
         receivedByOpID cc' !! operationID = Some node /\
         status (op_result op')
         = (if bool_decide (status (op_result op) = CL_COMM_SENDING)
            then CL_COMM_SENT else status (op_result op)) /\
         set_status (status (op_result op)) (op_result op')
         = set_status (status (op_result op)) (op_result op)).
Proof.
  intros Hmode Hidx Hfind. unfold moveFromSendToReceived.
  rewrite Hmode, Hidx, Hfind.
  destruct (dropped (op_result op)) eqn:Hd.
  - eexists. split; [reflexivity|]. simpl.
    split; [done|]. split; [apply lookup_delete_eq|]. split; [done|].
    split; [done | discriminate].
  - eexists. split; [reflexivity|]. simpl.
    split; [done|]. split; [apply lookup_delete_eq|]. split; [done|].
    split; [discriminate|]. intros _. eexists.
    split; [reflexivity|]. split; [apply lookup_insert_eq|].
    case_bool_decide; by split.
Qed.

Lemma moveFromSendToReceived_moves_witness :
  let res := set_status CL_COMM_SENDING
               (set_operationID 1 (new_ClusterCommResult (cluster false))) in
  let op := mkClusterCommOperation res GET "/x" 5%Q 5%Q in
  let cc := with_toSend [(1%nat, op)] {[1 := 1%nat]} (fresh_ClusterComm (cluster false)) in
  exists cc',
    moveFromSendToReceived (cluster false) cc 1 = Finished (true, cc') /\
    toSend cc' = [] /\
    exists op', received cc' = [(1%nat, op')] /\ status (op_result op') = CL_COMM_SENT.
Proof.
  intros res op cc.
  destruct (moveFromSendToReceived_moves (cluster false) cc 1 1 0 op)
    as (cc' & Hrun & Hsend & _ & _ & _ & Hmoved); [reflexivity..|].
  destruct (Hmoved eq_refl) as (op' & Hrecv & _ & Hst & _).
  exists cc'. split; [exact Hrun|]. split; [exact Hsend|].
  exists op'. split; [exact Hrecv | exact Hst].
Defined.

(** ** Correlation headers *)

Lemma find_colon_cons (x : Ascii.ascii) (s : string) :
  find_colon 0 (String x s)
  = if Ascii.ascii_dec colon x then Some O else S <$> find_colon 0 s.
Proof.
  unfold find_colon.
  change (String.index 0 ":" (String x s))
    with (if match Ascii.ascii_dec colon x with
             | left _ => String.prefix "" s
             | right _ => false
             end
          then Some O
          else match String.index 0 ":" s with
               | Some n => Some (S n)
               | None => None
               end).
  destruct (Ascii.ascii_dec colon x); [|reflexivity].
  by destruct s.
Qed.

(** The first colon of [a:b], for [a] without a colon, is right after
    [a]. *)
Lemma find_colon_first (a b : string) :
  find_colon 0 a = None ->
  find_colon 0 (a +:+ ":" +:+ b) = Some (String.length a).
Proof.
  induction a as [|x a IH]; intros H.
  - change ("" +:+ ":" +:+ b) with (String colon b). rewrite find_colon_cons.
    by destruct (Ascii.ascii_dec colon colon).
  - rewrite string_app_cons, find_colon_cons. rewrite find_colon_cons in H.
    destruct (Ascii.ascii_dec colon x); [discriminate|].
    destruct (find_colon 0 a); [discriminate|]. by rewrite IH.
Qed.

Lemma find_colon_skip (a rest : string) (n : nat) :
  find_colon (String.length a + n) (a +:+ rest)
  = (fun m => (String.length a + m)%nat) <$> find_colon n rest.
Proof.
  induction a as [|x a IH].
  - change ("" +:+ rest) with rest. simpl. by destruct (find_colon n rest).
  - rewrite string_app_cons. unfold find_colon in *. simpl. rewrite IH.
    by destruct (String.index n ":" rest).
Qed.

(** After the first colon of [a:b] the search goes on in [b]. *)
Lemma find_colon_next (a b : string) :
  find_colon (S (String.length a)) (a +:+ ":" +:+ b)
  = (fun m => (S (String.length a) + m)%nat) <$> find_colon 0 b.
Proof.
  pose proof (find_colon_skip (a +:+ ":") b 0) as H.
  rewrite string_app_assoc, string_length_app in H. simpl in H.
  replace (String.length a + 1 + 0)%nat with (S (String.length a)) in H by lia.
  rewrite H. destruct (find_colon 0 b); simpl; [f_equal; lia | reflexivity].
Qed.

Lemma substr_from_next (a b : string) :
  substr_from (S (String.length a)) (a +:+ ":" +:+ b) = b.
Proof.
  pose proof (substr_from_app (a +:+ ":") b) as H.
  rewrite string_app_assoc, string_length_app in H. simpl in H.
  by replace (String.length a + 1)%nat with (S (String.length a)) in H by lia.
Qed.

(** X19. [processAnswer] with assertions compiled out refuses a header
    without a colon ("could not find coordinator ID ...") and also a
    header [id:ticket] of two fields ("could not find operationID ..."):
    the code looks for a second colon, after the ticket. In both cases the
    dispatcher is left as it was. *)
Theorem processAnswer_malformed (env : Env) (aenv : AnswerEnv) (cc : ClusterComm)
    (answer : HttpRequest) :
  maintainerMode env = false ->
  (forall id, find_colon 0 id = None ->
     processAnswer env aenv cc id (Some answer)
     = Finished (inr ("could not find coordinator ID in 'X-Arango-Coordinator'", cc))) /\
  (forall id ticket, find_colon 0 id = None -> find_colon 0 ticket = None ->
     processAnswer env aenv cc (id +:+ ":" +:+ ticket) (Some answer)
     = Finished (inr ("could not find operationID in 'X-Arango-Coordinator'", cc))).
Proof.
  intros Hmode. unfold processAnswer. rewrite Hmode. split.
  - intros id H. by rewrite H.
  - intros id ticket Hid Hticket.
    by rewrite find_colon_first, find_colon_next, Hticket.
Qed.

Lemma processAnswer_malformed_witness :
  processAnswer (cluster false) answers (fresh_ClusterComm (cluster false)) "me:17"
    (Some answer_201)
  = Finished (inr ("could not find operationID in 'X-Arango-Coordinator'",
                   fresh_ClusterComm (cluster false))).
Proof.
  apply (proj2 (processAnswer_malformed (cluster false) answers
                  (fresh_ClusterComm (cluster false)) answer_201 eq_refl) "me" "17");
    reflexivity.
Defined.

Lemma list_delete_insert {A : Type} (l : list A) (i : nat) (x : A) :
  delete i (<[i := x]> l) = delete i l.
Proof.
  revert i. induction l as [|y l IH]; intros [|i]; simpl; try reflexivity.
  f_equal. apply IH.
Qed.

Lemma processAnswer_wellformed (env : Env) (aenv : AnswerEnv) (cc : ClusterComm)
    (answer : HttpRequest) (id ticket rest : string) :
  maintainerMode env = false ->
  find_colon 0 id = None -> find_colon 0 ticket = None ->
  let operationID := uint64 aenv (ticket +:+ ":" +:+ rest) in
  processAnswer env aenv cc (id +:+ ":" +:+ ticket +:+ ":" +:+ rest) (Some answer)
  = match receivedByOpID cc !! operationID with
    | Some node =>
        match processAnswer_found aenv answer operationID node
                (received cc) (receivedByOpID cc) with
        | None => Crashed
        | Some (_, q, index) => Finished (inr ("", with_received q index cc))
        end
    | None =>
        match toSendByOpID cc !! operationID with
        | Some node =>
            match processAnswer_found aenv answer operationID node
                    (toSend cc) (toSendByOpID cc) with
            | None => Crashed
            | Some (_, q, index) => Finished (inr ("", with_toSend q index cc))
            end
        | None => Finished (inr ("operation was already dropped by sender", cc))
        end
    end.
Proof.
  intros Hmode Hid Hticket operationID. unfold processAnswer.
  rewrite Hmode, find_colon_first, find_colon_next by done.
  rewrite find_colon_first by done. simpl.
  by rewrite substr_from_next.
Qed.

(** X20. [processAnswer] looks for the operation in the two queues only.
    With assertions compiled out, an answer with a header
    [id:ticket:rest] whose operation id is in neither index is refused
    with "operation was already dropped by sender" and changes nothing,
    whether or not the ticket is tracked in [responses]. The operation id
    is what [uint64] makes of everything after the first colon,
    [ticket:rest]. *)
Theorem processAnswer_not_queued (env : Env) (aenv : AnswerEnv) (cc : ClusterComm)
    (answer : HttpRequest) (id ticket rest : string) :
  maintainerMode env = false ->
  find_colon 0 id = None -> find_colon 0 ticket = None ->
  receivedByOpID cc !! uint64 aenv (ticket +:+ ":" +:+ rest) = None ->
  toSendByOpID cc !! uint64 aenv (ticket +:+ ":" +:+ rest) = None ->
  processAnswer env aenv cc (id +:+ ":" +:+ ticket +:+ ":" +:+ rest) (Some answer)
  = Finished (inr ("operation was already dropped by sender", cc)).
Proof.
  intros Hmode Hid Hticket Hr Hs.
  rewrite processAnswer_wellformed by done. cbv zeta. by rewrite Hr, Hs.
Qed.

(** Ticket 1 is tracked in [responses], submitted by [asyncRequest]; the
    answer for it is refused all the same. *)
Lemma processAnswer_not_queued_witness :
  let env := cluster false in
  let cc := snd (asyncRequest env (fresh_ClusterComm env) "ctx" 42 "shard:S1" GET "/x"
                   None ∅ None 5%Q false (-1)%Q 0 0%Q) in
  is_Some (responses cc !! 1) /\
  processAnswer env answers cc "me:1:ctx:42" (Some answer_201)
  = Finished (inr ("operation was already dropped by sender", cc)).
Proof.
  intros env cc. split; [by eexists|].
  apply (processAnswer_not_queued env answers cc answer_201 "me" "1" "ctx:42");
    reflexivity.
Defined.

(** X21. [processAnswer] with assertions compiled out, for an answer whose
    operation sits in [received]: the operation's record gets the answer
    code read from the [x-arango-response-code] header and goes to
    [CL_COMM_RECEIVED]; the function returns the empty string. If the
    operation has a callback and the callback returns true, the operation
    is taken out of [received] and its index; otherwise it stays, updated.
    [toSend] and [responses] are not touched. *)
Theorem processAnswer_received (env : Env) (aenv : AnswerEnv) (cc : ClusterComm)
    (answer : HttpRequest) (id ticket rest : string) (node pos : nat)
    (op : ClusterCommOperation) :
  maintainerMode env = false ->
  find_colon 0 id = None -> find_colon 0 ticket = None ->
  receivedByOpID cc !! uint64 aenv (ticket +:+ ":" +:+ rest) = Some node ->
  queue_find node (received cc) = Some (pos, (node, op)) ->
  let operationID := uint64 aenv (ticket +:+ ":" +:+ rest) in
  let res := set_status CL_COMM_RECEIVED
               (set_answer_code
                  (responseCode aenv (header aenv answer "x-arango-response-code"))
                  (op_result op)) in
  let processed := match callbackOf aenv node with
                   | Some callback => callback res
                   | None => false
                   end in
  exists cc',
    processAnswer env aenv cc (id +:+ ":" +:+ ticket +:+ ":" +:+ rest) (Some answer)
    = Finished (inr ("", cc')) /\
    toSend cc' = toSend cc /\ responses cc' = responses cc /\
    (processed = true ->
       received cc' = delete pos (received cc) /\
       receivedByOpID cc' = delete operationID (receivedByOpID cc)) /\
    (processed = false ->
       received cc' = <[pos := (node, set_op_result res op)]> (received cc) /\
       receivedByOpID cc' = receivedByOpID cc).
Proof.
  intros Hmode Hid Hticket Hidx Hfind operationID res processed.
  rewrite processAnswer_wellformed by done. cbv zeta. fold operationID.
  fold operationID in Hidx. rewrite Hidx. unfold processAnswer_found. rewrite Hfind.
  fold res. subst processed.
  destruct (callbackOf aenv node) as [callback|].
  - destruct (callback res) eqn:Ecb.
    + eexists. split; [reflexivity|]. simpl. split; [done|]. split; [done|].
      split; [|discriminate]. intros _. split; [|done].
      apply list_delete_insert.
    + eexists. split; [reflexivity|]. simpl. split; [done|]. split; [done|].
      split; [discriminate | done].
  - eexists. split; [reflexivity|]. simpl. split; [done|]. split; [done|].
    split; [discriminate | done].
Qed.

Lemma processAnswer_received_witness :
  let env := cluster false in
  let res := set_status CL_COMM_SENT (set_operationID 17 (new_ClusterCommResult env)) in
  let op := mkClusterCommOperation res GET "/x" 5%Q 5%Q in
  let cc := with_received [(4%nat, op)] {[17 := 4%nat]} (fresh_ClusterComm env) in
  exists cc',
    processAnswer env answers cc "me:17:ctx:42" (Some answer_201) = Finished (inr ("", cc')) /\
    received cc'
    = [(4%nat, set_op_result (set_status CL_COMM_RECEIVED (set_answer_code 201 res)) op)].
Proof.
  intros env res op cc.
  destruct (processAnswer_received env answers cc answer_201 "me" "17" "ctx:42" 4 0 op)
    as (cc' & Hrun & _ & _ & _ & Hkept); [reflexivity..|].
  exists cc'. split; [exact Hrun|].
  exact (proj1 (Hkept eq_refl)).
Defined.

(** ** asyncAnswer *)

(** X22. [asyncAnswer] on a header [id:rest] takes [id], the text before
    the first colon, as the coordinator. If the coordinator has an
    endpoint and a connection to it can be leased, exactly one request is
    sent: a PUT of [/_api/shard-comm] to that endpoint with the response's
    body, whose headers are the response's with [X-Arango-Coordinator] set
    to the header as it came in, [X-Arango-Response-Code] to the
    stringified response code, and [Authorization] and the HLC header set;
    the connection is returned if the exchange was complete and reported
    broken if not. *)
Theorem asyncAnswer_sends (env : Env) (aenv : AnswerEnv)
    (leaseConnection : string -> bool) (complete : bool) (ts : Z)
    (id rest : string) (response : GeneralResponse) :
  find_colon 0 id = None ->
  getServerEndpoint env id <> "" ->
  leaseConnection (getServerEndpoint env id) = true ->
  exists logs request,
    asyncAnswer env aenv leaseConnection complete ts (id +:+ ":" +:+ rest) (Some response)
    = inr (logs, Some (request,
                       if complete then returnConnection else brokenConnection)) /\
    ans_endpoint request = getServerEndpoint env id /\
    ans_type request = PUT /\ ans_path request = "/_api/shard-comm" /\
    ans_body request = resp_body response /\
    ans_headers request !! "X-Arango-Coordinator" = Some (id +:+ ":" +:+ rest) /\
    ans_headers request !! "X-Arango-Response-Code"
    = Some (responseString aenv (resp_code response)) /\
    ans_headers request !! "Authorization" = Some (getAuthentication env) /\
    ans_headers request !! HLCHeader = Some (encodeTimeStamp env ts) /\
    forall k, k <> "X-Arango-Coordinator" -> k <> "X-Arango-Response-Code" ->
              k <> "Authorization" -> k <> HLCHeader ->
              ans_headers request !! k = resp_headers response !! k.
Proof.
  intros Hid Hend Hlease. unfold asyncAnswer.
  rewrite find_colon_first by done. rewrite substr_prefix_app.
  apply string_eqb_false in Hend. rewrite Hend, Hlease. simpl.
  eexists _, _. split; [reflexivity|]. simpl.
  repeat (split; [reflexivity|]).
  split; [by rewrite !lookup_insert_ne, lookup_insert_eq by done|].
  split; [by rewrite !lookup_insert_ne, lookup_insert_eq by done|].
  split; [by rewrite !lookup_insert_ne, lookup_insert_eq by done|].
  split; [by rewrite lookup_insert_eq|].
  intros k H1 H2 H3 H4. by rewrite !lookup_insert_ne by done.
Qed.

Lemma asyncAnswer_sends_witness :
  exists logs request,
    asyncAnswer (cluster false) answers (fun _ => true) true 0 "srvA:17:ctx:42"
      (Some (mkGeneralResponse 201 "{}" ∅))
    = inr (logs, Some (request, returnConnection)) /\
    ans_endpoint request = "tcp://h:8529" /\
    ans_headers request !! "X-Arango-Coordinator" = Some "srvA:17:ctx:42".
Proof.
  destruct (asyncAnswer_sends (cluster false) answers (fun _ => true) true 0
              "srvA" "17:ctx:42" (mkGeneralResponse 201 "{}" ∅))
    as (logs & request & Hrun & Hend & _ & _ & _ & Hco & _);
    [reflexivity | discriminate | reflexivity |].
  exists logs, request. split; [exact Hrun|]. split; [exact Hend | exact Hco].
Defined.

(** X23. [asyncAnswer] sends nothing, and only logs, when the header has no
    colon, when the coordinator named before the first colon has no
    endpoint, or when no connection to the endpoint can be leased; for a
    response that is not an [HttpResponse] it throws. *)
Theorem asyncAnswer_sends_nothing (env : Env) (aenv : AnswerEnv)
    (leaseConnection : string -> bool) (complete : bool) (ts : Z)
    (response : GeneralResponse) :
  (forall h, asyncAnswer env aenv leaseConnection complete ts h None
             = inl TRI_ERROR_INTERNAL) /\
  (forall id, find_colon 0 id = None ->
     exists logs,
       asyncAnswer env aenv leaseConnection complete ts id (Some response)
       = inr (logs, None)) /\
  (forall id rest, find_colon 0 id = None ->
     getServerEndpoint env id = "" \/ leaseConnection (getServerEndpoint env id) = false ->
     exists logs,
       asyncAnswer env aenv leaseConnection complete ts (id +:+ ":" +:+ rest)
         (Some response)
       = inr (logs, None)).
Proof.
  split; [reflexivity|]. split.
  - intros id Hid. unfold asyncAnswer. rewrite Hid. eauto.
  - intros id rest Hid Hcase. unfold asyncAnswer.
    rewrite find_colon_first by done. rewrite substr_prefix_app.
    destruct (string_eqb (getServerEndpoint env id) "") eqn:E; [eauto|].
    destruct Hcase as [Hempty | Hlease].
    + apply string_eqb_false in E. contradiction.
    + rewrite Hlease. simpl. eauto.
Qed.

Lemma asyncAnswer_sends_nothing_witness :
  exists logs,
    asyncAnswer (cluster false) answers (fun _ => true) true 0 "srvB:17:ctx:42"
      (Some (mkGeneralResponse 201 "{}" ∅))
    = inr (logs, None).
Proof.
  apply (proj2 (proj2 (asyncAnswer_sends_nothing (cluster false) answers (fun _ => true)
                         true 0 (mkGeneralResponse 201 "{}" ∅))) "srvB" "17:ctx:42").
  - reflexivity.
  - left. reflexivity.
Defined.

(** ** performSingleRequest *)

(** X24. [performSingleRequest] for a request whose destination does not
    resolve returns 0 with [nrDone] 0 at once, whatever the fuel: the
    request is not marked done, its result is the record in
    [CL_COMM_BACKEND_UNAVAILABLE] that resolution made, no answer is made
    up and nothing is handed to the transport. *)
Theorem performSingleRequest_unresolved (env : Env) (cc : ClusterComm)
    (req : ClusterCommRequest) (timeout : ClusterCommTimeout)
    (coordTxId : CoordTransactionID) (ts : Z) arrival (fuel : nat) :
  ~ resolved env (rq_destination req) ->
  exists req' cc',
    performSingleRequest env cc req timeout coordTxId ts arrival fuel
    = Finished (O, O, req', None, cc') /\
    rq_done req' = rq_done req /\
    status (rq_result req') = CL_COMM_BACKEND_UNAVAILABLE /\
    _communicator cc' = _communicator cc /\
    responses cc' = responses cc.
Proof.
  intros Hun. unfold performSingleRequest, syncRequest. simpl.
  rewrite prepareRequest_unresolved by done. simpl.
  rewrite bool_decide_eq_true_2 by (by apply setDestination_unresolved).
  eexists _, _. split; [reflexivity|]. simpl.
  split; [done|]. split; [by apply setDestination_unresolved | done].
Qed.

Lemma performSingleRequest_unresolved_witness :
  exists req' cc',
    performSingleRequest (cluster false) (fresh_ClusterComm (cluster false))
      (mkClusterCommRequest "shard:S2" GET "/x" None None
         (new_ClusterCommResult (cluster false)) false)
      5%Q 9 0 (fun _ => None) 0
    = Finished (O, O, req', None, cc') /\
    rq_done req' = false /\
    status (rq_result req') = CL_COMM_BACKEND_UNAVAILABLE /\
    _communicator cc' = _communicator (fresh_ClusterComm (cluster false)) /\
    responses cc' = responses (fresh_ClusterComm (cluster false)).
Proof.
  apply (performSingleRequest_unresolved (cluster false) (fresh_ClusterComm (cluster false))
           (mkClusterCommRequest "shard:S2" GET "/x" None None
              (new_ClusterCommResult (cluster false)) false) 5%Q 9 0 (fun _ => None) 0).
  unfold resolved. simpl. tauto.
Defined.

(** X25. What [performSingleRequest] makes of the record [res] that
    [syncRequest] returned. [CL_COMM_BACKEND_UNAVAILABLE] gives 0 with
    [nrDone] 0 and the request not marked done; so does [CL_COMM_ERROR]
    with HTTP code 503, the status being rewritten to
    [CL_COMM_BACKEND_UNAVAILABLE]. Every other record that carries a
    response, a timeout or another HTTP error included, is reported as
    [CL_COMM_RECEIVED] and done with [nrDone] 1, the answer code being the
    HTTP code and the return value 1 exactly for 200, 201 and 202. A record
    without a response in any other status ends the run at the read of the
    body. *)
Theorem performSingleRequest_outcome (env : Env) (cc cc1 : ClusterComm)
    (req : ClusterCommRequest) (timeout : ClusterCommTimeout)
    (coordTxId : CoordTransactionID) (ts : Z) arrival (fuel n : nat)
    (res : ClusterCommResult) :
  syncRequest env cc "" coordTxId (rq_destination req) (rq_requestType req)
    (rq_path req) (default "" (rq_body req)) (default ∅ (rq_headerFields req))
    timeout ts arrival fuel = Some (res, cc1, n) ->
  let run := performSingleRequest env cc req timeout coordTxId ts arrival fuel in
  (status res = CL_COMM_BACKEND_UNAVAILABLE ->
     exists req', run = Finished (O, O, req', None, cc1) /\
                  rq_done req' = rq_done req /\ rq_result req' = res) /\
  (forall r, status res = CL_COMM_ERROR -> result res = Some r -> resp_code r = 503 ->
     exists req', run = Finished (O, O, req', None, cc1) /\
                  rq_done req' = rq_done req /\
                  rq_result req' = set_status CL_COMM_BACKEND_UNAVAILABLE res) /\
  (forall r, status res <> CL_COMM_BACKEND_UNAVAILABLE ->
     ~ (status res = CL_COMM_ERROR /\ resp_code r = 503) ->
     result res = Some r ->
     exists req',
       run = Finished ((if is_good_code (resp_code r) then 1 else 0)%nat, 1%nat, req',
                       Some (resp_body r, resp_headers r), cc1) /\
       rq_done req' = true /\
       rq_result req' = set_answer_code (resp_code r) (set_status CL_COMM_RECEIVED res)) /\
  (status res <> CL_COMM_BACKEND_UNAVAILABLE -> result res = None -> run = Crashed).
Proof.
  intros Hsync run. subst run. unfold performSingleRequest. simpl. rewrite Hsync.
  simpl. split; [|split; [|split]].
  - intros Hst. rewrite bool_decide_eq_true_2 by done. eauto.
  - intros r Hst Hr Hcode.
    rewrite bool_decide_eq_false_2 by congruence.
    rewrite bool_decide_eq_true_2 by done. rewrite Hr. simpl.
    apply Z.eqb_eq in Hcode. rewrite Hcode. eauto.
  - intros r Hst Hno Hr.
    rewrite bool_decide_eq_false_2 by done. rewrite Hr.
    destruct (bool_decide (status res = CL_COMM_ERROR) && (resp_code r =? 503)) eqn:E.
    { exfalso. apply Hno. apply andb_true_iff in E as [E1 E2].
      apply bool_decide_eq_true in E1. by apply Z.eqb_eq in E2. }
    simpl. eauto.
  - intros Hst Hr. rewrite bool_decide_eq_false_2 by done. rewrite Hr.
    by rewrite andb_false_r.
Qed.

(** The backend answers with a 504: the request is reported as received
    and done, and not counted as good. *)
Lemma performSingleRequest_outcome_witness :
  let env := cluster false in
  let arrival := fun _ : nat => Some (OnError 1 (Some (mkGeneralResponse 504 "late" ∅))) in
  let bad := mkEnv (getResponsibleServer env) (getServerEndpoint env)
               (getAuthentication env) (makeNolockHeaders env) (encodeTimeStamp env)
               false false CL_COMM_BACKEND_UNAVAILABLE (defaultOptions env)
               (fromResponse env)
               (fun _ response r =>
                  mkClusterCommResult (clientTransactionID r) (coordTransactionID r)
                    (operationID r) (shardID r) (serverID r) (endpoint r)
                    "timeout" CL_COMM_TIMEOUT (dropped r) (single r) response
                    (answer_code r) (sendWasComplete r)) in
  exists req' cc',
    performSingleRequest bad (fresh_ClusterComm bad) get_S1 5%Q 9 0 arrival 0
    = Finished (O, 1%nat, req', Some ("late", ∅), cc') /\
    rq_done req' = true /\
    status (rq_result req') = CL_COMM_RECEIVED /\
    answer_code (rq_result req') = 504.
Proof.
  intros env arrival bad.
  destruct (syncRequest bad (fresh_ClusterComm bad) "" 9 (rq_destination get_S1)
              (rq_requestType get_S1) (rq_path get_S1) (default "" (rq_body get_S1))
              (default ∅ (rq_headerFields get_S1)) 5%Q 0 arrival 0)
    as [[[res cc1] n]|] eqn:E; [|by vm_compute in E].
  destruct (performSingleRequest_outcome bad (fresh_ClusterComm bad) cc1 get_S1 5%Q 9 0
              arrival 0 n res E) as (_ & _ & Hother & _).
  assert (Hres : res = mkClusterCommResult "" 0 0 "S1" "srvA" "tcp://h:8529" "timeout"
                         CL_COMM_TIMEOUT false true
                         (Some (mkGeneralResponse 504 "late" ∅)) 0 false).
  { vm_compute in E. by injection E as <- _ _. }
  destruct (Hother (mkGeneralResponse 504 "late" ∅)) as (req' & Hrun & Hdone & Hreq);
    [by rewrite Hres | rewrite Hres; intros [H _]; discriminate H | by rewrite Hres |].
  exists req', cc1. split; [exact Hrun|]. split; [exact Hdone|].
  rewrite Hreq, Hres. split; reflexivity.
Defined.

(** ** performRequests: sending, backoff and counters *)





Lemma handleResult_bookkeeping (env : Env) (startTime endTime : ClusterCommTimeout)
    (index : nat) (res : ClusterCommResult) (l l' : Locals) :
  handleResult env startTime endTime index res l = Some l' ->
  length (requests l') = length (requests l) /\
  length (dueTime l') = length (dueTime l) /\
  opIDtoIndex l' = opIDtoIndex l /\
  (nrDone l <= nrDone l' <= S (nrDone l))%nat /\
  (nrGood l <= nrGood l' <= S (nrGood l))%nat /\
  (nrGood l' - nrGood l <= nrDone l' - nrDone l)%nat /\
  (nrGood l' = S (nrGood l) <->
     status res = CL_COMM_RECEIVED /\ is_good_code (answer_code res) = true).
Proof.
  unfold handleResult.
  assert (Hfin : forall (reqs : list ClusterCommRequest) (dues : list Q) (d g : nat) an,
            length reqs = length (requests l) -> length dues = length (dueTime l) ->
            (nrDone l <= d <= S (nrDone l))%nat -> (nrGood l <= g <= S (nrGood l))%nat ->
            (g - nrGood l <= d - nrDone l)%nat ->
            (g = S (nrGood l) <->
               status res = CL_COMM_RECEIVED /\ is_good_code (answer_code res) = true) ->
            Some (mkLocals reqs dues d g (opIDtoIndex l) (now l) an (readings l) (waits l))
            = Some l' ->
            length (requests l') = length (requests l) /\
            length (dueTime l') = length (dueTime l) /\
            opIDtoIndex l' = opIDtoIndex l /\
            (nrDone l <= nrDone l' <= S (nrDone l))%nat /\
            (nrGood l <= nrGood l' <= S (nrGood l))%nat /\
            (nrGood l' - nrGood l <= nrDone l' - nrDone l)%nat /\
            (nrGood l' = S (nrGood l) <->
               status res = CL_COMM_RECEIVED /\ is_good_code (answer_code res) = true)).
  { intros reqs dues d g an H1 H2 H3 H4 H5 H6 [= <-]. by cbn. }
  case_bool_decide as Hrecv.
  - apply Hfin; rewrite ?length_alter; try done; try lia.
    + destruct (is_good_code (answer_code res)); lia.
    + destruct (is_good_code (answer_code res)); lia.
    + destruct (is_good_code (answer_code res)); split; try done; try lia.
  - destruct (_ || _).
    + destruct (maintainerMode env); [discriminate|].
      destruct (Qle_bool endTime _);
        (apply Hfin; rewrite ?length_alter, ?length_insert; try done; try lia;
         split; [lia | intros [H _]; contradiction]).
    + apply Hfin; rewrite ?length_alter; try done; try lia.
      split; [lia | intros [H _]; contradiction].
Qed.

(** X28. What handling one result does to the bookkeeping of
    [performRequests]: the request and due-time vectors keep their lengths
    and the ticket map is not touched; [nrDone] and [nrGood] never go
    down, each goes up by at most one, and [nrGood] goes up only together
    with [nrDone], so that [nrGood <= nrDone] is kept; [nrGood] goes up
    exactly for a result in [CL_COMM_RECEIVED] with answer code 200, 201
    or 202. *)
Theorem handleResult_counters (env : Env) (startTime endTime : ClusterCommTimeout)
    (index : nat) (res : ClusterCommResult) (l l' : Locals) :
  handleResult env startTime endTime index res l = Some l' ->
  length (requests l') = length (requests l) /\
  length (dueTime l') = length (dueTime l) /\
  opIDtoIndex l' = opIDtoIndex l /\
  (nrDone l <= nrDone l' <= S (nrDone l))%nat /\
  (nrGood l <= nrGood l' <= S (nrGood l))%nat /\
  (nrGood l' - nrGood l <= nrDone l' - nrDone l)%nat /\
  (nrGood l' = S (nrGood l) <->
     status res = CL_COMM_RECEIVED /\ is_good_code (answer_code res) = true).
Proof. apply handleResult_bookkeeping. Qed.

Lemma handleResult_counters_witness :
  exists l',
    handleResult (cluster false) 0%Q 5%Q 0 refused_S1 waiting_for_S1 = Some l' /\
    length (requests l') = 1%nat /\ nrDone l' = 0%nat /\ nrGood l' = 0%nat.
Proof.
  destruct (handleResult (cluster false) 0%Q 5%Q 0 refused_S1 waiting_for_S1)
    as [l'|] eqn:E; [|by vm_compute in E].
  pose proof (handleResult_counters (cluster false) 0%Q 5%Q 0 refused_S1
                waiting_for_S1 l' E) as (Hlen & _).
  exists l'. split; [reflexivity|]. split; [exact Hlen|].
  vm_compute in E. injection E as <-. split; reflexivity.
Defined.

Lemma actionNeeded_fold (endTime : ClusterCommTimeout) (l : Locals) :
  forall (indices : list nat) (a : Q),
    let step := fun (actionNeeded : Q) (i : nat) =>
                  match requests l !! i, dueTime l !! i with
                  | Some rq, Some due =>
                      if negb (rq_done rq) && Qltb due actionNeeded then due
                      else actionNeeded
                  | _, _ => actionNeeded
                  end in
    let r := foldl step a indices in
    (r <= a)%Q /\
    (forall i rq due, i ∈ indices -> requests l !! i = Some rq ->
       dueTime l !! i = Some due -> rq_done rq = false -> (r <= due)%Q) /\
    (r = a \/ exists i rq, i ∈ indices /\ requests l !! i = Some rq /\
                           rq_done rq = false /\ dueTime l !! i = Some r).
Proof.
  induction indices as [|i indices IH]; intros a step r.
  - subst r. simpl. split; [apply Qle_refl|]. split; [|by left].
    intros i rq due Hi. by apply elem_of_nil in Hi.
  - subst r. cbn [foldl]. destruct (IH (step a i)) as (IH1 & IH2 & IH3).
    fold step in IH1, IH2, IH3.
    assert (Hstep : (step a i <= a)%Q /\
                    (forall rq due, requests l !! i = Some rq -> dueTime l !! i = Some due ->
                       rq_done rq = false -> (step a i <= due)%Q) /\
                    (step a i = a \/ exists rq, requests l !! i = Some rq /\
                       rq_done rq = false /\ dueTime l !! i = Some (step a i))).
    { subst step. cbn beta.
      destruct (requests l !! i) as [rq|]; [|split; [apply Qle_refl|]; split; [discriminate | by left]].
      destruct (dueTime l !! i) as [due|]; [|split; [apply Qle_refl|]; split; [discriminate | by left]].
      destruct (rq_done rq) eqn:Hd; cbn [negb andb].
      { split; [apply Qle_refl|]. split; [|by left]. intros ? ? [= <-]. congruence. }
      destruct (Qltb due a) eqn:E.
      - apply Qltb_true in E. split; [lra|]. split.
        + intros ? ? _ [= <-] _. apply Qle_refl.
        + right. by exists rq.
      - assert ((a <= due)%Q)
          by (apply Qle_bool_iff; unfold Qltb in E; by apply negb_false_iff in E).
        split; [apply Qle_refl|]. split; [|by left].
        by intros ? ? _ [= <-] _. }
    destruct Hstep as (S1 & S2 & S3).
    split; [lra|]. split.
    + intros j rq due Hj Hrq Hdue Hdone. apply elem_of_cons in Hj as [-> | Hj].
      * specialize (S2 rq due Hrq Hdue Hdone). lra.
      * by apply (IH2 j rq due).
    + destruct IH3 as [-> | (j & rq & Hj & Hrq & Hd & Hdue)].
      * destruct S3 as [-> | (rq & Hrq & Hd & Hdue)]; [by left|].
        right. exists i, rq. split; [apply elem_of_cons; by left | done].
      * right. exists j, rq. split; [apply elem_of_cons; by right | done].
Qed.

(** X29. How long [performRequests] affords to wait: [computeActionNeeded]
    is never later than [endTime] nor than the due time of any request
    that is not done, and it is [endTime] itself or the due time of one
    such request. *)
Theorem computeActionNeeded_bounds (endTime : ClusterCommTimeout) (l : Locals) :
  (computeActionNeeded endTime l <= endTime)%Q /\
  (forall i rq due, requests l !! i = Some rq -> dueTime l !! i = Some due ->
     rq_done rq = false -> (computeActionNeeded endTime l <= due)%Q) /\
  (computeActionNeeded endTime l = endTime \/
   exists i rq, requests l !! i = Some rq /\ rq_done rq = false /\
                dueTime l !! i = Some (computeActionNeeded endTime l)).
Proof.
  unfold computeActionNeeded.
  destruct (actionNeeded_fold endTime l (seq 0 (length (dueTime l))) endTime)
    as (H1 & H2 & H3).
  split; [exact H1|]. split.
  - intros i rq due Hrq Hdue Hdone. apply (H2 i rq due); try done.
    apply elem_of_seq. apply lookup_lt_Some in Hdue. lia.
  - destruct H3 as [H | (i & rq & _ & Hrq & Hd & Hdue)]; [by left|].
    right. by exists i, rq.
Qed.

Lemma sendDue_one_bookkeeping (env : Env) (world : World) coordTxId startTime endTime
    (i : nat) (l : Locals) (cc : ClusterComm) :
  let l' := fst (sendDue_one env world coordTxId startTime endTime i (l, cc)) in
  nrDone l' = nrDone l /\ nrGood l' = nrGood l /\
  length (requests l') = length (requests l) /\
  length (dueTime l') = length (dueTime l).
Proof.
  unfold sendDue_one.
  destruct (requests l !! i) as [rq|]; [|done].
  destruct (dueTime l !! i) as [due|]; [|done].
  destruct (negb (rq_done rq) && Qle_bool due (now l)); [|done].
  destruct (asyncRequest _ _ _ _ _ _ _ _ _ _ _ _ _ _ _) as [opId cc'].
  cbn. by rewrite !length_insert.
Qed.

Lemma sendDue_bookkeeping (env : Env) (world : World) coordTxId startTime endTime
    (s : Locals * ClusterComm) :
  let l' := fst (sendDue env world coordTxId startTime endTime s) in
  nrDone l' = nrDone (fst s) /\ nrGood l' = nrGood (fst s) /\
  length (requests l') = length (requests (fst s)).
Proof.
  unfold sendDue. generalize (seq 0 (length (requests s.1))). intros indices.
  revert s. induction indices as [|i indices IH]; intros s; [done|].
  cbn [foldl]. destruct (IH (sendDue_one env world coordTxId startTime endTime i s))
    as (H1 & H2 & H3).
  destruct s as [l cc].
  destruct (sendDue_one_bookkeeping env world coordTxId startTime endTime i l cc)
    as (S1 & S2 & S3 & _).
  cbn [fst] in *. rewrite H1, H2, H3. done.
Qed.

Lemma waitResults_bookkeeping (env : Env) (world : World) coordTxId startTime endTime
    (N : nat) :
  forall fuel l cc b l' cc',
    (nrGood l <= nrDone l)%nat -> length (requests l) = N ->
    waitResults env world coordTxId startTime endTime fuel l cc = Finished (b, l', cc') ->
    (nrGood l' <= nrDone l')%nat /\ length (requests l') = N.
Proof.
  induction fuel as [|fuel IH]; intros l cc b l' cc' Hle Hlen H; [discriminate|].
  cbn [waitResults] in H.
  destruct (Qle_bool (actionNeeded (read_now world l)) (now (read_now world l))).
  { by injection H as _ <- _. }
  destruct (wait _ _ _ _ _ _ _ _ _) as [[[res cc1] n]|]; [|discriminate].
  destruct (bool_decide (status res = CL_COMM_TIMEOUT) && (operationID res =? 0)).
  { by injection H as _ <- _. }
  destruct (bool_decide (status res = CL_COMM_DROPPED)).
  { destruct (Qle_bool _ _); [by injection H as _ <- _|].
    eapply IH; [| |exact H]; by cbn. }
  destruct (opIDtoIndex _ !! _) as [index|]; [|eapply IH; [| |exact H]; by cbn].
  destruct (handleResult _ _ _ _ _ _) as [l1|] eqn:E; [|discriminate].
  apply handleResult_bookkeeping in E as (E1 & _ & _ & E2 & E3 & E4 & _).
  cbn in E1, E2, E3, E4.
  assert ((nrGood l1 <= nrDone l1)%nat) by lia.
  assert (length (requests l1) = N) by congruence.
  destruct (length (requests l1) <=? nrDone l1)%nat; [by injection H as _ <- _|].
  eapply IH; [| |exact H]; done.
Qed.

Lemma performRequests_loop_bookkeeping (env : Env) (world : World) coordTxId
    startTime endTime (N : nat) :
  forall fuel l cc good l' cc',
    (nrGood l <= nrDone l)%nat -> length (requests l) = N ->
    performRequests_loop env world coordTxId startTime endTime fuel l cc
    = Finished (good, l', cc') ->
    good = nrGood l' /\ (nrGood l' <= nrDone l')%nat /\ length (requests l') = N.
Proof.
  induction fuel as [|fuel IH]; intros l cc good l' cc' Hle Hlen H; [discriminate|].
  cbn [performRequests_loop] in H.
  destruct (Qle_bool (now l) endTime).
  - destruct (length (requests l) <=? nrDone l)%nat; [by injection H as <- <- _|].
    pose proof (sendDue_bookkeeping env world coordTxId startTime endTime (l, cc))
      as (S1 & S2 & S3).
    destruct (sendDue _ _ _ _ _ _) as [l1 cc1]. cbn [fst] in *.
    destruct (waitResults _ _ _ _ _ _ _ _) as [[[b l2] cc2]| |] eqn:E; try discriminate.
    apply (waitResults_bookkeeping env world coordTxId startTime endTime N) in E
      as [E1 E2]; cbn; [|lia|congruence].
    destruct b; [by injection H as <- <- _|].
    by apply IH in H.
  - destruct (drop _ _ _ _ _ _); [|discriminate]. by injection H as <- <- _.
Qed.

(** X30. Whenever [performRequests] returns, the value returned is the
    number of good answers it counted, it does not exceed [nrDone], and
    the vector of requests has the length it had. *)
Theorem performRequests_returns_counted (env : Env) (world : World) (cc cc' : ClusterComm)
    (reqs : list ClusterCommRequest) (timeout : ClusterCommTimeout)
    (coordTxId : CoordTransactionID) (fuel good : nat) (l' : Locals) :
  performRequests env world cc reqs timeout coordTxId fuel = Finished (good, l', cc') ->
  good = nrGood l' /\ (good <= nrDone l')%nat /\ length (requests l') = length reqs.
Proof.
  unfold performRequests. destruct (length reqs =? 0)%nat.
  - intros [= <- <- _]. by cbn.
  - intros H.
    apply (performRequests_loop_bookkeeping env world coordTxId _ _ (length reqs)) in H
      as (-> & H2 & H3); by cbn.
Qed.

Lemma performRequests_returns_counted_witness :
  exists good l' cc',
    performRequests (cluster false) refusing_world (fresh_ClusterComm (cluster false))
      [get_S1] 1%Q 9 30 = Finished (good, l', cc') /\
    good = nrGood l' /\ (good <= nrDone l')%nat /\ length (requests l') = 1%nat.
Proof.
  destruct (performRequests (cluster false) refusing_world
              (fresh_ClusterComm (cluster false)) [get_S1] 1%Q 9 30)
    as [[[good l'] cc']| |] eqn:E; [|by vm_compute in E..].
  exists good, l', cc'. split; [reflexivity|].
  exact (performRequests_returns_counted _ _ _ _ _ _ _ _ _ _ E).
Defined.
